(** * KANADEV: persistence, practice selection and scoring

    A shallow embedding of the progress store ([load_progress],
    [save_progress]), the selection weight ([choice_weight]), the two
    practice selectors ([Quiz.weighted_pick], [TypeMode._pick]) and the
    answer handlers ([Quiz.choose], the submit path of [TypeMode.handle])
    of [KANADEV.py], with the properties its specification states.

    Python values are modelled as the interpreter has them: [int] is [Z],
    [float] is the kernel's binary64 [float], [str] is a list of code
    points, [dict] is a [gmap] (a list of pairs for the two kana tables,
    whose order the selectors follow), an uncaught exception is [Raise]. *)

From Stdlib Require Import ZArith NArith Floats Ascii String.
From stdpp Require Import gmap list fin_maps.

Set Warnings "-inexact-float,-register-all".
Local Open Scope Z_scope.

(** ** Strings *)

(** A Python [str]: the sequence of its Unicode code points. *)
Abbreviation char := N (only parsing).
Abbreviation str := (list N) (only parsing).

(** An ASCII literal of the source, as a [str]. *)
Definition lit (s : string) : str :=
  N_of_ascii <$> list_ascii_of_string s.

(** [str.isspace] on one code point: the whitespace set of CPython. *)
Definition isspace (c : char) : bool :=
  ((9 <=? c) && (c <=? 13) || (28 <=? c) && (c <=? 32) ||
   (c =? 133) || (c =? 160) || (c =? 5760) ||
   (8192 <=? c) && (c <=? 8202) || (c =? 8232) || (c =? 8233) ||
   (c =? 8239) || (c =? 8287) || (c =? 12288))%N.

Fixpoint lstrip (s : str) : str :=
  match s with
  | c :: s' => if isspace c then lstrip s' else s
  | [] => []
  end.

Definition rstrip (s : str) : str := reverse (lstrip (reverse s)).

(** [s.strip()] *)
Definition strip (s : str) : str := rstrip (lstrip s).

(** Case mapping of ASCII text.  [str.lower] and [str.upper] are the
    Unicode case mappings of the interpreter, fields of the host below; on
    a [str] of ASCII characters, such as the romaji of both kana tables,
    they map the ASCII letters and leave every other character as it is. *)
Definition lower_char (c : char) : char :=
  if ((65 <=? c) && (c <=? 90))%N then (c + 32)%N else c.

Definition upper_char (c : char) : char :=
  if ((97 <=? c) && (c <=? 122))%N then (c - 32)%N else c.

Definition ascii_lower (s : str) : str := lower_char <$> s.
Definition ascii_upper (s : str) : str := upper_char <$> s.

(** A [str] of ASCII characters, [s.isascii()]. *)
Definition is_ascii (s : str) : Prop := Forall (λ c, (c < 128)%N) s.

Definition SPACE : char := 32%N.

(** [s.replace(" ", "")] *)
Definition remove_spaces (s : str) : str :=
  filter (λ c, c ≠ SPACE) s.

(** ** Numbers *)

(** Conversion of an [int] to a [float] (round to nearest, ties to even),
    as in [int + float].  Beyond the binary64 range the model gives an
    infinity where CPython raises [OverflowError]: the properties of the
    selectors are stated for masteries in 1..10, the ones the program
    stores, far from that range. *)
Definition float_of_int (z : Z) : float :=
  SF2Prim (binary_normalize prec emax z 0 false).

(** The integer part of [m * 2^e], towards zero. *)
Definition mag_trunc (m : positive) (e : Z) : Z := Z.shiftl (Z.pos m) e.

(** [m * 2^e] rounded to the nearest integer, ties to even. *)
Definition mag_round (m : positive) (e : Z) : Z :=
  if 0 <=? e then Z.shiftl (Z.pos m) e
  else
    let q := Z.shiftr (Z.pos m) (- e) in
    let r := Z.pos m - Z.shiftl q (- e) in
    let h := Z.shiftl 1 (- e - 1) in
    if (h <? r) || ((r =? h) && Z.odd q) then q + 1 else q.

Definition signed (s : bool) (z : Z) : Z := if s then - z else z.

(** ** Exceptions *)

Inductive exn :=
  | KeyError | TypeError | ValueError | OverflowError
  | AttributeError | IndexError.

Inductive result (A : Type) :=
  | Ok (a : A)
  | Raise (e : exn).
Arguments Ok {A} a.
Arguments Raise {A} e.

Global Instance result_ret : MRet result := λ A a, Ok a.
Global Instance result_bind : MBind result := λ A B f r,
  match r with Ok a => f a | Raise e => Raise e end.

(** [try: ... except Exception: ...] seen from outside: the value, or
    nothing. *)
Definition caught {A} (r : result A) : option A :=
  match r with Ok a => Some a | Raise _ => None end.

(** [int(x)] for a float: truncation; [round(x)] for a float: nearest
    integer, ties to even.  Both raise on NaN and on the infinities. *)
Definition float_to_int (mag : positive → Z → Z) (f : float) : result Z :=
  match Prim2SF f with
  | S754_nan => Raise ValueError
  | S754_infinity _ => Raise OverflowError
  | S754_zero _ => Ok 0
  | S754_finite s m e => Ok (signed s (mag m e))
  end.

Definition int_of_float : float → result Z := float_to_int mag_trunc.
Definition round_float : float → result Z := float_to_int mag_round.

(** [n > f] for an [int] and a [float]: CPython compares the exact
    values. *)
Definition int_gt_float (n : Z) (f : float) : bool :=
  match Prim2SF f with
  | S754_nan => false
  | S754_infinity s => s
  | S754_zero _ => 0 <? n
  | S754_finite s m e =>
      if 0 <=? e then signed s (Z.pos m) * 2 ^ e <? n
      else signed s (Z.pos m) <? n * 2 ^ (- e)
  end.

(** ** JSON values: what [json.load] returns and [json.dump] accepts *)

Inductive json :=
  | JNull
  | JBool (b : bool)
  | JInt (n : Z)
  | JFloat (f : float)
  | JStr (s : str)
  | JList (l : list json)
  | JDict (d : gmap str json).

(** [v.setdefault], [v.items()], [v.get]: only a dict has them. *)
Definition as_dict (v : json) : result (gmap str json) :=
  match v with JDict d => Ok d | _ => Raise AttributeError end.

(** [v[k]]: of the values of a progress file only a dict can be indexed
    by a [str]. *)
Definition subscriptable (v : json) : result (gmap str json) :=
  match v with JDict d => Ok d | _ => Raise TypeError end.

(** [d.setdefault(k, v)] *)
Definition setdefault (k : str) (v : json) (d : gmap str json) : gmap str json :=
  match d !! k with Some _ => d | None => <[k := v]> d end.

(** [d[k]] *)
Definition getitem (k : str) (d : gmap str json) : result json :=
  match d !! k with Some v => Ok v | None => Raise KeyError end.

(** [d.get(k, default)] *)
Definition get_default (k : str) (dflt : json) (d : gmap str json) : json :=
  default dflt (d !! k).

(** [max(1, min(10, n))] *)
Definition clamp (n : Z) : Z := Z.max 1 (Z.min 10 n).

(** [n > v] for an [int] [n] and a stored value [v]. *)
Definition int_gt (n : Z) (v : json) : result bool :=
  match v with
  | JInt b => Ok (b <? n)
  | JBool b => Ok ((if b then 1 else 0) <? n)
  | JFloat f => Ok (int_gt_float n f)
  | _ => Raise TypeError
  end.

Definition k_hiragana : str := lit "hiragana".
Definition k_katakana : str := lit "katakana".
Definition k_best_score : str := lit "best_score".

Definition k_correct : str := lit "Correct".
Definition k_CORRECT : str := lit "CORRECT".
Definition k_no_words : str := lit "No words available!".

(** [choice_weight] (lines 156-158): [(6 - mastery) ** 2 + 0.01]. *)
Definition choice_weight (mastery : Z) : float :=
  (float_of_int ((6 - mastery) ^ 2) + 0.01)%float.

(** ** The host

    The interpreter around the program: the [random] module's generator,
    the [json] codec and the text it writes, [int] on a [str], the
    iteration order of a [set], and the Unicode case mappings [str.lower]
    and [str.upper]. *)
Class Host := {
  rng : Type;
  text : Type;
  random_random : rng → float * rng;
  randbelow : nat → rng → nat * rng;
  random_shuffle : list str → rng → list str * rng;
  list_of_set : list str → list str;
  json_loads : text → option json;
  json_dumps : json → text;
  int_of_str : str → option Z;
  lower : str → str;
  upper : str → str;
}.

Section Persistence.
Context `{Host}.

(** [int(v)] *)
Definition py_int (v : json) : result Z :=
  match v with
  | JInt n => Ok n
  | JBool b => Ok (if b then 1 else 0)
  | JFloat f => int_of_float f
  | JStr s => match int_of_str s with Some n => Ok n | None => Raise ValueError end
  | JNull | JList _ | JDict _ => Raise TypeError
  end.

(** ** Persistence *)

(** The save file: its text when it exists, and whether [open] succeeds
    for reading and for writing. *)
Record disk := Disk {
  save_file : option text;
  can_read : bool;
  can_write : bool;
}.

Definition default_best_score : gmap str json :=
  {[ k_hiragana := JInt 0; k_katakana := JInt 0 ]}.

Definition default_progress : gmap str json :=
  {[ k_hiragana := JDict ∅; k_katakana := JDict ∅;
     k_best_score := JDict default_best_score ]}.

(** Line 138: the mastery stored for one value [v] of the file,
    [max(1, min(10, int(round(float(v) * 10)) if isinstance(v, float)
    and v <= 1 else int(v)))]. *)
Definition load_mastery (v : json) : result Z :=
  n ← match v with
      | JFloat f =>
          if (f <=? 1)%float then round_float (f * 10)%float else py_int v
      | _ => py_int v
      end;
  mret (clamp n).

(** Lines 137-138, the loop over one script's dict.  The first value that
    cannot be converted raises; [load_progress] catches whatever it is, so
    the loop is modelled up to the exception raised. *)
Definition load_masteries (d : gmap str json) : option (gmap str json) :=
  if decide (map_Forall (λ _ v, is_Some (caught (load_mastery v))) d)
  then Some (omap (λ v, JInt <$> caught (load_mastery v)) d)
  else None.

Definition load_script (script : str) (data : gmap str json)
  : option (gmap str json) :=
  d ← data !! script ≫= (λ v, caught (as_dict v));
  d' ← load_masteries d;
  Some (<[script := JDict d']> data).

(** Lines 132-144, the body of the [try] once the file is open.  The
    test [if "best_score" not in data] before the assignment of line 141
    is a [setdefault]. *)
Definition load_body (t : text) : option (gmap str json) :=
  data ← json_loads t;
  data ← caught (as_dict data);
  let data := setdefault k_hiragana (JDict ∅) data in
  let data := setdefault k_katakana (JDict ∅) data in
  data ← load_script k_hiragana data;
  data ← load_script k_katakana data;
  let data := setdefault k_best_score (JDict default_best_score) data in
  best ← data !! k_best_score ≫= (λ v, caught (as_dict v));
  let best := setdefault k_hiragana (JInt 0) best in
  let best := setdefault k_katakana (JInt 0) best in
  Some (<[k_best_score := JDict best]> data).

(** [load_progress] (lines 128-147). *)
Definition load_progress (d : disk) : gmap str json :=
  match save_file d with
  | Some t =>
      if can_read d then
        match load_body t with
        | Some data => data
        | None => default_progress
        end
      else default_progress
  | None => default_progress
  end.

(** [save_progress] (lines 149-154): when the file cannot be opened for
    writing the error is swallowed and the file stays as it was. *)
Definition save_progress (progress : gmap str json) (d : disk) : disk :=
  if can_write d
  then Disk (Some (json_dumps (JDict progress))) (can_read d) (can_write d)
  else d.

End Persistence.

(** ** The application *)

(** A kana table: glyph and romaji, in the order of the source dict. *)
Abbreviation kana_table := (list (str * str)) (only parsing).

Fixpoint assoc (k : str) (t : kana_table) : option str :=
  match t with
  | [] => None
  | (k', v) :: t' => if decide (k = k') then Some v else assoc k t'
  end.

(** [table[k]] *)
Definition table_get (k : str) (t : kana_table) : result str :=
  match assoc k t with Some v => Ok v | None => Raise KeyError end.

(** The fields of [App] the scenes use. *)
Record App := MkApp {
  script_name : str;
  progress : gmap str json;
  table : kana_table;
}.

Definition set_progress (p : gmap str json) (a : App) : App :=
  MkApp (script_name a) p (table a).

(** [HIRAGANA] (lines 40-79), each kana by its code points. *)
Definition HIRAGANA : kana_table :=
  [([12354]%N, lit "a"); ([12356]%N, lit "i"); ([12358]%N, lit "u");
   ([12360]%N, lit "e"); ([12362]%N, lit "o"); ([12363]%N, lit "ka");
   ([12365]%N, lit "ki"); ([12367]%N, lit "ku"); ([12369]%N, lit "ke");
   ([12371]%N, lit "ko"); ([12373]%N, lit "sa"); ([12375]%N, lit "shi");
   ([12377]%N, lit "su"); ([12379]%N, lit "se"); ([12381]%N, lit "so");
   ([12383]%N, lit "ta"); ([12385]%N, lit "chi"); ([12388]%N, lit "tsu");
   ([12390]%N, lit "te"); ([12392]%N, lit "to"); ([12394]%N, lit "na");
   ([12395]%N, lit "ni"); ([12396]%N, lit "nu"); ([12397]%N, lit "ne");
   ([12398]%N, lit "no"); ([12399]%N, lit "ha"); ([12402]%N, lit "hi");
   ([12405]%N, lit "fu"); ([12408]%N, lit "he"); ([12411]%N, lit "ho");
   ([12414]%N, lit "ma"); ([12415]%N, lit "mi"); ([12416]%N, lit "mu");
   ([12417]%N, lit "me"); ([12418]%N, lit "mo"); ([12420]%N, lit "ya");
   ([12422]%N, lit "yu"); ([12424]%N, lit "yo"); ([12425]%N, lit "ra");
   ([12426]%N, lit "ri"); ([12427]%N, lit "ru"); ([12428]%N, lit "re");
   ([12429]%N, lit "ro"); ([12431]%N, lit "wa"); ([12434]%N, lit "wo");
   ([12435]%N, lit "n"); ([12364]%N, lit "ga"); ([12366]%N, lit "gi");
   ([12368]%N, lit "gu"); ([12370]%N, lit "ge"); ([12372]%N, lit "go");
   ([12374]%N, lit "za"); ([12376]%N, lit "ji"); ([12378]%N, lit "zu");
   ([12380]%N, lit "ze"); ([12382]%N, lit "zo"); ([12384]%N, lit "da");
   ([12386]%N, lit "ji"); ([12389]%N, lit "zu"); ([12391]%N, lit "de");
   ([12393]%N, lit "do"); ([12400]%N, lit "ba"); ([12403]%N, lit "bi");
   ([12406]%N, lit "bu"); ([12409]%N, lit "be"); ([12412]%N, lit "bo");
   ([12401]%N, lit "pa"); ([12404]%N, lit "pi"); ([12407]%N, lit "pu");
   ([12410]%N, lit "pe"); ([12413]%N, lit "po"); ([12365; 12419]%N, lit "kya");
   ([12365; 12421]%N, lit "kyu"); ([12365; 12423]%N, lit "kyo"); ([12375; 12419]%N, lit "sha");
   ([12375; 12421]%N, lit "shu"); ([12375; 12423]%N, lit "sho"); ([12385; 12419]%N, lit "cha");
   ([12385; 12421]%N, lit "chu"); ([12385; 12423]%N, lit "cho"); ([12395; 12419]%N, lit "nya");
   ([12395; 12421]%N, lit "nyu"); ([12395; 12423]%N, lit "nyo"); ([12402; 12419]%N, lit "hya");
   ([12402; 12421]%N, lit "hyu"); ([12402; 12423]%N, lit "hyo"); ([12415; 12419]%N, lit "mya");
   ([12415; 12421]%N, lit "myu"); ([12415; 12423]%N, lit "myo"); ([12426; 12419]%N, lit "rya");
   ([12426; 12421]%N, lit "ryu"); ([12426; 12423]%N, lit "ryo"); ([12366; 12419]%N, lit "gya");
   ([12366; 12421]%N, lit "gyu"); ([12366; 12423]%N, lit "gyo"); ([12376; 12419]%N, lit "ja");
   ([12376; 12421]%N, lit "ju"); ([12376; 12423]%N, lit "jo"); ([12403; 12419]%N, lit "bya");
   ([12403; 12421]%N, lit "byu"); ([12403; 12423]%N, lit "byo"); ([12404; 12419]%N, lit "pya");
   ([12404; 12421]%N, lit "pyu"); ([12404; 12423]%N, lit "pyo")].

(** [KATAKANA] (lines 81-120), each kana by its code points. *)
Definition KATAKANA : kana_table :=
  [([12450]%N, lit "a"); ([12452]%N, lit "i"); ([12454]%N, lit "u");
   ([12456]%N, lit "e"); ([12458]%N, lit "o"); ([12459]%N, lit "ka");
   ([12461]%N, lit "ki"); ([12463]%N, lit "ku"); ([12465]%N, lit "ke");
   ([12467]%N, lit "ko"); ([12469]%N, lit "sa"); ([12471]%N, lit "shi");
   ([12473]%N, lit "su"); ([12475]%N, lit "se"); ([12477]%N, lit "so");
   ([12479]%N, lit "ta"); ([12481]%N, lit "chi"); ([12484]%N, lit "tsu");
   ([12486]%N, lit "te"); ([12488]%N, lit "to"); ([12490]%N, lit "na");
   ([12491]%N, lit "ni"); ([12492]%N, lit "nu"); ([12493]%N, lit "ne");
   ([12494]%N, lit "no"); ([12495]%N, lit "ha"); ([12498]%N, lit "hi");
   ([12501]%N, lit "fu"); ([12504]%N, lit "he"); ([12507]%N, lit "ho");
   ([12510]%N, lit "ma"); ([12511]%N, lit "mi"); ([12512]%N, lit "mu");
   ([12513]%N, lit "me"); ([12514]%N, lit "mo"); ([12516]%N, lit "ya");
   ([12518]%N, lit "yu"); ([12520]%N, lit "yo"); ([12521]%N, lit "ra");
   ([12522]%N, lit "ri"); ([12523]%N, lit "ru"); ([12524]%N, lit "re");
   ([12525]%N, lit "ro"); ([12527]%N, lit "wa"); ([12530]%N, lit "wo");
   ([12531]%N, lit "n"); ([12460]%N, lit "ga"); ([12462]%N, lit "gi");
   ([12464]%N, lit "gu"); ([12466]%N, lit "ge"); ([12468]%N, lit "go");
   ([12470]%N, lit "za"); ([12472]%N, lit "ji"); ([12474]%N, lit "zu");
   ([12476]%N, lit "ze"); ([12478]%N, lit "zo"); ([12480]%N, lit "da");
   ([12482]%N, lit "ji"); ([12485]%N, lit "zu"); ([12487]%N, lit "de");
   ([12489]%N, lit "do"); ([12496]%N, lit "ba"); ([12499]%N, lit "bi");
   ([12502]%N, lit "bu"); ([12505]%N, lit "be"); ([12508]%N, lit "bo");
   ([12497]%N, lit "pa"); ([12500]%N, lit "pi"); ([12503]%N, lit "pu");
   ([12506]%N, lit "pe"); ([12509]%N, lit "po"); ([12461; 12515]%N, lit "kya");
   ([12461; 12517]%N, lit "kyu"); ([12461; 12519]%N, lit "kyo"); ([12471; 12515]%N, lit "sha");
   ([12471; 12517]%N, lit "shu"); ([12471; 12519]%N, lit "sho"); ([12481; 12515]%N, lit "cha");
   ([12481; 12517]%N, lit "chu"); ([12481; 12519]%N, lit "cho"); ([12491; 12515]%N, lit "nya");
   ([12491; 12517]%N, lit "nyu"); ([12491; 12519]%N, lit "nyo"); ([12498; 12515]%N, lit "hya");
   ([12498; 12517]%N, lit "hyu"); ([12498; 12519]%N, lit "hyo"); ([12511; 12515]%N, lit "mya");
   ([12511; 12517]%N, lit "myu"); ([12511; 12519]%N, lit "myo"); ([12522; 12515]%N, lit "rya");
   ([12522; 12517]%N, lit "ryu"); ([12522; 12519]%N, lit "ryo"); ([12462; 12515]%N, lit "gya");
   ([12462; 12517]%N, lit "gyu"); ([12462; 12519]%N, lit "gyo"); ([12472; 12515]%N, lit "ja");
   ([12472; 12517]%N, lit "ju"); ([12472; 12519]%N, lit "jo"); ([12499; 12515]%N, lit "bya");
   ([12499; 12517]%N, lit "byu"); ([12499; 12519]%N, lit "byo"); ([12500; 12515]%N, lit "pya");
   ([12500; 12517]%N, lit "pyu"); ([12500; 12519]%N, lit "pyo")].

(** [App.toggle_script] (lines 804-810). *)
Definition toggle_script (a : App) : App :=
  if decide (script_name a = k_hiragana)
  then MkApp k_katakana (progress a) KATAKANA
  else MkApp k_hiragana (progress a) HIRAGANA.

(** What lies outside the program: the generator and the save file. *)
Record world `{Host} := World {
  w_rng : rng;
  w_disk : disk;
}.
Arguments World {_} _ _.

(** [App.__init__] (lines 797-802): hiragana first, the progress as the
    save file gives it. *)
Definition App_init `{Host} (d : disk) : App :=
  MkApp k_hiragana (load_progress d) HIRAGANA.

Section Random.
Context `{Host}.

(** [random.choice(seq)] *)
Definition random_choice {A} (seq : list A) (g : rng) : result (A * rng) :=
  match seq with
  | [] => Raise IndexError
  | _ =>
      let '(i, g') := randbelow (length seq) g in
      match seq !! i with
      | Some x => Ok (x, g')
      | None => Raise IndexError
      end
  end.

(** [sum(ws)]: the weights added left to right from [0].  (CPython 3.12
    and later correct the rounding of this sum; no property below depends
    on how the total is rounded.) *)
Definition py_sum (ws : list float) : float :=
  foldl (λ acc w, acc + w)%float 0%float ws.

(** The loop both selectors end with: the first item whose running total
    reaches the draw [r]. *)
Fixpoint first_reaching (r acc : float) (items : list (str * float))
  : option str :=
  match items with
  | [] => None
  | (k, w) :: rest =>
      let acc := (acc + w)%float in
      if (r <=? acc)%float then Some k else first_reaching r acc rest
  end.

(** The comprehension both selectors start with: each candidate with the
    weight of its mastery, [choice_weight(int(prog.get(k, 1)))]. *)
Definition weigh (prog : json) (k : str) : result (str * float) :=
  d ← as_dict prog;
  m ← py_int (get_default k (JInt 1) d);
  mret (k, choice_weight m).

End Random.

Module Scene.
Section Scene.
Context `{Host}.

(** [Scene._bump_mastery] (lines 306-310). *)
Definition _bump_mastery (kana : str) (delta : Z) (a : App) : result App :=
  prog ← getitem (script_name a) (progress a);
  prog ← as_dict prog;
  cur ← py_int (get_default kana (JInt 1) prog);
  let cur := clamp (cur + delta) in
  mret (set_progress
          (<[script_name a := JDict (<[kana := JInt cur]> prog)]> (progress a)) a).

(** Lines 410-411 and 723-724: the best score of the active script follows
    a score that exceeds it. *)
Definition update_best (score : Z) (a : App) : result App :=
  best ← getitem k_best_score (progress a);
  best ← subscriptable best;
  old ← getitem (script_name a) best;
  above ← int_gt score old;
  if above : bool
  then mret (set_progress
          (<[k_best_score := JDict (<[script_name a := JInt score]> best)]>
             (progress a)) a)
  else mret a.

End Scene.
End Scene.

(** Colours of the feedback line. *)
Definition colour : Type := Z * Z * Z.
Definition OK : colour := (90, 207, 140).
Definition WARN : colour := (255, 120, 120).
Definition WHITE_255 : colour := (255, 255, 255).

(** [l.index(x)] *)
Definition index (x : str) (l : list str) : result Z :=
  match list_find (λ y, y = x) l with
  | Some (i, _) => Ok (Z.of_nat i)
  | None => Raise ValueError
  end.

(** The kana of a table that pass one of the selected group filters
    ([_filtered_kana], lines 365-369 and 624-628). *)
Definition filtered (selected : list bool) (groups : list (str * (str → bool)))
    (t : kana_table) : list str :=
  let filters := (λ p, p.2.2) <$> filter (λ p, p.1 = true) (zip selected groups) in
  match filters with
  | [] => []
  | _ => filter (λ k, Is_true (existsb (λ f, f k) filters)) (t.*1)
  end.

Module Quiz.
Section Quiz.
Context `{Host}.

(** The state of a [Quiz] scene; [labels] are the labels of its answer
    buttons. *)
Record t := Mk {
  score : Z;
  streak : Z;
  round : Z;
  feedback : str;
  feedback_timer : Z;
  choices : list (str * str);
  correct_idx : Z;
  kana : str;
  kana_groups : list (str * (str → bool));
  selected_groups : list bool;
  labels : list str;
}.

Definition _filtered_kana (q : t) (a : App) : list str :=
  filtered (selected_groups q) (kana_groups q) (table a).

(** [Quiz.weighted_pick] (lines 371-387). *)
Definition weighted_pick (q : t) (a : App) (g : rng) : result (str * rng) :=
  prog ← getitem (script_name a) (progress a);
  let kana_list := _filtered_kana q a in
  match kana_list with
  | [] => random_choice ((table a).*1) g
  | _ =>
      items ← mapM (weigh prog) kana_list;
      let total := py_sum (items.*2) in
      let '(u, g') := random_random g in
      let r := (u * total)%float in
      match first_reaching r 0 items with
      | Some k => mret (k, g')
      | None =>
          match last items with
          | Some (k, _) => mret (k, g')
          | None => Raise IndexError
          end
      end
  end.

(** [Quiz.pick_question] (lines 389-401). *)
Definition pick_question (q : t) (a : App) (g : rng) : result (t * rng) :=
  '(kana, g) ← weighted_pick q a g;
  correct_romaji ← table_get kana (table a);
  let all_romaji := list_of_set ((table a).*2) in
  let wrongs := filter (λ r, r ≠ correct_romaji) all_romaji in
  let '(wrongs, g) := random_shuffle wrongs g in
  let opts := correct_romaji :: take 3 wrongs in
  let '(opts, g) := random_shuffle opts g in
  idx ← index correct_romaji opts;
  labels ← mapM (λ i, match opts !! i with
                      | Some o => Ok (upper o)
                      | None => Raise IndexError
                      end) (seq 0 (length (labels q)));
  mret (Mk (score q) (streak q) (round q) (feedback q) (feedback_timer q)
           ((λ r, (kana, r)) <$> opts) idx kana
           (kana_groups q) (selected_groups q) labels, g).

(** The assignments to [streak], [score] and [feedback] of one answer. *)
Definition scored (streak' score' : Z) (feedback' : str) (q : t) : t :=
  Mk score' streak' (round q) feedback' (feedback_timer q)
     (choices q) (correct_idx q) (kana q)
     (kana_groups q) (selected_groups q) (labels q).

(** [feedback_timer = 45] and [round += 1] (lines 419 and 421). *)
Definition next_round (q : t) : t :=
  Mk (score q) (streak q) (round q + 1) (feedback q) 45
     (choices q) (correct_idx q) (kana q)
     (kana_groups q) (selected_groups q) (labels q).

(** [Quiz.choose] (lines 403-422). *)
Definition choose (idx : Z) (q : t) (a : App) (w : world)
  : result (t * App * world) :=
  let correct := bool_decide (idx = correct_idx q) in
  '(q, a) ←
    (if correct then
       let streak' := streak q + 1 in
       let score' := streak' in
       a ← Scene.update_best score' a;
       a ← Scene._bump_mastery (kana q) 1 a;
       mret (scored streak' score' k_correct q, a)
     else
       romaji ← table_get (kana q) (table a);
       a ← Scene._bump_mastery (kana q) (-1) a;
       mret (scored 0 0 romaji q, a));
  let d := save_progress (progress a) (w_disk w) in
  let q := next_round q in
  '(q, g) ← pick_question q a (w_rng w);
  mret (q, a, World g d).

End Quiz.
End Quiz.

Module TypeMode.
Section TypeMode.
Context `{Host}.

(** The state of a [TypeMode] scene; [input_text] is the text of its
    [InputLine]. *)
Record t := Mk {
  score : Z;
  streak : Z;
  feedback : str;
  feedback_timer : Z;
  feedback_color : colour;
  input_text : str;
  kana_groups : list (str * (str → bool));
  selected_groups : list bool;
  kana_list : list str;
  kana : option str;
  word_mode : bool;
  word_list : list str;
  word : option str;
  word_romaji : str;
}.

Definition _filtered_kana (s : t) (a : App) : list str :=
  filtered (take 3 (selected_groups s)) (take 3 (kana_groups s)) (table a).

(** [TypeMode._pick] (lines 630-640). *)
Definition _pick (s : t) (a : App) (g : rng) : result (option str * rng) :=
  prog ← getitem (script_name a) (progress a);
  items ← mapM (weigh prog) (kana_list s);
  let total := py_sum (items.*2) in
  let '(u, g') := random_random g in
  let x := (u * total)%float in
  match first_reaching x 0 items with
  | Some k => mret (Some k, g')
  | None => mret (fst <$> last items, g')
  end.

(** [TypeMode.kana_to_romaji] (lines 642-656): the two-character kana
    first, then the single one, then the character itself. *)
Fixpoint kana_to_romaji (tbl : kana_table) (word : str) : str :=
  match word with
  | [] => []
  | c :: rest =>
      let single :=
        match assoc [c] tbl with
        | Some r => r ++ kana_to_romaji tbl rest
        | None => c :: kana_to_romaji tbl rest
        end in
      match rest with
      | c' :: rest' =>
          match assoc [c; c'] tbl with
          | Some r => r ++ kana_to_romaji tbl rest'
          | None => single
          end
      | [] => single
      end
  end.

(** The assignments of one answer to [streak], [score], [feedback] and
    [feedback_color]. *)
Definition scored (streak' score' : Z) (feedback' : str) (c : colour) (s : t) : t :=
  Mk score' streak' feedback' (feedback_timer s) c (input_text s)
     (kana_groups s) (selected_groups s) (kana_list s) (kana s)
     (word_mode s) (word_list s) (word s) (word_romaji s).

Definition set_feedback (feedback' : str) (c : colour) (timer : Z) (s : t) : t :=
  Mk (score s) (streak s) feedback' timer c (input_text s)
     (kana_groups s) (selected_groups s) (kana_list s) (kana s)
     (word_mode s) (word_list s) (word s) (word_romaji s).

Definition set_feedback_timer (timer : Z) (s : t) : t :=
  set_feedback (feedback s) (feedback_color s) timer s.

Definition set_input_text (text' : str) (s : t) : t :=
  Mk (score s) (streak s) (feedback s) (feedback_timer s) (feedback_color s)
     text' (kana_groups s) (selected_groups s) (kana_list s) (kana s)
     (word_mode s) (word_list s) (word s) (word_romaji s).

Definition set_kana (kana' : option str) (s : t) : t :=
  Mk (score s) (streak s) (feedback s) (feedback_timer s) (feedback_color s)
     (input_text s) (kana_groups s) (selected_groups s) (kana_list s) kana'
     (word_mode s) (word_list s) (word s) (word_romaji s).

Definition set_word (word' : option str) (romaji : str) (s : t) : t :=
  Mk (score s) (streak s) (feedback s) (feedback_timer s) (feedback_color s)
     (input_text s) (kana_groups s) (selected_groups s) (kana_list s) (kana s)
     (word_mode s) (word_list s) word' romaji.

(** [TypeMode.pick_word] (lines 658-660). *)
Definition pick_word (s : t) (a : App) (g : rng) : result (t * rng) :=
  '(w, g) ← random_choice (word_list s) g;
  mret (set_word (Some w) (kana_to_romaji (table a) w) s, g).

(** Line 696: [self.input.text.strip().lower().replace(" ", "")]. *)
Definition guess_of (text : str) : str :=
  remove_spaces (lower (strip text)).

(** [not self.word] *)
Definition no_word (s : t) : bool :=
  match word s with
  | None | Some [] => true
  | Some (_ :: _) => false
  end.

(** Lines 698-716: a submitted answer in word mode. *)
Definition submit_word (guess : str) (s : t) (a : App) (w : world)
  : result (t * App * world) :=
  let correct := remove_spaces (word_romaji s) in
  let s :=
    if no_word s then set_feedback k_no_words WHITE_255 60 s
    else if bool_decide (guess = correct)
    then scored (streak s + 1) (streak s + 1) k_CORRECT OK s
    else scored 0 0 (word_romaji s) WARN s in
  let s := set_feedback_timer 45 s in
  '(s, g) ← match word_list s with
            | [] => mret (s, w_rng w)
            | _ => pick_word s a (w_rng w)
            end;
  mret (set_input_text [] s, a, World g (w_disk w)).

(** Lines 718-737: a submitted answer for a single kana. *)
Definition submit_kana (guess : str) (s : t) (a : App) (w : world)
  : result (t * App * world) :=
  kana ← match kana s with Some k => Ok k | None => Raise KeyError end;
  correct ← table_get kana (table a);
  '(s, a) ←
    (if bool_decide (guess = correct) then
       let streak' := streak s + 1 in
       let score' := streak' in
       a ← Scene.update_best score' a;
       a ← Scene._bump_mastery kana 1 a;
       mret (scored streak' score' k_CORRECT OK s, a)
     else
       a ← Scene._bump_mastery kana (-1) a;
       mret (scored 0 0 correct WARN s, a));
  let s := set_feedback_timer 45 s in
  let d := save_progress (progress a) (w_disk w) in
  '(k, g) ← _pick s a (w_rng w);
  mret (set_input_text [] (set_kana k s), a, World g d).

(** [TypeMode.handle] on the Return key while the scene is not selecting
    groups (lines 694-737): [InputLine.handle] answers ["submit"]. *)
Definition handle_return (s : t) (a : App) (w : world)
  : result (t * App * world) :=
  let guess := guess_of (input_text s) in
  if word_mode s then submit_word guess s a w else submit_kana guess s a w.

End TypeMode.
End TypeMode.

(** ** Well-formed progress *)

Section WellFormed.
Context `{Host}.

(** A script's dict as the program keeps it: every mastery an [int] in
    the range 1..10. *)
Definition masteries_ok (m : gmap str json) : Prop :=
  ∀ k v, m !! k = Some v → ∃ n, v = JInt n ∧ 1 ≤ n ≤ 10.

(** The progress the program holds: a dict of masteries for each script,
    and a best score for each. *)
Definition progress_ok (p : gmap str json) : Prop :=
  (∀ script, script = k_hiragana ∨ script = k_katakana →
     ∃ m, p !! script = Some (JDict m) ∧ masteries_ok m) ∧
  (∃ best, p !! k_best_score = Some (JDict best) ∧
     is_Some (best !! k_hiragana) ∧ is_Some (best !! k_katakana)).

(** Every value of a script's dict can be converted by line 138. *)
Definition convertible (m : gmap str json) : Prop :=
  map_Forall (λ _ v, is_Some (caught (load_mastery v))) m.

(** The files [load_progress] accepts: a dict whose script entries, where
    present, are dicts of convertible values, and whose [best_score], where
    present, is a dict. *)
Definition file_ok (data : gmap str json) : Prop :=
  (∀ script, script = k_hiragana ∨ script = k_katakana →
     match data !! script with
     | None => True
     | Some (JDict m) => convertible m
     | Some _ => False
     end) ∧
  match data !! k_best_score with
  | None | Some (JDict _) => True
  | Some _ => False
  end.

End WellFormed.

(** ** Well-formed scenes *)

(** What the program relies on from its host: [_randbelow(n)] is below
    [n], [shuffle] permutes, and a [set] holds each element once. *)
Class HostOk `{Host} : Prop := {
  randbelow_lt : ∀ n g, (0 < n)%nat → ((randbelow n g).1 < n)%nat;
  random_shuffle_perm : ∀ l g, (random_shuffle l g).1 ≡ₚ l;
  list_of_set_NoDup : ∀ l, NoDup (list_of_set l);
  list_of_set_elem : ∀ l x, x ∈ list_of_set l ↔ x ∈ l;
}.

(** What the typed answers rely on from [str.lower]: on ASCII text it
    maps the ASCII letters and nothing else. *)
Class CaseOk `{Host} : Prop := {
  lower_ascii : ∀ s, is_ascii s → lower s = ascii_lower s;
}.

(** A dict whose values are all [int]s. *)
Definition int_valued (d : gmap str json) : Prop :=
  ∀ k v, d !! k = Some v → ∃ n, v = JInt n.

(** The mastery read for a kana, [int(prog.get(kana, 1))], in such a
    dict. *)
Definition mastery (prog : gmap str json) (kana : str) : Z :=
  match prog !! kana with Some (JInt n) => n | _ => 1 end.

(** The best score stored for a script, when it is an [int]. *)
Definition best_score (a : App) (script : str) : option Z :=
  match progress a !! k_best_score with
  | Some (JDict best) =>
      match best !! script with Some (JInt b) => Some b | _ => None end
  | _ => None
  end.

(** The masteries stored for a script. *)
Definition masteries (a : App) (script : str) : option (gmap str json) :=
  match progress a !! script with
  | Some (JDict prog) => Some prog
  | _ => None
  end.

(** The application between two answers: the active script has a dict of
    integer masteries in 1..10, as [load_progress] and [_bump_mastery]
    leave them, and an integer best score, and its table offers the four
    distinct romaji a question needs. *)
Definition app_ok (a : App) : Prop :=
  script_name a ≠ k_best_score ∧
  (∃ prog, masteries a (script_name a) = Some prog ∧ masteries_ok prog) ∧
  is_Some (best_score a (script_name a)) ∧
  (4 ≤ length (remove_dups ((table a).*2)))%nat.

(** A quiz between two answers: its kana is one of the table and it has
    its four answer buttons. *)
Definition quiz_ok (q : Quiz.t) (a : App) : Prop :=
  Quiz.kana q ∈ (table a).*1 ∧ length (Quiz.labels q) = 4%nat.

(** A typing scene between two answers on single kana: candidates were
    selected from the table and one of them is shown. *)
Definition typing_ok `{Host} (s : TypeMode.t) (a : App) : Prop :=
  TypeMode.word_mode s = false ∧
  (∃ k, TypeMode.kana s = Some k ∧ k ∈ (table a).*1) ∧
  TypeMode.kana_list s ≠ [] ∧
  (∀ k, k ∈ TypeMode.kana_list s → k ∈ (table a).*1).

(** What one answer does to the application: the script and the table
    stay, the kana's mastery moves one step within 1..10, the best score of
    the active script follows a higher streak, and nothing else changes. *)
Definition answer_post (correct : bool) (streak' : Z) (kana : str)
    (a a' : App) : Prop :=
  script_name a' = script_name a ∧ table a' = table a ∧
  (∀ prog, masteries a (script_name a) = Some prog →
     masteries a' (script_name a)
     = Some (<[kana := JInt (clamp (mastery prog kana
                                     + (if correct then 1 else -1)))]> prog)) ∧
  (∀ script, script ≠ script_name a → script ≠ k_best_score →
     progress a' !! script = progress a !! script) ∧
  (∀ b, best_score a (script_name a) = Some b →
     best_score a' (script_name a)
     = Some (if correct && (b <? streak') then streak' else b)) ∧
  (∀ script, script ≠ script_name a →
     best_score a' script = best_score a script).

(** One answer, in either scene, or a change of script in the menu. *)
Inductive answer_step `{Host} : App * world → App * world → Prop :=
  | step_choose idx q q' a a' w w' :
      Quiz.choose idx q a w = Ok (q', a', w') →
      answer_step (a, w) (a', w')
  | step_typed s s' a a' w w' :
      TypeMode.handle_return s a w = Ok (s', a', w') →
      answer_step (a, w) (a', w')
  | step_toggle a w :
      answer_step (a, w) (toggle_script a, w).

(** ** The rest of the scenes *)

(** The strings of the group filters (lines 351-362, 497-508 and 605-618,
    the same in the three scenes), by code point. *)
Definition BASIC_HIRAGANA : str :=
  [12354; 12356; 12358; 12360; 12362; 12363; 12365; 12367; 12369; 12371;
   12373; 12375; 12377; 12379; 12381; 12383; 12385; 12388; 12390; 12392;
   12394; 12395; 12396; 12397; 12398; 12399; 12402; 12405; 12408; 12411;
   12414; 12415; 12416; 12417; 12418; 12420; 12422; 12424; 12425; 12426;
   12427; 12428; 12429; 12431; 12434; 12435]%N.

Definition BASIC_KATAKANA : str :=
  [12450; 12452; 12454; 12456; 12458; 12459; 12461; 12463; 12465; 12467;
   12469; 12471; 12473; 12475; 12477; 12479; 12481; 12484; 12486; 12488;
   12490; 12491; 12492; 12493; 12494; 12495; 12498; 12501; 12504; 12507;
   12510; 12511; 12512; 12513; 12514; 12516; 12518; 12520; 12521; 12522;
   12523; 12524; 12525; 12527; 12530; 12531]%N.

Definition DAKU_HIRAGANA : str :=
  [12364; 12366; 12368; 12370; 12372; 12374; 12376; 12378; 12380; 12382;
   12384; 12386; 12389; 12391; 12393; 12400; 12403; 12406; 12409; 12412;
   12401; 12404; 12407; 12410; 12413]%N.

Definition DAKU_KATAKANA : str :=
  [12460; 12462; 12464; 12466; 12468; 12470; 12472; 12474; 12476; 12478;
   12480; 12482; 12485; 12487; 12489; 12496; 12499; 12502; 12505; 12508;
   12497; 12500; 12503; 12506; 12509]%N.

Definition COMBO_HIRAGANA : str :=
  [12365; 12419; 12365; 12421; 12365; 12423; 12375; 12419; 12375; 12421;
   12375; 12423; 12385; 12419; 12385; 12421; 12385; 12423; 12395; 12419;
   12395; 12421; 12395; 12423; 12402; 12419; 12402; 12421; 12402; 12423;
   12415; 12419; 12415; 12421; 12415; 12423; 12426; 12419; 12426; 12421;
   12426; 12423; 12366; 12419; 12366; 12421; 12366; 12423; 12376; 12419;
   12376; 12421; 12376; 12423; 12403; 12419; 12403; 12421; 12403; 12423;
   12404; 12419; 12404; 12421; 12404; 12423]%N.

Definition COMBO_KATAKANA : str :=
  [12461; 12515; 12461; 12517; 12461; 12519; 12471; 12515; 12471; 12517;
   12471; 12519; 12481; 12515; 12481; 12517; 12481; 12519; 12491; 12515;
   12491; 12517; 12491; 12519; 12498; 12515; 12498; 12517; 12498; 12519;
   12511; 12515; 12511; 12517; 12511; 12519; 12522; 12515; 12522; 12517;
   12522; 12519; 12462; 12515; 12462; 12517; 12462; 12519; 12472; 12515;
   12472; 12517; 12472; 12519; 12499; 12515; 12499; 12517; 12499; 12519;
   12500; 12515; 12500; 12517; 12500; 12519]%N.

(** [list(s)]: the characters of [s], each a [str] of its own. *)
Definition chars (s : str) : list str := (λ c, [c]) <$> s.

(** [_is_basic], [_is_daku], [_is_combo] and [_is_word]: membership of the
    kana in the list of characters. *)
Definition _is_basic (kana : str) : bool :=
  bool_decide (kana ∈ chars BASIC_HIRAGANA ++ chars BASIC_KATAKANA).
Definition _is_daku (kana : str) : bool :=
  bool_decide (kana ∈ chars DAKU_HIRAGANA ++ chars DAKU_KATAKANA).
Definition _is_combo (kana : str) : bool :=
  bool_decide (kana ∈ chars COMBO_HIRAGANA ++ chars COMBO_KATAKANA).
Definition _is_word (kana : str) : bool := false.

(** [kana_groups] of [Quiz] and [Flashcards] (lines 326-330, 481-485) and
    of [TypeMode] (lines 587-592). *)
Definition kana_groups3 : list (str * (str → bool)) :=
  [(lit "BASIC", _is_basic); (lit "DAKUTEN & HANDAKUTEN", _is_daku);
   (lit "COMBO KANA", _is_combo)].
Definition kana_groups4 : list (str * (str → bool)) :=
  kana_groups3 ++ [(lit "WORD", _is_word)].

(** A [pygame.Rect] with integer sides, and [collidepoint]: the right and
    the bottom edge are outside. *)
Record rect := Rect { rx : Z; ry : Z; rw : Z; rh : Z }.

Definition collidepoint (r : rect) (pos : Z * Z) : bool :=
  (rx r <=? pos.1) && (pos.1 <? rx r + rw r) &&
  (ry r <=? pos.2) && (pos.2 <? ry r + rh r).

(** [rect and rect.collidepoint(pos)], for a rect that may still be
    [None]; a [Rect] of no width or height is false. *)
Definition hit (r : option rect) (pos : Z * Z) : bool :=
  match r with
  | Some r => negb (rw r =? 0) && negb (rh r =? 0) && collidepoint r pos
  | None => false
  end.

(** The events the scenes look at. *)
Inductive key :=
  | K_BACKSPACE | K_RETURN | K_ESCAPE | K_RIGHT | K_LEFT | K_SPACE | K_OTHER.

Inductive event :=
  | KEYDOWN (k : key) (unicode : str)
  | MOUSEBUTTONDOWN (button : Z) (pos : Z * Z)
  | MOUSEMOTION (pos : Z * Z)
  | OTHER_EVENT.

Global Instance key_eq_dec : EqDecision key.
Proof. solve_decision. Defined.

(** The loop of lines 428-430, 521-523 and 666-668: each group whose label
    was clicked is toggled. *)
Fixpoint toggle_groups (i : nat) (rects : list (option rect)) (pos : Z * Z)
    (selected : list bool) : result (list bool) :=
  match rects with
  | [] => Ok selected
  | r :: rects' =>
      selected ←
        (if hit r pos then
           match selected !! i with
           | Some b => Ok (<[i := negb b]> selected)
           | None => Raise IndexError
           end
         else Ok selected);
      toggle_groups (S i) rects' pos selected
  end.

(** [event.type == pygame.KEYDOWN and event.key == pygame.K_ESCAPE] *)
Definition is_escape (e : event) : bool :=
  match e with KEYDOWN K_ESCAPE _ => true | _ => false end.

(** [any(selected_groups)] *)
Definition any (l : list bool) : bool := existsb id l.

Module InputLine.

(** [isprintable] is a Unicode property; it is a parameter here. *)
Section InputLine.
Variable isprintable_char : char → bool.

(** [ch.isprintable()]: every character is printable. *)
Definition isprintable (ch : str) : bool := forallb isprintable_char ch.

(** [InputLine.handle] (lines 227-237), on the text of the line: the new
    text, and whether ["submit"] is returned. *)
Definition handle (e : event) (text : str) : str * bool :=
  match e with
  | KEYDOWN K_BACKSPACE _ => (removelast text, false)
  | KEYDOWN K_RETURN _ => (text, true)
  | KEYDOWN _ ch => (if isprintable ch then text ++ ch else text, false)
  | _ => (text, false)
  end.

End InputLine.
End InputLine.

Module Flashcards.
Section Flashcards.
Context `{Host}.

(** The state of a [Flashcards] scene (lines 477-493). *)
Record t := Mk {
  selecting : bool;
  selected_groups : list bool;
  group_rects : list (option rect);
  start_btn_rect : option rect;
  kana_list : list str;
  index : Z;
  show_romaji : bool;
}.

(** [Flashcards.__init__] *)
Definition init : t :=
  Mk true [true; true; true] [None; None; None] None [] 0 false.

Definition _filtered_kana (f : t) (a : App) : list str :=
  filtered (selected_groups f) kana_groups3 (table a).

(** [Flashcards.handle] (lines 517-546): the scene, the generator, and
    whether the menu was asked for. *)
Definition handle (e : event) (f : t) (a : App) (g : rng)
  : result (t * rng * bool) :=
  if selecting f then
    '(f, g) ←
      match e with
      | MOUSEBUTTONDOWN 1 pos =>
          selected ← toggle_groups 0 (group_rects f) pos (selected_groups f);
          let f := Mk (selecting f) selected (group_rects f) (start_btn_rect f)
                      (kana_list f) (index f) (show_romaji f) in
          if hit (start_btn_rect f) pos && any (selected_groups f) then
            let '(l, g) := random_shuffle (_filtered_kana f a) g in
            Ok (Mk false (selected_groups f) (group_rects f) (start_btn_rect f)
                   l 0 false, g)
          else Ok (f, g)
      | _ => Ok (f, g)
      end;
    Ok (f, g, is_escape e)
  else
    let n := Z.of_nat (length (kana_list f)) in
    match e with
    | KEYDOWN K_ESCAPE _ => Ok (f, g, true)
    | KEYDOWN K_RIGHT _ =>
        Ok (match kana_list f with
            | [] => f
            | _ => Mk (selecting f) (selected_groups f) (group_rects f)
                      (start_btn_rect f) (kana_list f) ((index f + 1) `mod` n)
                      false
            end, g, false)
    | KEYDOWN K_LEFT _ =>
        Ok (match kana_list f with
            | [] => f
            | _ => Mk (selecting f) (selected_groups f) (group_rects f)
                      (start_btn_rect f) (kana_list f) ((index f - 1) `mod` n)
                      false
            end, g, false)
    | KEYDOWN K_SPACE _ =>
        Ok (Mk (selecting f) (selected_groups f) (group_rects f)
               (start_btn_rect f) (kana_list f) (index f)
               (negb (show_romaji f)), g, false)
    | _ => Ok (f, g, false)
    end.

End Flashcards.
End Flashcards.

(** [WIDTH, HEIGHT] (line 166). *)
Definition WIDTH : Z := 900.
Definition HEIGHT : Z := 700.

(** The rect of the [i]-th answer button of a quiz (lines 339-343). *)
Definition quiz_button_rect (i : Z) : rect :=
  let '(w, h, gap) := (260, 56, 18) in
  let start_x := WIDTH `div` 2 - w `div` 2 in
  let start_y := HEIGHT `div` 2 + 40 in
  Rect start_x (start_y + i * (h + gap)) w h.

Section QuizScene.
Context `{Host}.

(** A [Quiz] with the fields of its group selection and the hover flags
    of its four buttons. *)
Record quiz_scene := QuizScene {
  q_state : Quiz.t;
  q_selecting : bool;
  q_group_rects : list (option rect);
  q_start_btn_rect : option rect;
  q_hover : list bool;
}.

Definition quiz_set_selected (selected : list bool) (q : Quiz.t) : Quiz.t :=
  Quiz.Mk (Quiz.score q) (Quiz.streak q) (Quiz.round q) (Quiz.feedback q)
          (Quiz.feedback_timer q) (Quiz.choices q) (Quiz.correct_idx q)
          (Quiz.kana q) (Quiz.kana_groups q) selected (Quiz.labels q).

(** [Quiz.__init__] (lines 313-346).  [self.kana] is [None] until
    [pick_question], which does not read it, sets it; it is the empty
    string here. *)
Definition Quiz_init (a : App) (g : rng) : result (quiz_scene * rng) :=
  let q := Quiz.Mk 0 0 0 [] 0 [] 0 [] kana_groups3 [true; true; true]
                   [[]; []; []; []] in
  '(q, g) ← Quiz.pick_question q a g;
  Ok (QuizScene q true [None; None; None] None [false; false; false; false], g).

(** [Button.handle] (lines 213-218) for the [i]-th answer button, whose
    click is [self.choose(i)]. *)
Definition quiz_button_handle (e : event) (i : nat)
    (st : quiz_scene * App * world) : result (quiz_scene * App * world) :=
  let '(s, a, w) := st in
  let r := quiz_button_rect (Z.of_nat i) in
  match e with
  | MOUSEMOTION pos =>
      Ok (QuizScene (q_state s) (q_selecting s) (q_group_rects s)
            (q_start_btn_rect s) (<[i := collidepoint r pos]> (q_hover s)), a, w)
  | MOUSEBUTTONDOWN 1 pos =>
      if collidepoint r pos then
        '(q, a, w) ← Quiz.choose (Z.of_nat i) (q_state s) a w;
        Ok (QuizScene q (q_selecting s) (q_group_rects s) (q_start_btn_rect s)
              (q_hover s), a, w)
      else Ok st
  | _ => Ok st
  end.

(** [Quiz.handle] (lines 424-441): the scene, the application, the world,
    and whether the menu was asked for. *)
Definition Quiz_handle (e : event) (s : quiz_scene) (a : App) (w : world)
  : result (quiz_scene * App * world * bool) :=
  if q_selecting s then
    '(s, g) ←
      match e with
      | MOUSEBUTTONDOWN 1 pos =>
          selected ← toggle_groups 0 (q_group_rects s) pos
                       (Quiz.selected_groups (q_state s));
          let q := quiz_set_selected selected (q_state s) in
          if hit (q_start_btn_rect s) pos && any selected then
            '(q, g) ← Quiz.pick_question q a (w_rng w);
            Ok (QuizScene q false (q_group_rects s) (q_start_btn_rect s)
                  (q_hover s), g)
          else
            Ok (QuizScene q (q_selecting s) (q_group_rects s)
                  (q_start_btn_rect s) (q_hover s), w_rng w)
      | _ => Ok (s, w_rng w)
      end;
    Ok (s, a, World g (w_disk w), is_escape e)
  else
    st ← foldl (λ st i, st ← st; quiz_button_handle e i st) (Ok (s, a, w))
          [0; 1; 2; 3]%nat;
    Ok (st, is_escape e).

(** [Quiz.update] (lines 443-445). *)
Definition Quiz_update (s : quiz_scene) : quiz_scene :=
  let q := q_state s in
  if negb (q_selecting s) && (0 <? Quiz.feedback_timer q) then
    QuizScene
      (Quiz.Mk (Quiz.score q) (Quiz.streak q) (Quiz.round q) (Quiz.feedback q)
               (Quiz.feedback_timer q - 1) (Quiz.choices q) (Quiz.correct_idx q)
               (Quiz.kana q) (Quiz.kana_groups q) (Quiz.selected_groups q)
               (Quiz.labels q))
      (q_selecting s) (q_group_rects s) (q_start_btn_rect s) (q_hover s)
  else s.

End QuizScene.

Section TypeScene.
Context `{Host}.

(** What [isprintable] says of a character, and the word lists of
    [words.json] as its format has them: a list of words for a script. *)
Variable isprintable_char : char → bool.
Variable WORDS : gmap str (list str).

(** A [TypeMode] with the fields of its group selection. *)
Record typing_scene := TypingScene {
  t_state : TypeMode.t;
  t_selecting : bool;
  t_group_rects : list (option rect);
  t_start_btn_rect : option rect;
}.

(** [TypeMode.__init__] (lines 578-601). *)
Definition TypeMode_init : typing_scene :=
  TypingScene
    (TypeMode.Mk 0 0 [] 0 WHITE_255 [] kana_groups4 [true; true; true; false]
                 [] None false [] None [])
    true [None; None; None; None] None.

(** Lines 671-688: what a click on START does once a group is selected. *)
Definition TypeMode_start (selected : list bool) (s : TypeMode.t) (a : App)
    (g : rng) : result (TypeMode.t * rng) :=
  word_mode ← match selected !! 3%nat with
              | Some b => Ok b
              | None => Raise IndexError
              end;
  let s := TypeMode.Mk (TypeMode.score s) (TypeMode.streak s)
             (TypeMode.feedback s) (TypeMode.feedback_timer s)
             (TypeMode.feedback_color s) (TypeMode.input_text s)
             (TypeMode.kana_groups s) selected (TypeMode.kana_list s)
             (TypeMode.kana s) word_mode (TypeMode.word_list s)
             (TypeMode.word s) (TypeMode.word_romaji s) in
  '(s, g) ←
    (if word_mode then
       let word_list := default [] (WORDS !! script_name a) in
       let s := TypeMode.Mk (TypeMode.score s) (TypeMode.streak s)
                  (TypeMode.feedback s) (TypeMode.feedback_timer s)
                  (TypeMode.feedback_color s) (TypeMode.input_text s)
                  (TypeMode.kana_groups s) (TypeMode.selected_groups s)
                  (TypeMode.kana_list s) (TypeMode.kana s)
                  (TypeMode.word_mode s) word_list
                  (TypeMode.word s) (TypeMode.word_romaji s) in
       match word_list with
       | [] => Ok (TypeMode.set_word None [] s, g)
       | _ => TypeMode.pick_word s a g
       end
     else
       let s := TypeMode.Mk (TypeMode.score s) (TypeMode.streak s)
                  (TypeMode.feedback s) (TypeMode.feedback_timer s)
                  (TypeMode.feedback_color s) (TypeMode.input_text s)
                  (TypeMode.kana_groups s) (TypeMode.selected_groups s)
                  (TypeMode._filtered_kana s a) (TypeMode.kana s)
                  (TypeMode.word_mode s) (TypeMode.word_list s)
                  (TypeMode.word s) (TypeMode.word_romaji s) in
       '(k, g) ← TypeMode._pick s a g;
       Ok (TypeMode.set_kana k s, g));
  Ok (TypeMode.Mk 0 0 [] 0 WHITE_255 [] (TypeMode.kana_groups s)
        (TypeMode.selected_groups s) (TypeMode.kana_list s) (TypeMode.kana s)
        (TypeMode.word_mode s) (TypeMode.word_list s) (TypeMode.word s)
        (TypeMode.word_romaji s), g).

(** [TypeMode.handle] (lines 662-737). *)
Definition TypeMode_handle (e : event) (s : typing_scene) (a : App) (w : world)
  : result (typing_scene * App * world * bool) :=
  if t_selecting s then
    '(s, g) ←
      match e with
      | MOUSEBUTTONDOWN 1 pos =>
          selected ← toggle_groups 0 (t_group_rects s) pos
                       (TypeMode.selected_groups (t_state s));
          if hit (t_start_btn_rect s) pos && any selected then
            '(st, g) ← TypeMode_start selected (t_state s) a (w_rng w);
            Ok (TypingScene st false (t_group_rects s) (t_start_btn_rect s), g)
          else
            let st := t_state s in
            Ok (TypingScene
                  (TypeMode.Mk (TypeMode.score st) (TypeMode.streak st)
                     (TypeMode.feedback st) (TypeMode.feedback_timer st)
                     (TypeMode.feedback_color st) (TypeMode.input_text st)
                     (TypeMode.kana_groups st) selected (TypeMode.kana_list st)
                     (TypeMode.kana st) (TypeMode.word_mode st)
                     (TypeMode.word_list st) (TypeMode.word st)
                     (TypeMode.word_romaji st))
                  (t_selecting s) (t_group_rects s) (t_start_btn_rect s),
                w_rng w)
      | _ => Ok (s, w_rng w)
      end;
    Ok (s, a, World g (w_disk w), is_escape e)
  else
    let '(text, submit) :=
      InputLine.handle isprintable_char e (TypeMode.input_text (t_state s)) in
    let st := TypeMode.set_input_text text (t_state s) in
    '(st, a, w) ← (if submit then TypeMode.handle_return st a w
                   else Ok (st, a, w));
    Ok (TypingScene st (t_selecting s) (t_group_rects s) (t_start_btn_rect s),
        a, w, is_escape e).

(** [TypeMode.update] (lines 739-741). *)
Definition TypeMode_update (s : TypeMode.t) : TypeMode.t :=
  if 0 <? TypeMode.feedback_timer s
  then TypeMode.set_feedback_timer (TypeMode.feedback_timer s - 1) s
  else s.

End TypeScene.

(** ** Notions for the further properties *)

(** A table whose keys have one or two characters and in which no
    one-character key, followed by the first character of a key, makes a
    two-character key: a word made of its kana splits in one way only. *)
Definition unambiguous (t : kana_table) : bool :=
  forallb (λ k1,
    match k1 with
    | [c] =>
        forallb (λ k2,
          match k2 with
          | c' :: _ => bool_decide (assoc [c; c'] t = None)
          | [] => false
          end) (t.*1)
    | [_; _] => true
    | _ => false
    end) (t.*1).

(** The first character of every key is a kana, from U+3042 on. *)
Definition kana_keys (t : kana_table) : bool :=
  forallb (λ k, match k with c :: _ => (12354 <=? c)%N | [] => false end)
          (t.*1).

(** The script and the table of an application go together. *)
Definition consistent (a : App) : Prop :=
  (script_name a = k_hiragana ∧ table a = HIRAGANA) ∨
  (script_name a = k_katakana ∧ table a = KATAKANA).

(** [n] clicks in a row, each on the button of the right answer of the
    question then asked (lines 403-422 by way of [Button.handle]). *)
Fixpoint answer_right `{Host} (n : nat) (q : Quiz.t) (a : App) (w : world)
  : result (Quiz.t * App * world) :=
  match n with
  | O => Ok (q, a, w)
  | S n =>
      '(q, a, w) ← Quiz.choose (Quiz.correct_idx q) q a w;
      answer_right n q a w
  end.

(** ** A host to run the model on *)

(** [str.lower] as CPython has it on ASCII text and on text made of Greek
    capital letters and spaces: a capital sigma becomes the final sigma,
    U+03C2, when a cased letter comes before it and none after it, and
    U+03C3 otherwise. *)
Definition sample_cased (c : char) : bool :=
  ((65 <=? c) && (c <=? 90) || (97 <=? c) && (c <=? 122) ||
   (913 <=? c) && (c <=? 939) && negb (c =? 930) ||
   (945 <=? c) && (c <=? 971))%N.

Fixpoint greek_lower (after_cased : bool) (s : str) : str :=
  match s with
  | [] => []
  | c :: rest =>
      let before_cased :=
        match rest with c' :: _ => sample_cased c' | [] => false end in
      (if (c =? 931)%N
       then (if after_cased && negb before_cased then 962 else 963)%N
       else if ((913 <=? c) && (c <=? 939) && negb (c =? 930))%N
            then (c + 32)%N
            else lower_char c)
      :: greek_lower (sample_cased c) rest
  end.

Definition sample_lower (s : str) : str := greek_lower false s.

(** A generator that replays a fixed list of draws, a codec that keeps the
    value it is given, a [set] iterated in order of first occurrence, and
    the case mappings above. *)
Definition replay_host : Host := {|
  rng := list float;
  text := json;
  random_random := λ g, match g with u :: g' => (u, g') | [] => (0%float, []) end;
  randbelow := λ _ g, (0%nat, g);
  random_shuffle := λ l g, (l, g);
  list_of_set := remove_dups;
  json_loads := Some;
  json_dumps := id;
  int_of_str := λ _, None;
  lower := sample_lower;
  upper := ascii_upper;
|}.

(** A character UTF-8 cannot encode: a surrogate, U+D800 to U+DFFF. *)
Definition is_surrogate (c : char) : bool := ((55296 <=? c) && (c <=? 57343))%N.

(** Whether the keys of a progress state, and of the dicts it holds, can
    be written to a file opened with [encoding="utf-8"]. *)
Definition encodable (v : json) : bool :=
  match v with
  | JDict d =>
      forallb (λ kv : str * json,
                 forallb (λ c, negb (is_surrogate c)) kv.1 &&
                 match kv.2 with
                 | JDict m =>
                     forallb (λ kv' : str * json,
                                forallb (λ c, negb (is_surrogate c)) kv'.1)
                             (map_to_list m)
                 | _ => true
                 end)
              (map_to_list d)
  | _ => true
  end.

(** The same host writing through UTF-8: [json.dump] of a state with a
    surrogate in a key raises in the middle of the file, which
    [save_progress] leaves behind, cut short ([None]: a text that does not
    parse). *)
Definition utf8_host : Host := {|
  rng := list float;
  text := option json;
  random_random := λ g, match g with u :: g' => (u, g') | [] => (0%float, []) end;
  randbelow := λ _ g, (0%nat, g);
  random_shuffle := λ l g, (l, g);
  list_of_set := remove_dups;
  json_loads := λ t, t;
  json_dumps := λ v, if encodable v then Some v else None;
  int_of_str := λ _, None;
  lower := sample_lower;
  upper := ascii_upper;
|}.

(** The first two kana of the hiragana table. *)
Definition KANA_A : str := [12354%N].
Definition KANA_I : str := [12356%N].

(** A disk that can be read and written, with no save file yet. *)
Definition sample_disk : disk (H := replay_host) :=
  Disk (H := replay_host) None true true.

(** The application as [App.__init__] leaves it on that disk. *)
Definition sample_app : App := App_init (H := replay_host) sample_disk.

Definition sample_world : world (H := replay_host) :=
  World (H := replay_host) [0.5%float] sample_disk.

Definition any_kana : str → bool := λ _, true.

(** A quiz showing the first kana, the right answer on the third button. *)
Definition sample_quiz : Quiz.t :=
  Quiz.Mk 0 0 0 [] 0 [] 2 KANA_A [(lit "BASIC", any_kana)] [true]
          [[]; []; []; []].

(** A typing scene showing the first kana, with [" A "] typed. *)
Definition sample_typing : TypeMode.t :=
  TypeMode.Mk 0 0 [] 0 WHITE_255 (lit " A ") [(lit "BASIC", any_kana)] [true]
              [KANA_A; KANA_I] (Some KANA_A) false [] None [].

(** The scene in word mode, showing the word of the first two kana, with
    ["A I"] typed. *)
Definition sample_words : TypeMode.t :=
  TypeMode.Mk 0 0 [] 0 WHITE_255 (lit "A I") [(lit "WORD", any_kana)] [true]
              [] None true [KANA_A ++ KANA_I] (Some (KANA_A ++ KANA_I))
              (lit "ai").

(** A typing scene with no candidate. *)
Definition sample_no_kana : TypeMode.t :=
  TypeMode.Mk 0 0 [] 0 WHITE_255 [] [] [] [] None false [] None [].

(** The first kana at mastery 1 and the second at mastery 10. *)
Definition sample_masteries : gmap str json :=
  {[ KANA_A := JInt 1; KANA_I := JInt 10 ]}.

Definition sample_weighted_app : App :=
  MkApp k_hiragana {[ k_hiragana := JDict sample_masteries ]} HIRAGANA.

(** A progress as the program holds it after some answers. *)
Definition sample_progress : gmap str json :=
  {[ k_hiragana := JDict {[ KANA_A := JInt 3; KANA_I := JInt 10 ]};
     k_katakana := JDict ∅;
     k_best_score := JDict {[ k_hiragana := JInt 7; k_katakana := JInt 0 ]} ]}.

(** A progress loaded from a file one of whose keys is the escape
    ["\ud800"], a lone surrogate. *)
Definition sample_surrogate_progress : gmap str json :=
  {[ k_hiragana := JDict {[ [55296%N] := JInt 3 ]};
     k_katakana := JDict ∅;
     k_best_score := JDict {[ k_hiragana := JInt 0; k_katakana := JInt 0 ]} ]}.

(** A save file of an earlier version: a fractional mastery, no katakana
    and no best score. *)
Definition sample_legacy_disk : disk (H := replay_host) :=
  Disk (H := replay_host)
       (Some (JDict {[ k_hiragana := JDict {[ KANA_A := JFloat 0.5 ]} ]}))
       true true.

(** Two Greek capital letters, a space and a third, and the same without
    the space; the scene in word mode on the word they are the capitals
    of. *)
Definition GREEK_SPACED : str := [913; 931; 32; 914]%N.
Definition GREEK_JOINED : str := [913; 931; 914]%N.

Definition sample_greek_words : TypeMode.t :=
  TypeMode.Mk 0 0 [] 0 WHITE_255 [] [(lit "WORD", any_kana)] [true]
              [] None true [[945; 962; 32; 946]%N] (Some [945; 962; 32; 946]%N)
              [945; 962; 32; 946]%N.

(** A progress file with a value that is no number. *)
Definition sample_bad_file : gmap str json :=
  {[ k_hiragana := JDict {[ KANA_A := JNull ]} ]}.

(** A point, the label START around it, and the labels of the groups
    below it. *)
Definition sample_pos : Z * Z := (5, 5).
Definition sample_rect : rect := Rect 0 0 10 10.
Definition sample_group_rects : list (option rect) :=
  [Some (Rect 0 100 10 10); Some (Rect 0 200 10 10); Some (Rect 0 300 10 10)].

(** The printable characters of ASCII. *)
Definition sample_printable : char → bool :=
  λ c, (32 <=? c)%N && (c <? 127)%N.

(** Flashcards on the first two kana, and flashcards whose groups are
    being selected. *)
Definition sample_flashcards : Flashcards.t :=
  Flashcards.Mk false [true; true; true] [None; None; None] None
                [KANA_A; KANA_I] 0 false.

Definition sample_flashcards_selecting : Flashcards.t :=
  Flashcards.Mk true [true; false; false] sample_group_rects (Some sample_rect)
                [] 0 false.

(** The sample quiz between two answers, and a quiz whose groups are being
    selected. *)
Definition sample_quiz_scene : quiz_scene :=
  QuizScene sample_quiz false [None; None; None] None
            [false; false; false; false].

Definition sample_quiz_selecting : quiz_scene :=
  QuizScene (Quiz.Mk 0 0 0 [] 0 [] 0 [] kana_groups3 [false; true; false]
                     [[]; []; []; []])
            true sample_group_rects (Some sample_rect)
            [false; false; false; false].

(** The sample typing between two answers, and a typing whose groups are
    being selected. *)
Definition sample_typing_scene : typing_scene :=
  TypingScene sample_typing false [None; None; None; None] None.

Definition sample_typing_selecting : typing_scene :=
  TypingScene
    (TypeMode.Mk 0 0 [] 0 WHITE_255 [] kana_groups4 [true; true; true; false]
                 [] None false [] None [])
    true (sample_group_rects ++ [Some (Rect 0 400 10 10)]) (Some sample_rect).

(** The words [load_words] falls back to (line 836). *)
Definition sample_no_words : gmap str (list str) :=
  {[ k_hiragana := []; k_katakana := [] ]}.

(** * Properties *)

(** ** Persistence *)

Section PersistenceFacts.
Context `{Host}.

Lemma clamp_range n : 1 ≤ clamp n ≤ 10.
Proof. unfold clamp. lia. Qed.

Lemma clamp_id n : 1 ≤ n ≤ 10 → clamp n = n.
Proof. unfold clamp. lia. Qed.

Lemma load_mastery_range v n : load_mastery v = Ok n → 1 ≤ n ≤ 10.
Proof.
  unfold load_mastery. intros Hv.
  destruct (match v with JFloat f => _ | _ => _ end) as [m|e]; simpl in Hv;
    [|discriminate].
  injection Hv as <-. apply clamp_range.
Qed.

Lemma load_mastery_int n : load_mastery (JInt n) = Ok (clamp n).
Proof. reflexivity. Qed.

End PersistenceFacts.

Section LoadFacts.
Context `{Host}.

Lemma keys_distinct :
  k_hiragana ≠ k_katakana ∧ k_hiragana ≠ k_best_score ∧
  k_katakana ≠ k_best_score.
Proof. repeat split; intros E; vm_compute in E; discriminate. Qed.

Lemma lookup_setdefault_eq (k : str) (v : json) (d : gmap str json) :
  setdefault k v d !! k = Some (default v (d !! k)).
Proof.
  unfold setdefault. destruct (d !! k) eqn:E; simpl; [done|].
  by rewrite lookup_insert_eq.
Qed.

Lemma lookup_setdefault_ne (k k' : str) (v : json) (d : gmap str json) :
  k ≠ k' → setdefault k v d !! k' = d !! k'.
Proof.
  intros Hne. unfold setdefault. destruct (d !! k); [done|].
  by rewrite lookup_insert_ne.
Qed.

Lemma setdefault_id (k : str) (v : json) (d : gmap str json) :
  is_Some (d !! k) → setdefault k v d = d.
Proof. intros [x Hx]. unfold setdefault. by rewrite Hx. Qed.

(** The dict the loop of lines 137-138 leaves. *)
Lemma load_masteries_Some (m m' : gmap str json) :
  load_masteries m = Some m' ↔
  convertible m ∧ m' = omap (λ v, JInt <$> caught (load_mastery v)) m.
Proof.
  unfold load_masteries, convertible.
  destruct (decide _) as [Hc|Hc]; split.
  - intros [= <-]. done.
  - intros [_ ->]. done.
  - done.
  - intros [Hc' _]. done.
Qed.

Lemma load_masteries_lookup (m m' : gmap str json) (k : str) :
  load_masteries m = Some m' →
  m' !! k = m !! k ≫= λ v, JInt <$> caught (load_mastery v).
Proof.
  intros [_ ->]%load_masteries_Some. apply lookup_omap.
Qed.

Lemma load_masteries_ok (m m' : gmap str json) :
  load_masteries m = Some m' → masteries_ok m'.
Proof.
  intros Hm k v Hk. rewrite (load_masteries_lookup _ _ _ Hm) in Hk.
  destruct (m !! k) as [v0|]; simpl in Hk; [|done].
  destruct (load_mastery v0) as [n|e] eqn:E; simpl in Hk; [|done].
  injection Hk as <-. exists n. split; [done|].
  by eapply load_mastery_range.
Qed.

Lemma load_masteries_id (m : gmap str json) :
  masteries_ok m → load_masteries m = Some m.
Proof.
  intros Hm. apply load_masteries_Some. split.
  - intros k v Hk. destruct (Hm k v Hk) as (n & -> & Hn). by eexists.
  - apply map_eq. intros k. rewrite lookup_omap.
    destruct (m !! k) as [v|] eqn:E; [|done].
    destruct (Hm k v E) as (n & -> & Hn). simpl.
    by rewrite clamp_id.
Qed.

Lemma load_script_Some (script : str) (data data' : gmap str json) :
  load_script script data = Some data' ↔
  ∃ m m', data !! script = Some (JDict m) ∧ load_masteries m = Some m' ∧
          data' = <[script := JDict m']> data.
Proof.
  unfold load_script. split.
  - destruct (data !! script) as [[]|]; simpl; try done.
    destruct (load_masteries d) eqn:E; simpl; [|done].
    intros [= <-]. eauto.
  - intros (m & m' & -> & Hm & ->). simpl. by rewrite Hm.
Qed.

(** What the [try] block returns when it returns: the file's dict with
    the defaults filled in and each script's dict converted. *)
Lemma load_body_Some (t : text) (r : gmap str json) :
  load_body t = Some r ↔
  ∃ data mh mk mh' mk' best,
    json_loads t = Some (JDict data) ∧
    default (JDict ∅) (data !! k_hiragana) = JDict mh ∧
    default (JDict ∅) (data !! k_katakana) = JDict mk ∧
    load_masteries mh = Some mh' ∧ load_masteries mk = Some mk' ∧
    default (JDict default_best_score) (data !! k_best_score) = JDict best ∧
    r = <[k_best_score :=
            JDict (setdefault k_katakana (JInt 0)
                     (setdefault k_hiragana (JInt 0) best))]>
          (setdefault k_best_score (JDict default_best_score)
             (<[k_katakana := JDict mk']>
                (<[k_hiragana := JDict mh']>
                   (setdefault k_katakana (JDict ∅)
                      (setdefault k_hiragana (JDict ∅) data))))).
Proof.
  destruct keys_distinct as (Hhk & Hhb & Hkb).
  unfold load_body. split.
  - destruct (json_loads t) as [[| | | | | |data]|]; simpl; try done.
    destruct (load_script k_hiragana _) as [d1|] eqn:E1; simpl; [|done].
    apply load_script_Some in E1 as (mh & mh' & Hh & Hmh & ->).
    destruct (load_script k_katakana _) as [d2|] eqn:E2; simpl; [|done].
    apply load_script_Some in E2 as (mk & mk' & Hk & Hmk & ->).
    rewrite lookup_insert_ne, lookup_setdefault_eq in Hk by done.
    rewrite lookup_setdefault_ne in Hk by done.
    rewrite lookup_setdefault_ne, lookup_setdefault_eq in Hh by done.
    rewrite lookup_setdefault_eq. simpl.
    rewrite !lookup_insert_ne, !lookup_setdefault_ne by done.
    destruct (default _ (data !! k_best_score)) as [| | | | | |best] eqn:Eb;
      simpl; try done.
    intros [= <-]. exists data, mh, mk, mh', mk', best.
    repeat split; congruence.
  - intros (data & mh & mk & mh' & mk' & best & -> & Hh & Hk & Hmh & Hmk & Hb & ->).
    simpl.
    assert (load_script k_hiragana
              (setdefault k_katakana (JDict ∅)
                 (setdefault k_hiragana (JDict ∅) data))
            = Some (<[k_hiragana := JDict mh']>
                 (setdefault k_katakana (JDict ∅)
                    (setdefault k_hiragana (JDict ∅) data)))) as ->.
    { apply load_script_Some. exists mh, mh'. repeat split; [|done].
      rewrite lookup_setdefault_ne, lookup_setdefault_eq by done.
      by rewrite Hh. }
    simpl.
    match goal with |- context [load_script k_katakana ?d] =>
      assert (load_script k_katakana d = Some (<[k_katakana := JDict mk']> d))
        as -> end.
    { apply load_script_Some. exists mk, mk'. repeat split; [|done].
      rewrite lookup_insert_ne, lookup_setdefault_eq by done.
      rewrite lookup_setdefault_ne by done. by rewrite Hk. }
    simpl. rewrite lookup_setdefault_eq. simpl.
    rewrite !lookup_insert_ne, !lookup_setdefault_ne by done.
    by rewrite Hb.
Qed.

Lemma default_progress_ok : progress_ok default_progress.
Proof.
  split.
  - intros script [-> | ->]; exists ∅; (split; [by vm_compute|]);
      intros k v Hk; by rewrite lookup_empty in Hk.
  - exists default_best_score. split; [by vm_compute|].
    split; exists (JInt 0); by vm_compute.
Qed.

Lemma load_body_ok (t : text) (r : gmap str json) :
  load_body t = Some r → progress_ok r.
Proof.
  destruct keys_distinct as (Hhk & Hhb & Hkb).
  intros (data & mh & mk & mh' & mk' & best & _ & _ & _ & Hmh & Hmk & _ & ->)
    %load_body_Some.
  split.
  - intros script [-> | ->].
    + exists mh'. split; [|by eapply load_masteries_ok].
      rewrite lookup_insert_ne, lookup_setdefault_ne by done.
      by rewrite lookup_insert_ne, lookup_insert_eq by done.
    + exists mk'. split; [|by eapply load_masteries_ok].
      rewrite lookup_insert_ne, lookup_setdefault_ne by done.
      by rewrite lookup_insert_eq.
  - eexists. split; [apply lookup_insert_eq|]. split.
    + rewrite lookup_setdefault_ne, lookup_setdefault_eq by done. by eexists.
    + rewrite lookup_setdefault_eq. by eexists.
Qed.

Lemma load_progress_cases (d : disk) :
  load_progress d = default_progress ∨
  ∃ t, save_file d = Some t ∧ can_read d = true ∧
       load_body t = Some (load_progress d).
Proof.
  unfold load_progress. destruct (save_file d) as [t|]; [|by left].
  destruct (can_read d); [|by left].
  destruct (load_body t) eqn:E; [|by left]. right. eauto.
Qed.

(** Whatever the save file, the progress loaded is well formed. *)
Lemma load_progress_ok (d : disk) : progress_ok (load_progress d).
Proof.
  destruct (load_progress_cases d) as [-> | (t & _ & _ & Ht)].
  - apply default_progress_ok.
  - by eapply load_body_ok.
Qed.

End LoadFacts.

Section LoadTheorems.
Context `{Host}.

Lemma load_body_file_ok (t : text) (r data : gmap str json) :
  json_loads t = Some (JDict data) → load_body t = Some r → file_ok data.
Proof.
  intros Ht (data' & mh & mk & mh' & mk' & best & Ht' & Hh & Hk & Hmh & Hmk & Hb & _)
    %load_body_Some.
  assert (data' = data) as -> by congruence.
  apply load_masteries_Some in Hmh as [Hmh _].
  apply load_masteries_Some in Hmk as [Hmk _].
  split.
  - intros script [-> | ->].
    + destruct (data !! k_hiragana) as [[]|]; simpl in Hh; try done.
      by injection Hh as ->.
    + destruct (data !! k_katakana) as [[]|]; simpl in Hk; try done.
      by injection Hk as ->.
  - by destruct (data !! k_best_score) as [[]|].
Qed.

Lemma convertible_load_masteries (m : gmap str json) :
  convertible m → is_Some (load_masteries m).
Proof. intros Hm. eexists. by apply load_masteries_Some. Qed.

Lemma file_ok_load_body (t : text) (data : gmap str json) :
  json_loads t = Some (JDict data) → file_ok data →
  ∃ r, load_body t = Some r ∧
    ∀ script m, script = k_hiragana ∨ script = k_katakana →
      data !! script = Some (JDict m) →
      ∃ m', load_masteries m = Some m' ∧ r !! script = Some (JDict m').
Proof.
  destruct keys_distinct as (Hhk & Hhb & Hkb).
  intros Ht [Hs Hb].
  assert (∀ script, script = k_hiragana ∨ script = k_katakana →
            ∃ m m', default (JDict ∅) (data !! script) = JDict m ∧
                    load_masteries m = Some m') as Hconv.
  { intros script Hscript. specialize (Hs script Hscript).
    destruct (data !! script) as [[]|]; simpl; try done.
    - destruct (convertible_load_masteries _ Hs) as [m' Hm']. eauto.
    - exists ∅, ∅. split; [done|]. apply load_masteries_id.
      intros k v Hk. by rewrite lookup_empty in Hk. }
  destruct (Hconv k_hiragana) as (mh & mh' & Hh & Hmh); [by left|].
  destruct (Hconv k_katakana) as (mk & mk' & Hk & Hmk); [by right|].
  assert (∃ best, default (JDict default_best_score) (data !! k_best_score)
                  = JDict best) as [best Hbest].
  { destruct (data !! k_best_score) as [[]|]; simpl; try done; eauto. }
  eexists. split.
  - apply load_body_Some. exists data, mh, mk, mh', mk', best. done.
  - intros script m [-> | ->] Hm; rewrite Hm in *; simpl in *.
    + injection Hh as <-. exists mh'. split; [done|].
      rewrite lookup_insert_ne, lookup_setdefault_ne by done.
      by rewrite lookup_insert_ne, lookup_insert_eq by done.
    + injection Hk as <-. exists mk'. split; [done|].
      rewrite lookup_insert_ne, lookup_setdefault_ne by done.
      by rewrite lookup_insert_eq.
Qed.

(** C8: when the progress file is absent, cannot be opened for reading, or
    does not parse, [load_progress] returns the default empty state,
    [{"hiragana": {}, "katakana": {}, "best_score": {"hiragana": 0,
    "katakana": 0}}]; it never raises. *)
Theorem load_progress_default_on_failure (d : disk) :
  save_file d = None ∨ can_read d = false ∨
    (∃ t, save_file d = Some t ∧ json_loads t = None) →
  load_progress d = default_progress.
Proof.
  unfold load_progress. intros [-> | [Hr | (t & -> & Ht)]]; [done| |].
  - rewrite Hr. by destruct (save_file d).
  - unfold load_body. rewrite Ht. simpl. by destruct (can_read d).
Qed.

(** What [load_progress] makes of a file it accepts: the masteries of each
    script converted, an empty dict for a script the file does not have,
    the best scores with 0 for a script they do not have, and every other
    entry as it is. *)
Lemma load_body_kept (t : text) (data r : gmap str json) :
  json_loads t = Some (JDict data) → load_body t = Some r →
  (∀ script, script = k_hiragana ∨ script = k_katakana →
     ∃ m', r !! script = Some (JDict m') ∧
       load_masteries (match data !! script with
                       | Some (JDict m) => m
                       | _ => ∅
                       end) = Some m') ∧
  (∃ best', r !! k_best_score = Some (JDict best') ∧
     ∀ script,
       best' !! script
       = let best := match data !! k_best_score with
                     | Some (JDict b) => b
                     | _ => default_best_score
                     end in
         if decide (script = k_hiragana ∨ script = k_katakana)
         then Some (default (JInt 0) (best !! script))
         else best !! script) ∧
  (∀ key, key ≠ k_hiragana → key ≠ k_katakana → key ≠ k_best_score →
     r !! key = data !! key).
Proof.
  destruct keys_distinct as (Hhk & Hhb & Hkb).
  intros Ht (data0 & mh & mk & mh' & mk' & best & Ht0 & Hh & Hk & Hmh & Hmk
             & Hb & ->)%load_body_Some.
  assert (data0 = data) as -> by congruence.
  split; [|split].
  - intros script [-> | ->].
    + exists mh'. split.
      * rewrite lookup_insert_ne, lookup_setdefault_ne by done.
        by rewrite lookup_insert_ne, lookup_insert_eq by done.
      * destruct (data !! k_hiragana) as [[]|]; simpl in Hh; congruence.
    + exists mk'. split.
      * rewrite lookup_insert_ne, lookup_setdefault_ne by done.
        by rewrite lookup_insert_eq.
      * destruct (data !! k_katakana) as [[]|]; simpl in Hk; congruence.
  - eexists. split; [apply lookup_insert_eq|]. intros script. cbn zeta.
    assert (match data !! k_best_score with
            | Some (JDict b) => b
            | _ => default_best_score
            end = best) as ->.
    { destruct (data !! k_best_score) as [[]|]; simpl in Hb; congruence. }
    destruct (decide (script = k_hiragana ∨ script = k_katakana))
      as [[-> | ->]|Hne].
    + by rewrite lookup_setdefault_ne, lookup_setdefault_eq by done.
    + rewrite lookup_setdefault_eq. by rewrite lookup_setdefault_ne by done.
    + rewrite !lookup_setdefault_ne; [done|intros <-; tauto..].
  - intros key H1 H2 H3.
    rewrite lookup_insert_ne, lookup_setdefault_ne by done.
    rewrite !lookup_insert_ne by done.
    by rewrite !lookup_setdefault_ne by done.
Qed.

(** C9, as the code has it: every mastery of the state [load_progress]
    returns is an integer in 1..10.  For a file that parses to a dict
    whose script entries, where present, are dicts of values that can all
    be converted (line 138), and whose [best_score], where present, is a
    dict: each stored value is kept under its key as the clamped integer
    and no key is added; a script the file does not have gets the empty
    dict, a missing [best_score] gets 0 for both scripts, a [best_score]
    without a script gets 0 for it, and every other entry is kept as it
    is.  For any other file that parses, the whole file is discarded for
    the default state.  A float of at most 1 is rescaled: multiplied by
    ten, rounded, and clamped. *)
Theorem load_progress_masteries (d : disk) :
  progress_ok (load_progress d) ∧
  (∀ t v, save_file d = Some t → can_read d = true →
     json_loads t = Some v →
     (∀ data, v = JDict data → file_ok data →
        (∀ script m, script = k_hiragana ∨ script = k_katakana →
           data !! script = Some (JDict m) →
           ∃ m', load_progress d !! script = Some (JDict m') ∧
             (∀ k x, m !! k = Some x →
                ∃ n, load_mastery x = Ok n ∧ m' !! k = Some (JInt n)) ∧
             (∀ k, m !! k = None → m' !! k = None)) ∧
        (∀ script, script = k_hiragana ∨ script = k_katakana →
           data !! script = None →
           load_progress d !! script = Some (JDict ∅)) ∧
        (data !! k_best_score = None →
           load_progress d !! k_best_score = Some (JDict default_best_score)) ∧
        (∀ best, data !! k_best_score = Some (JDict best) →
           ∃ best', load_progress d !! k_best_score = Some (JDict best') ∧
             (∀ script, script = k_hiragana ∨ script = k_katakana →
                best' !! script = Some (default (JInt 0) (best !! script))) ∧
             (∀ key, key ≠ k_hiragana → key ≠ k_katakana →
                best' !! key = best !! key)) ∧
        (∀ key, key ≠ k_hiragana → key ≠ k_katakana → key ≠ k_best_score →
           load_progress d !! key = data !! key)) ∧
     ((∀ data, v = JDict data → ¬ file_ok data) →
        load_progress d = default_progress)) ∧
  (∀ f, (f <=? 1)%float = true →
     load_mastery (JFloat f) = n ← round_float (f * 10)%float; Ok (clamp n)).
Proof.
  split; [|split].
  - apply load_progress_ok.
  - intros t v Hfile Hread Ht. split.
    + intros data -> Hok.
      destruct (file_ok_load_body t data Ht Hok) as (r & Hr & _).
      destruct (load_body_kept t data r Ht Hr) as (Hscripts & Hbest & Hrest).
      assert (load_progress d = r) as ->.
      { unfold load_progress. by rewrite Hfile, Hread, Hr. }
      split; [|split; [|split; [|split]]].
      * intros script m Hscript Hm.
        destruct (Hscripts script Hscript) as (m' & Hm' & Hload).
        rewrite Hm in Hload. exists m'. split; [done|]. split.
        -- intros k x Hk.
           pose proof (load_masteries_lookup _ _ k Hload) as Hk'.
           rewrite Hk in Hk'. simpl in Hk'.
           apply load_masteries_Some in Hload as [Hconv _].
           destruct (Hconv k x Hk) as [n Hn].
           destruct (load_mastery x) as [n'|] eqn:E; [|done].
           by exists n'.
        -- intros k Hk.
           pose proof (load_masteries_lookup _ _ k Hload) as Hk'.
           by rewrite Hk in Hk'.
      * intros script Hscript Hnone.
        destruct (Hscripts script Hscript) as (m' & Hm' & Hload).
        rewrite Hnone in Hload.
        rewrite load_masteries_id in Hload
          by (intros k x Hk; by rewrite lookup_empty in Hk).
        by injection Hload as <-.
      * intros Hnone. destruct Hbest as (best' & Hbest' & Hlook).
        rewrite Hbest'. do 2 f_equal. apply map_eq. intros script.
        rewrite Hlook, Hnone. cbn zeta.
        destruct (decide _) as [[-> | ->]|]; by vm_compute.
      * intros best Hsome. destruct Hbest as (best' & Hbest' & Hlook).
        exists best'. split; [done|]. split.
        -- intros script Hscript. rewrite Hlook, Hsome. cbn zeta.
           by rewrite decide_True.
        -- intros key H1 H2. rewrite Hlook, Hsome. cbn zeta.
           rewrite decide_False; [done|tauto].
      * done.
    + intros Hnot. unfold load_progress. rewrite Hfile, Hread.
      destruct (load_body t) as [r|] eqn:E; [|done].
      pose proof E as (data & _ & _ & _ & _ & _ & Ht' & _)%load_body_Some.
      rewrite Ht in Ht'. injection Ht' as ->.
      destruct (Hnot data eq_refl). by eapply load_body_file_ok.
  - intros f Hf. unfold load_mastery. by rewrite Hf.
Qed.

(** The progress the program holds is read back as it was written, when
    its text parses back to it. *)
Lemma load_saved_state (p : gmap str json) (d : disk) :
  json_loads (json_dumps (JDict p)) = Some (JDict p) →
  can_write d = true → can_read d = true → progress_ok p →
  load_progress (save_progress p d) = p.
Proof.
  destruct keys_distinct as (Hhk & Hhb & Hkb).
  intros Hcodec Hw Hr [Hs (best & Hb & Hbh & Hbk)].
  destruct (Hs k_hiragana) as (mh & Hh & Hmh); [by left|].
  destruct (Hs k_katakana) as (mk & Hk & Hmk); [by right|].
  unfold load_progress, save_progress. rewrite Hw. simpl. rewrite Hr.
  assert (load_body (json_dumps (JDict p)) = Some p) as ->; [|done].
  apply load_body_Some. exists p, mh, mk, mh, mk, best.
  rewrite Hcodec, Hh, Hk, Hb. simpl.
  repeat split; try by apply load_masteries_id.
  rewrite (setdefault_id k_hiragana _ p) by (by rewrite Hh).
  rewrite (setdefault_id k_katakana _ p) by (by rewrite Hk).
  rewrite (insert_id p k_hiragana) by done.
  rewrite (insert_id p k_katakana) by done.
  rewrite (setdefault_id k_best_score _ p) by (by rewrite Hb).
  rewrite (setdefault_id k_hiragana _ best) by done.
  rewrite (setdefault_id k_katakana _ best) by done.
  by rewrite insert_id.
Qed.

(** C6, as the code has it: for a progress state as the program holds it
    (a dict of integer masteries in 1..10 for each script and a best score
    for each), on a save file that can be written and read back,
    [load_progress] after [save_progress] returns the very state that was
    saved, the same mastery maps and the same best-score map, when the
    text [json.dump] writes for it parses back to it.  When [json.dump]
    fails on the state, [save_progress] swallows the error, the file is
    left cut short, and [load_progress] returns the default state. *)
Theorem save_then_load (p : gmap str json) (d : disk) :
  can_write d = true → can_read d = true → progress_ok p →
  (json_loads (json_dumps (JDict p)) = Some (JDict p) →
     load_progress (save_progress p d) = p) ∧
  (json_loads (json_dumps (JDict p)) = None →
     load_progress (save_progress p d) = default_progress).
Proof.
  intros Hw Hr Hok. split.
  - intros Hcodec. by apply load_saved_state.
  - intros Hnone. unfold load_progress, save_progress. rewrite Hw. simpl.
    rewrite Hr. unfold load_body. by rewrite Hnone.
Qed.

End LoadTheorems.

(** ** Selection weight *)

Lemma mastery_cases (m : Z) :
  1 ≤ m ≤ 10 →
  m = 1 ∨ m = 2 ∨ m = 3 ∨ m = 4 ∨ m = 5 ∨
  m = 6 ∨ m = 7 ∨ m = 8 ∨ m = 9 ∨ m = 10.
Proof. lia. Qed.

(** The weight of every mastery the program stores is positive. *)
Lemma choice_weight_positive (m : Z) :
  1 ≤ m ≤ 10 → (0 <? choice_weight m)%float = true.
Proof.
  intros Hm. destruct (mastery_cases m Hm) as
    [-> | [-> | [-> | [-> | [-> | [-> | [-> | [-> | [-> | ->]]]]]]]]];
    by vm_compute.
Qed.

(** The weight falls as the mastery rises from 1 to 6. *)
Lemma choice_weight_decreasing (m : Z) :
  1 ≤ m ≤ 5 → (choice_weight (m + 1) <? choice_weight m)%float = true.
Proof.
  intros Hm. assert (m = 1 ∨ m = 2 ∨ m = 3 ∨ m = 4 ∨ m = 5) as
    [-> | [-> | [-> | [-> | ->]]]] by lia; by vm_compute.
Qed.

(** C1, at the masteries where the code leaves it: the weight is not flat
    from 5 on.  It drops once more at 6 and then rises with the mastery, so
    that a fully mastered kana (10) weighs more than one at 5, and more
    than one at 3. *)
Theorem choice_weight_rises_above_6 :
  (choice_weight 6 <? choice_weight 5)%float = true ∧
  (choice_weight 6 <? choice_weight 7)%float = true ∧
  (choice_weight 7 <? choice_weight 8)%float = true ∧
  (choice_weight 8 <? choice_weight 9)%float = true ∧
  (choice_weight 9 <? choice_weight 10)%float = true ∧
  (choice_weight 5 <? choice_weight 10)%float = true ∧
  (choice_weight 3 <? choice_weight 10)%float = true ∧
  (choice_weight 10 =? 16.01)%float = true.
Proof. repeat split; by vm_compute. Qed.

(** C2 as stated fails: the weight of mastery 1 is not 26.01 and the weight
    of mastery 10 is not 1.01, and their ratio is below 2, far from 25.6. *)
Lemma choice_weight_example_refuted :
  ¬ ((choice_weight 1 =? 26.01)%float = true ∧
     (choice_weight 10 =? 1.01)%float = true ∧
     (25 <? choice_weight 1 / choice_weight 10)%float = true).
Proof. intros (H1 & _). vm_compute in H1. discriminate. Qed.

Section SelectorFacts.
Context `{Host}.

Lemma weigh_int (prog : gmap str json) (k : str) (n : Z) :
  prog !! k = Some (JInt n) →
  weigh (JDict prog) k = Ok (k, choice_weight n).
Proof. intros Hk. unfold weigh, get_default. simpl. by rewrite Hk. Qed.

(** [_pick] once the candidates are weighed. *)
Lemma _pick_weighed (s : TypeMode.t) (a : App) (g : rng) (prog : json)
    (items : list (str * float)) :
  progress a !! script_name a = Some prog →
  mapM (weigh prog) (TypeMode.kana_list s) = Ok items →
  TypeMode._pick s a g =
    Ok (match first_reaching ((random_random g).1 * py_sum (items.*2)) 0 items with
        | Some k => Some k
        | None => fst <$> last items
        end, (random_random g).2).
Proof.
  intros Hprog Hitems. unfold TypeMode._pick, getitem.
  rewrite Hprog. cbn [mbind result_bind]. rewrite Hitems.
  cbn [mbind result_bind]. destruct (random_random g) as [u g'].
  cbn [fst snd]. by destruct (first_reaching _ _ _).
Qed.

(** [weighted_pick] once the candidates, at least one, are weighed. *)
Lemma weighted_pick_weighed (q : Quiz.t) (a : App) (g : rng) (prog : json)
    (items : list (str * float)) (k0 : str) :
  progress a !! script_name a = Some prog →
  Quiz._filtered_kana q a ≠ [] →
  mapM (weigh prog) (Quiz._filtered_kana q a) = Ok items →
  fst <$> last items = Some k0 →
  Quiz.weighted_pick q a g =
    Ok (default k0
          (first_reaching ((random_random g).1 * py_sum (items.*2)) 0 items),
        (random_random g).2).
Proof.
  intros Hprog Hne Hitems Hlast. unfold Quiz.weighted_pick, getitem.
  rewrite Hprog. cbn [mbind result_bind].
  destruct (Quiz._filtered_kana q a) as [|k ks] eqn:E; [done|].
  rewrite Hitems. cbn [mbind result_bind].
  destruct (random_random g) as [u g']. cbn [fst snd].
  destruct (first_reaching _ _ _); [done|].
  destruct (last items) as [[k' w']|]; [|done].
  by injection Hlast as ->.
Qed.

Lemma first_reaching_two (kA kB : str) (wA wB r : float) :
  (0 + wA)%float = wA →
  first_reaching r 0 [(kA, wA); (kB, wB)] =
    if (r <=? wA)%float then Some kA
    else if (r <=? wA + wB)%float then Some kB else None.
Proof. intros E. cbn [first_reaching]. by rewrite E. Qed.

Lemma mapM_weigh_two (prog : gmap str json) (A B : str) (nA nB : Z) :
  prog !! A = Some (JInt nA) → prog !! B = Some (JInt nB) →
  mapM (weigh (JDict prog)) [A; B]
  = Ok [(A, choice_weight nA); (B, choice_weight nB)].
Proof.
  intros HA HB. cbn [mapM]. rewrite (weigh_int _ _ _ HA), (weigh_int _ _ _ HB).
  reflexivity.
Qed.

(** C2, as the code has it: with candidates A (mastery 1) and B (mastery
    10) the weight of A is 25.01, and for the draw [u] of [random.random()]
    both selectors return A when [u * total] is at most the weight of A,
    and B otherwise, [total] being the sum of the two weights. *)
Theorem weighted_example (A B : str) (prog : gmap str json) (a : App) (g : rng) :
  progress a !! script_name a = Some (JDict prog) →
  prog !! A = Some (JInt 1) →
  prog !! B = Some (JInt 10) →
  let wA := choice_weight 1 in
  let wB := choice_weight 10 in
  let r := ((random_random g).1 * py_sum [wA; wB])%float in
  let picked := if (r <=? wA)%float then A else B in
  (wA =? 25.01)%float = true ∧
  (∀ s, TypeMode.kana_list s = [A; B] →
     TypeMode._pick s a g = Ok (Some picked, (random_random g).2)) ∧
  (∀ q, Quiz._filtered_kana q a = [A; B] →
     Quiz.weighted_pick q a g = Ok (picked, (random_random g).2)).
Proof.
  intros Hprog HA HB wA wB r picked.
  assert ((0 + wA)%float = wA) as H0 by (by vm_compute).
  pose proof (mapM_weigh_two prog A B 1 10 HA HB) as Hitems.
  fold wA wB in Hitems.
  split; [by vm_compute|]. split.
  - intros s Hs. rewrite <- Hs in Hitems.
    rewrite (_pick_weighed s a g _ _ Hprog Hitems).
    rewrite (first_reaching_two A B wA wB _ H0).
    change ([(A, wA); (B, wB)].*2) with [wA; wB]. fold r. subst picked.
    destruct (r <=? wA)%float; [done|].
    by destruct (r <=? wA + wB)%float.
  - intros q Hq. rewrite <- Hq in Hitems.
    rewrite (weighted_pick_weighed q a g _ [(A, wA); (B, wB)] B Hprog);
      [|by rewrite Hq|done..].
    rewrite (first_reaching_two A B wA wB _ H0).
    change ([(A, wA); (B, wB)].*2) with [wA; wB]. fold r. subst picked.
    destruct (r <=? wA)%float; [done|].
    by destruct (r <=? wA + wB)%float.
Qed.

End SelectorFacts.

(** ** Answers *)

Section AnswerFacts.
Context `{Host}.

Lemma int_valued_py_int (prog : gmap str json) (k : str) :
  int_valued prog →
  py_int (get_default k (JInt 1) prog) = Ok (mastery prog k).
Proof.
  intros Hint. unfold get_default, mastery.
  destruct (prog !! k) as [v|] eqn:E; [|done].
  by destruct (Hint k v E) as [n ->].
Qed.

Lemma masteries_ok_int_valued (prog : gmap str json) :
  masteries_ok prog → int_valued prog.
Proof. intros Hok k v Hk. destruct (Hok k v Hk) as (n & -> & _). by eexists. Qed.

Lemma masteries_ok_insert (prog : gmap str json) (k : str) (n : Z) :
  masteries_ok prog → masteries_ok (<[k := JInt (clamp n)]> prog).
Proof.
  intros Hok k' v [[_ <-] | [_ Hk']]%lookup_insert_Some.
  - eexists. split; [done|]. unfold clamp. lia.
  - by eapply Hok.
Qed.

Lemma int_valued_insert (prog : gmap str json) (k : str) (n : Z) :
  int_valued prog → int_valued (<[k := JInt n]> prog).
Proof.
  intros Hint k' v [[_ <-] | [_ Hk']]%lookup_insert_Some; [by eexists|].
  by eapply Hint.
Qed.

Lemma masteries_Some (a : App) (script : str) (prog : gmap str json) :
  masteries a script = Some prog ↔ progress a !! script = Some (JDict prog).
Proof.
  unfold masteries. destruct (progress a !! script) as [[]|]; naive_solver.
Qed.

Lemma best_score_Some (a : App) (script : str) (b : Z) :
  best_score a script = Some b ↔
  ∃ best, progress a !! k_best_score = Some (JDict best) ∧
          best !! script = Some (JInt b).
Proof.
  unfold best_score. split.
  - destruct (progress a !! k_best_score) as [[]|]; try done.
    destruct (d !! script) as [[]|] eqn:E; try done.
    intros [= <-]. eauto.
  - intros (best & -> & ->). done.
Qed.

(** [_bump_mastery] on a dict of integer masteries. *)
Lemma _bump_mastery_ok (kana : str) (delta : Z) (a : App) (prog : gmap str json) :
  masteries a (script_name a) = Some prog → int_valued prog →
  Scene._bump_mastery kana delta a
  = Ok (set_progress
          (<[script_name a :=
               JDict (<[kana := JInt (clamp (mastery prog kana + delta))]> prog)]>
             (progress a)) a).
Proof.
  intros Hprog%masteries_Some Hint. unfold Scene._bump_mastery, getitem.
  rewrite Hprog. cbn. by rewrite int_valued_py_int.
Qed.

(** The best-score update on an integer best score. *)
Lemma update_best_ok (score : Z) (a : App) (best : gmap str json) (b : Z) :
  progress a !! k_best_score = Some (JDict best) →
  best !! script_name a = Some (JInt b) →
  Scene.update_best score a
  = Ok (if b <? score
        then set_progress
               (<[k_best_score := JDict (<[script_name a := JInt score]> best)]>
                  (progress a)) a
        else a).
Proof.
  intros Hbest Hb. unfold Scene.update_best, getitem.
  rewrite Hbest. cbn. rewrite Hb. cbn. by destruct (b <? score).
Qed.

Lemma bumped_post (correct : bool) (streak' : Z) (kana : str) (a a1 : App)
    (prog : gmap str json) :
  app_ok a →
  masteries a (script_name a) = Some prog →
  script_name a1 = script_name a → table a1 = table a →
  progress a1 !! script_name a = Some (JDict prog) →
  (∀ script, script ≠ k_best_score →
     progress a1 !! script = progress a !! script) →
  (∀ b, best_score a (script_name a) = Some b →
     best_score a1 (script_name a)
     = Some (if correct && (b <? streak') then streak' else b)) →
  (∀ script, script ≠ script_name a →
     best_score a1 script = best_score a script) →
  let a' := set_progress
      (<[script_name a :=
           JDict (<[kana := JInt (clamp (mastery prog kana
                                          + (if correct then 1 else -1)))]> prog)]>
         (progress a1)) a1 in
  answer_post correct streak' kana a a' ∧ app_ok a'.
Proof.
  intros (Hne & (prog' & Hprog' & Hint) & [b Hb] & Htable) Hprog Hs Ht Hp1
    Hframe Hbest Hother a'.
  assert (prog' = prog) as -> by congruence.
  assert (∀ script, best_score a' script = best_score a1 script) as Hsame.
  { intros script. unfold best_score, a'. simpl.
    by rewrite lookup_insert_ne. }
  split.
  - split; [done|]. split; [done|]. split; [|split; [|split]].
    + intros prog0 Hprog0. assert (prog0 = prog) as -> by congruence.
      apply masteries_Some. unfold a'. simpl. by rewrite lookup_insert_eq.
    + intros script Hs1 Hs2. unfold a'. simpl.
      rewrite lookup_insert_ne by done. by apply Hframe.
    + intros b0 Hb0. rewrite Hsame. by apply Hbest.
    + intros script Hscript. rewrite Hsame. by apply Hother.
  - assert (script_name a' = script_name a) as Hs' by done.
    split; [by rewrite Hs'|]. split; [|split].
    + eexists. split.
      * apply masteries_Some. rewrite Hs'. unfold a'. simpl.
        apply lookup_insert_eq.
      * by apply masteries_ok_insert.
    + rewrite Hs', Hsame, (Hbest b Hb). by eexists.
    + unfold a'. simpl. by rewrite Ht.
Qed.

(** A correct answer: lines 407-413 and 721-727. *)
Lemma correct_answer_ok (kana : str) (streak' : Z) (a : App) :
  app_ok a →
  ∃ a1 a', Scene.update_best streak' a = Ok a1 ∧
           Scene._bump_mastery kana 1 a1 = Ok a' ∧
           answer_post true streak' kana a a' ∧ app_ok a'.
Proof.
  intros Hok.
  pose proof Hok as (Hne & (prog & Hprog & Hint%masteries_ok_int_valued) & [b Hb] & Htable).
  pose proof Hb as (best & Hbest & Hbs)%best_score_Some.
  rewrite (update_best_ok _ _ _ _ Hbest Hbs).
  set (a1 := if b <? streak' then _ else a). exists a1.
  assert (script_name a1 = script_name a) as Hs by (unfold a1; by destruct (_ <? _)).
  assert (table a1 = table a) as Ht by (unfold a1; by destruct (_ <? _)).
  assert (∀ script, script ≠ k_best_score →
            progress a1 !! script = progress a !! script) as Hframe.
  { intros script Hscript. unfold a1. destruct (_ <? _); [|done].
    simpl. by rewrite lookup_insert_ne. }
  assert (masteries a1 (script_name a1) = Some prog) as Hprog1.
  { apply masteries_Some. rewrite Hs, Hframe by done. by apply masteries_Some. }
  rewrite (_bump_mastery_ok _ _ _ _ Hprog1 Hint). rewrite Hs.
  eexists. split; [done|]. split; [done|].
  apply (bumped_post true streak' kana a a1 prog); try done.
  - rewrite <- Hs. by apply masteries_Some.
  - intros b0 Hb0. assert (b0 = b) as -> by congruence.
    apply best_score_Some. unfold a1. simpl. destruct (b <? streak').
    + eexists. simpl. rewrite lookup_insert_eq. split; [done|].
      by rewrite lookup_insert_eq.
    + by exists best.
  - intros script Hscript. unfold best_score, a1. destruct (b <? streak'); [|done].
    simpl. rewrite lookup_insert_eq, Hbest. by rewrite lookup_insert_ne.
Qed.

(** A wrong answer: lines 415-418 and 729-733. *)
Lemma wrong_answer_ok (kana : str) (streak' : Z) (a : App) :
  app_ok a →
  ∃ a', Scene._bump_mastery kana (-1) a = Ok a' ∧
        answer_post false streak' kana a a' ∧ app_ok a'.
Proof.
  intros Hok.
  pose proof Hok as (Hne & (prog & Hprog & Hint%masteries_ok_int_valued) & [b Hb] & Htable).
  rewrite (_bump_mastery_ok _ _ _ _ Hprog Hint).
  eexists. split; [done|].
  apply (bumped_post false streak' kana a a prog); try done.
  by apply masteries_Some.
Qed.

End AnswerFacts.

(** ** The selectors *)

Section SelectorTotal.
Context `{Host}.

Lemma mapM_weigh_ok (prog : gmap str json) (l : list str) :
  int_valued prog →
  mapM (weigh (JDict prog)) l
  = Ok ((λ k, (k, choice_weight (mastery prog k))) <$> l).
Proof.
  intros Hint. induction l as [|k l IH]; [done|].
  cbn [mapM]. rewrite IH. unfold weigh at 1. cbn.
  by rewrite int_valued_py_int.
Qed.

Lemma first_reaching_elem (r acc : float) (items : list (str * float)) (k : str) :
  first_reaching r acc items = Some k → k ∈ items.*1.
Proof.
  revert acc. induction items as [|[k' w] items IH]; intros acc; [done|].
  cbn [first_reaching]. destruct (r <=? acc + w)%float.
  - intros [= ->]. apply list_elem_of_here.
  - intros Hk. apply list_elem_of_further. by eapply IH.
Qed.

Lemma last_elem {A} (l : list A) : l ≠ [] → ∃ x, last l = Some x ∧ x ∈ l.
Proof.
  intros Hl. destruct (last l) as [x|] eqn:E.
  - exists x. split; [done|]. apply list_elem_of_lookup. exists (pred (length l)).
    by rewrite <- last_lookup.
  - by apply last_None in E.
Qed.

Lemma weighed_keys (prog : gmap str json) (l : list str) :
  ((λ k, (k, choice_weight (mastery prog k))) <$> l).*1 = l.
Proof. rewrite <- list_fmap_compose. apply list_fmap_id. Qed.

(** [_pick] returns one of its candidates when there is one. *)
Lemma _pick_ok (s : TypeMode.t) (a : App) (g : rng) (prog : gmap str json) :
  masteries a (script_name a) = Some prog → int_valued prog →
  TypeMode.kana_list s ≠ [] →
  ∃ k, TypeMode._pick s a g = Ok (Some k, (random_random g).2) ∧
       k ∈ TypeMode.kana_list s.
Proof.
  intros Hprog%masteries_Some Hint Hne.
  rewrite (_pick_weighed s a g _ _ Hprog (mapM_weigh_ok _ _ Hint)).
  destruct (first_reaching _ _ _) as [k|] eqn:E.
  - exists k. split; [done|].
    apply first_reaching_elem in E. by rewrite weighed_keys in E.
  - rewrite <- fmap_last, weighed_keys.
    destruct (last_elem _ Hne) as (k & -> & Hk). by exists k.
Qed.

Lemma random_choice_ok `{!HostOk} {A} (l : list A) (g : rng) :
  l ≠ [] → ∃ x g', random_choice l g = Ok (x, g') ∧ x ∈ l.
Proof.
  intros Hl. unfold random_choice. destruct l as [|x0 l0] eqn:El; [done|].
  rewrite <- El. pose proof (randbelow_lt (length l) g) as Hlt.
  destruct (randbelow (length l) g) as [i g']. simpl in Hlt.
  destruct (lookup_lt_is_Some_2 l i) as [x Hx].
  { apply Hlt. subst l. simpl. lia. }
  rewrite Hx. exists x, g'. split; [done|]. by eapply list_elem_of_lookup_2.
Qed.

Lemma filtered_elem (sel : list bool) (groups : list (str * (str → bool)))
    (t : kana_table) (k : str) :
  k ∈ filtered sel groups t → k ∈ t.*1.
Proof.
  unfold filtered. destruct (_ <$> _); [by intros ?%elem_of_nil|].
  by intros [_ ?]%list_elem_of_filter.
Qed.

(** [weighted_pick] returns a kana of the table. *)
Lemma weighted_pick_ok `{!HostOk} (q : Quiz.t) (a : App) (g : rng)
    (prog : gmap str json) :
  masteries a (script_name a) = Some prog → int_valued prog →
  table a ≠ [] →
  ∃ k g', Quiz.weighted_pick q a g = Ok (k, g') ∧ k ∈ (table a).*1.
Proof.
  intros Hprog%masteries_Some Hint Htable.
  destruct (Quiz._filtered_kana q a) as [|k0 ks] eqn:E.
  - unfold Quiz.weighted_pick, getitem. rewrite Hprog, E. cbn [mbind result_bind].
    apply random_choice_ok. by destruct (table a).
  - assert (Quiz._filtered_kana q a ≠ []) as Hne by (by rewrite E).
    destruct (last_elem _ Hne) as (kl & Hlast & Hkl).
    rewrite (weighted_pick_weighed q a g _ _ kl Hprog Hne (mapM_weigh_ok _ _ Hint)).
    2:{ by rewrite <- fmap_last, weighed_keys, Hlast. }
    eexists _, _. split; [done|].
    destruct (first_reaching _ _ _) as [k|] eqn:Ek; simpl.
    + apply first_reaching_elem in Ek. rewrite weighed_keys in Ek.
      by eapply filtered_elem.
    + by eapply filtered_elem.
Qed.

Lemma assoc_elem (k : str) (t : kana_table) :
  k ∈ t.*1 → ∃ v, assoc k t = Some v ∧ v ∈ t.*2.
Proof.
  induction t as [|[k' v'] t IH]; [by intros ?%elem_of_nil|].
  cbn [assoc]. destruct (decide (k = k')) as [->|Hne].
  - intros _. exists v'. split; [done|]. apply list_elem_of_here.
  - intros [?|Hk]%elem_of_cons; [done|].
    destruct (IH Hk) as (v & Hv & Hin). exists v. split; [done|].
    by apply list_elem_of_further.
Qed.

Lemma table_get_ok (k : str) (t : kana_table) :
  k ∈ t.*1 → ∃ v, table_get k t = Ok v ∧ v ∈ t.*2.
Proof.
  intros (v & Hv & Hin)%assoc_elem. exists v. unfold table_get. by rewrite Hv.
Qed.

Lemma index_ok (x : str) (l : list str) :
  x ∈ l → ∃ i, index x l = Ok i.
Proof.
  intros Hx. unfold index.
  destruct (list_find_elem_of (λ y, y = x) l x Hx eq_refl) as [[i y] ->].
  by eexists.
Qed.

Lemma filter_ne_notin (x : str) (l : list str) :
  x ∉ l → filter (λ y, y ≠ x) l = l.
Proof.
  induction l as [|y l IH]; [done|].
  intros [Hne Hx]%not_elem_of_cons.
  rewrite filter_cons_True by done. by rewrite IH.
Qed.

Lemma filter_ne_length (x : str) (l : list str) :
  NoDup l → (length l ≤ S (length (filter (λ y, y ≠ x) l)))%nat.
Proof.
  induction 1 as [|y l Hy Hl IH]; [simpl; lia|].
  destruct (decide (y = x)) as [->|Hne].
  - rewrite filter_cons_False by (by intros ?).
    rewrite filter_ne_notin by done. simpl. lia.
  - rewrite filter_cons_True by done. simpl. lia.
Qed.

Lemma list_of_set_length `{!HostOk} (l : list str) :
  length (list_of_set l) = length (remove_dups l).
Proof.
  apply Permutation_length, NoDup_Permutation.
  - apply list_of_set_NoDup.
  - apply NoDup_remove_dups.
  - intros x. by rewrite list_of_set_elem, elem_of_remove_dups.
Qed.

Lemma mapM_lookup_ok (opts : list str) (l : list nat) :
  (∀ i, i ∈ l → (i < length opts)%nat) →
  ∃ ls, mapM (λ i, match opts !! i with
                   | Some o => Ok (upper o)
                   | None => Raise IndexError
                   end) l = Ok ls ∧ length ls = length l.
Proof.
  induction l as [|i l IH]; intros Hl; [by exists []|].
  destruct IH as (ls & Hls & Hlen).
  { intros j Hj. apply Hl. by apply list_elem_of_further. }
  destruct (lookup_lt_is_Some_2 opts i) as [o Ho].
  { apply Hl. apply list_elem_of_here. }
  exists (upper o :: ls). cbn [mapM]. rewrite Ho, Hls. simpl. by rewrite Hlen.
Qed.

End SelectorTotal.

Section SceneTotal.
Context `{Host} `{!HostOk}.

Lemma app_ok_table (a : App) : app_ok a → table a ≠ [].
Proof.
  intros (_ & _ & _ & Hlen) Ht. rewrite Ht in Hlen. simpl in Hlen. lia.
Qed.

(** [pick_question] asks about a kana of the table and labels the four
    buttons; the score and the streak are not its business. *)
Lemma pick_question_ok (q : Quiz.t) (a : App) (g : rng) :
  app_ok a → length (Quiz.labels q) = 4%nat →
  ∃ q' g', Quiz.pick_question q a g = Ok (q', g') ∧
    quiz_ok q' a ∧
    Quiz.score q' = Quiz.score q ∧ Quiz.streak q' = Quiz.streak q ∧
    Quiz.round q' = Quiz.round q ∧ Quiz.feedback q' = Quiz.feedback q ∧
    Quiz.feedback_timer q' = Quiz.feedback_timer q.
Proof.
  intros Hok Hlabels.
  pose proof Hok as (_ & (prog & Hprog & Hint%masteries_ok_int_valued) & _ & Hlen).
  destruct (weighted_pick_ok q a g prog Hprog Hint (app_ok_table a Hok))
    as (k & g1 & Hpick & Hk).
  destruct (table_get_ok k (table a) Hk) as (romaji & Hromaji & Hin).
  unfold Quiz.pick_question. rewrite Hpick. cbn [mbind result_bind].
  rewrite Hromaji. cbn [mbind result_bind].
  set (wrongs := filter (λ r, r ≠ romaji) (list_of_set ((table a).*2))).
  pose proof (random_shuffle_perm wrongs g1) as Hperm1.
  destruct (random_shuffle wrongs g1) as [wrongs' g2]. simpl in Hperm1.
  pose proof (random_shuffle_perm (romaji :: take 3 wrongs') g2) as Hperm2.
  destruct (random_shuffle (romaji :: take 3 wrongs') g2) as [opts g3].
  simpl in Hperm2.
  assert (3 ≤ length wrongs')%nat as Hwrongs.
  { rewrite (Permutation_length Hperm1).
    pose proof (filter_ne_length romaji _ (list_of_set_NoDup ((table a).*2))) as Hf.
    fold wrongs in Hf. rewrite list_of_set_length in Hf. lia. }
  assert (length opts = 4%nat) as Hopts.
  { rewrite (Permutation_length Hperm2). simpl. rewrite length_take. lia. }
  destruct (index_ok romaji opts) as [i Hi].
  { rewrite Hperm2. apply list_elem_of_here. }
  rewrite Hi. cbn [mbind result_bind].
  destruct (mapM_lookup_ok opts (seq 0 (length (Quiz.labels q)))) as (ls & Hls & Hlslen).
  { intros j Hj%elem_of_seq. lia. }
  rewrite Hls. cbn [mbind result_bind].
  eexists _, _. split; [done|]. simpl.
  repeat split; try done.
  cbn [Quiz.labels]. by rewrite Hlslen, length_seq.
Qed.

(** One answer in the quiz. *)
Lemma choose_ok (idx : Z) (q : Quiz.t) (a : App) (w : world) :
  app_ok a → quiz_ok q a →
  let correct := bool_decide (idx = Quiz.correct_idx q) in
  let streak' := if correct then Quiz.streak q + 1 else 0 in
  ∃ q' a' w', Quiz.choose idx q a w = Ok (q', a', w') ∧
    answer_post correct streak' (Quiz.kana q) a a' ∧
    app_ok a' ∧ quiz_ok q' a' ∧
    Quiz.streak q' = streak' ∧ Quiz.score q' = streak' ∧
    Quiz.round q' = Quiz.round q + 1 ∧
    w_disk w' = save_progress (progress a') (w_disk w).
Proof.
  intros Hok [Hkana Hlabels] correct streak'. unfold Quiz.choose.
  fold correct. destruct correct.
  - destruct (correct_answer_ok (Quiz.kana q) streak' a Hok)
      as (a1 & a' & Ha1 & Ha' & Hpost & Hok').
    subst streak'. rewrite Ha1. cbn [mbind result_bind mret result_ret].
    rewrite Ha'. cbn [mbind result_bind mret result_ret].
    pose proof Hpost as (_ & Htable & _).
    edestruct (pick_question_ok (Quiz.next_round (Quiz.scored (Quiz.streak q + 1)
                 (Quiz.streak q + 1) k_correct q)) a' (w_rng w) Hok')
      as (q' & g' & Hq' & Hqok & Hscore & Hstreak & Hround & _); [done|].
    rewrite Hq'. cbn [mbind result_bind mret result_ret].
    eexists _, _, _. split; [done|].
    split; [exact Hpost|]. split; [exact Hok'|]. split; [exact Hqok|].
    by rewrite Hstreak, Hscore, Hround.
  - destruct (table_get_ok _ _ Hkana) as (romaji & Hromaji & _).
    rewrite Hromaji. cbn [mbind result_bind mret result_ret].
    destruct (wrong_answer_ok (Quiz.kana q) streak' a Hok) as (a' & Ha' & Hpost & Hok').
    rewrite Ha'. cbn [mbind result_bind mret result_ret].
    edestruct (pick_question_ok (Quiz.next_round (Quiz.scored 0 0 romaji q))
                 a' (w_rng w) Hok')
      as (q' & g' & Hq' & Hqok & Hscore & Hstreak & Hround & _); [done|].
    rewrite Hq'. cbn [mbind result_bind mret result_ret].
    eexists _, _, _. split; [done|].
    split; [exact Hpost|]. split; [exact Hok'|]. split; [exact Hqok|].
    by rewrite Hstreak, Hscore, Hround.
Qed.

(** One answer on a single kana in the typing scene. *)
Lemma handle_return_kana_ok (s : TypeMode.t) (a : App) (w : world)
    (k romaji : str) :
  app_ok a → typing_ok s a →
  TypeMode.kana s = Some k → assoc k (table a) = Some romaji →
  let correct :=
    bool_decide (TypeMode.guess_of (TypeMode.input_text s) = romaji) in
  let streak' := if correct then TypeMode.streak s + 1 else 0 in
  ∃ s' a' w', TypeMode.handle_return s a w = Ok (s', a', w') ∧
    answer_post correct streak' k a a' ∧
    app_ok a' ∧ typing_ok s' a' ∧
    TypeMode.streak s' = streak' ∧ TypeMode.score s' = streak' ∧
    TypeMode.input_text s' = [] ∧
    w_disk w' = save_progress (progress a') (w_disk w).
Proof.
  intros Hok (Hmode & _ & Hne & Hsub) Hk Hromaji correct streak'.
  unfold TypeMode.handle_return, TypeMode.submit_kana, table_get.
  rewrite Hmode, Hk. cbn [mbind result_bind mret result_ret].
  rewrite Hromaji. cbn [mbind result_bind mret result_ret].
  fold correct. destruct correct.
  - destruct (correct_answer_ok k streak' a Hok)
      as (a1 & a' & Ha1 & Ha' & Hpost & Hok').
    subst streak'. rewrite Ha1. cbn [mbind result_bind mret result_ret].
    rewrite Ha'. cbn [mbind result_bind mret result_ret].
    pose proof Hpost as (_ & Htable & _).
    pose proof Hok' as (_ & (prog & Hprog & Hint%masteries_ok_int_valued) & _).
    edestruct (_pick_ok (TypeMode.set_feedback_timer 45
                 (TypeMode.scored (TypeMode.streak s + 1) (TypeMode.streak s + 1)
                    k_CORRECT OK s)) a' (w_rng w) prog Hprog Hint)
      as (k' & Hk' & Hin); [done|].
    rewrite Hk'. cbn [mbind result_bind mret result_ret].
    eexists _, _, _. split; [done|].
    split; [exact Hpost|]. split; [exact Hok'|]. split; [|done].
    split; [done|]. split; [|split; [done|]].
    + exists k'. split; [done|]. rewrite Htable. by apply Hsub.
    + intros k0 Hk0. rewrite Htable. by apply Hsub.
  - destruct (wrong_answer_ok k streak' a Hok) as (a' & Ha' & Hpost & Hok').
    rewrite Ha'. cbn [mbind result_bind mret result_ret].
    pose proof Hpost as (_ & Htable & _).
    pose proof Hok' as (_ & (prog & Hprog & Hint%masteries_ok_int_valued) & _).
    edestruct (_pick_ok (TypeMode.set_feedback_timer 45
                 (TypeMode.scored 0 0 romaji WARN s)) a' (w_rng w) prog Hprog Hint)
      as (k' & Hk' & Hin); [done|].
    rewrite Hk'. cbn [mbind result_bind mret result_ret].
    eexists _, _, _. split; [done|].
    split; [exact Hpost|]. split; [exact Hok'|]. split; [|done].
    split; [done|]. split; [|split; [done|]].
    + exists k'. split; [done|]. rewrite Htable. by apply Hsub.
    + intros k0 Hk0. rewrite Htable. by apply Hsub.
Qed.

(** One answer in word mode: the application and the save file are left
    alone. *)
Lemma handle_return_word_ok (s : TypeMode.t) (a : App) (w : world) :
  TypeMode.word_mode s = true →
  let correct :=
    bool_decide (TypeMode.guess_of (TypeMode.input_text s)
                 = remove_spaces (TypeMode.word_romaji s)) in
  ∃ s' w', TypeMode.handle_return s a w = Ok (s', a, w') ∧
    w_disk w' = w_disk w ∧
    TypeMode.streak s' =
      (if TypeMode.no_word s then TypeMode.streak s
       else if correct then TypeMode.streak s + 1 else 0) ∧
    TypeMode.score s' =
      (if TypeMode.no_word s then TypeMode.score s else TypeMode.streak s').
Proof.
  intros Hmode correct.
  unfold TypeMode.handle_return, TypeMode.submit_word. rewrite Hmode.
  fold correct.
  set (s1 := TypeMode.set_feedback_timer 45 _).
  assert (TypeMode.word_list s1 = TypeMode.word_list s) as Hwl.
  { unfold s1. by destruct (TypeMode.no_word s), correct. }
  assert (TypeMode.streak s1 =
            (if TypeMode.no_word s then TypeMode.streak s
             else if correct then TypeMode.streak s + 1 else 0)) as Hstreak.
  { unfold s1. by destruct (TypeMode.no_word s), correct. }
  assert (TypeMode.score s1 =
            (if TypeMode.no_word s then TypeMode.score s
             else TypeMode.streak s1)) as Hscore.
  { unfold s1. by destruct (TypeMode.no_word s), correct. }
  clearbody s1. rewrite Hwl.
  destruct (TypeMode.word_list s) as [|w0 ws] eqn:E.
  - cbn [mbind result_bind mret result_ret].
    eexists _, _. split; [done|]. done.
  - unfold TypeMode.pick_word. rewrite Hwl.
    destruct (random_choice_ok (w0 :: ws) (w_rng w)) as (x & g' & Hx & _); [done|].
    rewrite Hx. cbn [mbind result_bind mret result_ret].
    eexists _, _. split; [done|]. done.
Qed.

End SceneTotal.

(** ** Start-up *)

Section StartUp.
Context `{Host}.

(** Both tables offer the four distinct romaji a question needs. *)
Lemma tables_romaji :
  (4 ≤ length (remove_dups (HIRAGANA.*2)))%nat ∧
  (4 ≤ length (remove_dups (KATAKANA.*2)))%nat.
Proof. split; vm_compute; lia. Qed.

(** With the progress as [load_progress] returns it, one of the two
    tables, and an integer best score for the active script, the
    application is ready for answers. *)
Lemma progress_ok_app_ok (a : App) :
  progress_ok (progress a) →
  script_name a = k_hiragana ∨ script_name a = k_katakana →
  table a = HIRAGANA ∨ table a = KATAKANA →
  is_Some (best_score a (script_name a)) →
  app_ok a.
Proof.
  destruct keys_distinct as (_ & Hhb & Hkb).
  intros [Hs _] Hscript Htable Hbest. split; [|split; [|split]].
  - by destruct Hscript as [-> | ->].
  - destruct (Hs _ Hscript) as (m & Hm & Hok). exists m.
    split; [by apply masteries_Some|done].
  - done.
  - destruct tables_romaji. by destruct Htable as [-> | ->].
Qed.

(** So is it after [App.__init__], whatever the save file, once the best
    score loaded for hiragana is an integer, as every best score the
    program writes is. *)
Lemma App_init_ok (d : disk) :
  is_Some (best_score (App_init d) k_hiragana) → app_ok (App_init d).
Proof.
  intros Hbest. apply progress_ok_app_ok; [|by left..|done].
  apply load_progress_ok.
Qed.

End StartUp.

(** ** The best score along a session *)

Section BestScore.
Context `{Host}.

Lemma update_best_mono (score : Z) (a a1 : App) :
  Scene.update_best score a = Ok a1 →
  script_name a1 = script_name a ∧
  ∀ script b, best_score a script = Some b →
    ∃ b', best_score a1 script = Some b' ∧ b ≤ b'.
Proof.
  unfold Scene.update_best, getitem.
  destruct (progress a !! k_best_score) as [v|] eqn:Ev; [|done].
  destruct v as [| | | | | |best]; try done. cbn [mbind result_bind subscriptable].
  destruct (best !! script_name a) as [old|] eqn:Eold; [|done].
  cbn [mbind result_bind].
  destruct (int_gt score old) as [[|]|] eqn:Egt; cbn [mbind result_bind]; [| |done].
  - intros [= <-]. split; [done|]. intros script b Hb.
    apply best_score_Some in Hb as (best' & Hbest' & Hb).
    assert (best' = best) as -> by congruence.
    destruct (decide (script = script_name a)) as [->|Hne].
    + exists score. split.
      * apply best_score_Some. eexists. simpl. rewrite lookup_insert_eq.
        split; [done|]. by rewrite lookup_insert_eq.
      * rewrite Hb in Eold. injection Eold as <-. simpl in Egt.
        injection Egt as Hlt. lia.
    + exists b. split; [|lia].
      apply best_score_Some. eexists. simpl. rewrite lookup_insert_eq.
      split; [done|]. by rewrite lookup_insert_ne.
  - intros [= <-]. split; [done|]. intros script b Hb. exists b. split; [done|lia].
Qed.

Lemma _bump_mastery_frame (kana : str) (delta : Z) (a a' : App) :
  script_name a ≠ k_best_score →
  Scene._bump_mastery kana delta a = Ok a' →
  script_name a' = script_name a ∧
  ∀ script, best_score a' script = best_score a script.
Proof.
  intros Hne. unfold Scene._bump_mastery, getitem.
  destruct (progress a !! script_name a) as [v|]; [|done].
  destruct v as [| | | | | |prog]; try done. cbn [mbind result_bind as_dict].
  destruct (py_int _) as [cur|]; [|done]. cbn [mbind result_bind].
  intros [= <-]. split; [done|]. intros script.
  unfold best_score. simpl. by rewrite lookup_insert_ne.
Qed.

(** The steps both answer handlers share leave no best score lower. *)
Lemma scoring_mono (correct : bool) (score : Z) (kana : str) (a a' : App)
    {A} (x : A) (y : A) :
  script_name a ≠ k_best_score →
  (if correct
   then a1 ← Scene.update_best score a;
        a2 ← Scene._bump_mastery kana 1 a1; mret (x, a2)
   else a2 ← Scene._bump_mastery kana (-1) a; mret (x, a2)) = Ok (y, a') →
  script_name a' = script_name a ∧
  ∀ script b, best_score a script = Some b →
    ∃ b', best_score a' script = Some b' ∧ b ≤ b'.
Proof.
  intros Hne. destruct correct.
  - destruct (Scene.update_best score a) as [a1|] eqn:E1; [|done].
    cbn [mbind result_bind].
    destruct (Scene._bump_mastery kana 1 a1) as [a2|] eqn:E2; [|done].
    cbn [mbind result_bind]. intros [= <- <-].
    apply update_best_mono in E1 as [Hs1 Hmono].
    apply _bump_mastery_frame in E2 as [Hs2 Hframe]; [|by rewrite Hs1].
    split; [congruence|]. intros script b Hb.
    destruct (Hmono script b Hb) as (b' & Hb' & Hle).
    exists b'. by rewrite Hframe.
  - destruct (Scene._bump_mastery kana (-1) a) as [a2|] eqn:E2; [|done].
    cbn [mbind result_bind]. intros [= <- <-].
    apply _bump_mastery_frame in E2 as [Hs2 Hframe]; [|done].
    split; [done|]. intros script b Hb. exists b. rewrite Hframe. split; [done|lia].
Qed.

Lemma choose_mono (idx : Z) (q q' : Quiz.t) (a a' : App) (w w' : world) :
  script_name a ≠ k_best_score →
  Quiz.choose idx q a w = Ok (q', a', w') →
  script_name a' = script_name a ∧
  ∀ script b, best_score a script = Some b →
    ∃ b', best_score a' script = Some b' ∧ b ≤ b'.
Proof.
  intros Hne. unfold Quiz.choose.
  destruct (bool_decide (idx = Quiz.correct_idx q)).
  - destruct (Scene.update_best _ _ ≫= _) as [[q1 a1]|] eqn:E; [|done].
    cbn [mbind result_bind].
    destruct (Quiz.pick_question _ _ _) as [[q2 g]|]; [|done].
    cbn [mbind result_bind]. intros [= <- <- <-].
    by apply (scoring_mono true _ _ _ _ _ _ Hne E).
  - destruct (table_get _ _) as [romaji|]; [|done]. cbn [mbind result_bind].
    destruct (Scene._bump_mastery _ _ _ ≫= _) as [[q1 a1]|] eqn:E; [|done].
    cbn [mbind result_bind].
    destruct (Quiz.pick_question _ _ _) as [[q2 g]|]; [|done].
    cbn [mbind result_bind]. intros [= <- <- <-].
    by apply (scoring_mono false 0 _ _ _ _ _ Hne E).
Qed.

Lemma handle_return_word_inv (s s' : TypeMode.t) (a a' : App) (w w' : world) :
  TypeMode.word_mode s = true →
  TypeMode.handle_return s a w = Ok (s', a', w') →
  a' = a ∧ w_disk w' = w_disk w.
Proof.
  intros Hmode. unfold TypeMode.handle_return, TypeMode.submit_word.
  rewrite Hmode.
  destruct (match TypeMode.word_list _ with [] => _ | _ => _ end)
    as [[s1 g]|]; [|done].
  cbn [mbind result_bind]. by intros [= <- <- <-].
Qed.

Lemma handle_return_mono (s s' : TypeMode.t) (a a' : App) (w w' : world) :
  script_name a ≠ k_best_score →
  TypeMode.handle_return s a w = Ok (s', a', w') →
  script_name a' = script_name a ∧
  ∀ script b, best_score a script = Some b →
    ∃ b', best_score a' script = Some b' ∧ b ≤ b'.
Proof.
  intros Hne Hret. destruct (TypeMode.word_mode s) eqn:Hmode.
  - apply handle_return_word_inv in Hret as [-> _]; [|done].
    split; [done|]. intros script b Hb. exists b. split; [done|lia].
  - revert Hret. unfold TypeMode.handle_return, TypeMode.submit_kana.
    rewrite Hmode.
    destruct (TypeMode.kana s) as [k|]; [|done]. cbn [mbind result_bind].
    destruct (table_get k (table a)) as [romaji|]; [|done].
    cbn [mbind result_bind].
    destruct (bool_decide _).
    + destruct (Scene.update_best _ _ ≫= _) as [[s1 a1]|] eqn:E; [|done].
      cbn [mbind result_bind].
      destruct (TypeMode._pick _ _ _) as [[k' g]|]; [|done].
      cbn [mbind result_bind]. intros [= <- <- <-].
      by apply (scoring_mono true _ _ _ _ _ _ Hne E).
    + destruct (Scene._bump_mastery _ _ _ ≫= _) as [[s1 a1]|] eqn:E; [|done].
      cbn [mbind result_bind].
      destruct (TypeMode._pick _ _ _) as [[k' g]|]; [|done].
      cbn [mbind result_bind]. intros [= <- <- <-].
      by apply (scoring_mono false 0 _ _ _ _ _ Hne E).
Qed.

Lemma toggle_script_name (a : App) :
  script_name (toggle_script a) ≠ k_best_score ∧
  progress (toggle_script a) = progress a.
Proof.
  destruct keys_distinct as (_ & Hhb & Hkb).
  unfold toggle_script. by destruct (decide _).
Qed.

Lemma answer_step_mono (x y : App * world) :
  answer_step x y →
  script_name x.1 ≠ k_best_score →
  script_name y.1 ≠ k_best_score ∧
  ∀ script b, best_score x.1 script = Some b →
    ∃ b', best_score y.1 script = Some b' ∧ b ≤ b'.
Proof.
  intros [idx q q' a a' w w' Hstep | s s' a a' w w' Hstep | a w] Hne; simpl in *.
  - destruct (choose_mono _ _ _ _ _ _ _ Hne Hstep) as [Hs Hmono].
    split; [by rewrite Hs|done].
  - destruct (handle_return_mono _ _ _ _ _ _ Hne Hstep) as [Hs Hmono].
    split; [by rewrite Hs|done].
  - destruct (toggle_script_name a) as [Hs Hp].
    split; [done|]. intros script b Hb. exists b. split; [|lia].
    unfold best_score in *. by rewrite Hp.
Qed.

Lemma answer_steps_mono (x y : App * world) :
  rtc answer_step x y →
  script_name x.1 ≠ k_best_score →
  script_name y.1 ≠ k_best_score ∧
  ∀ script b, best_score x.1 script = Some b →
    ∃ b', best_score y.1 script = Some b' ∧ b ≤ b'.
Proof.
  induction 1 as [x|x y z Hxy Hyz IH]; intros Hne.
  - split; [done|]. intros script b Hb. exists b. split; [done|lia].
  - destruct (answer_step_mono _ _ Hxy Hne) as [Hy Hmono].
    destruct (IH Hy) as [Hz Hmono']. split; [done|].
    intros script b Hb. destruct (Hmono script b Hb) as (b1 & Hb1 & Hle1).
    destruct (Hmono' script b1 Hb1) as (b2 & Hb2 & Hle2).
    exists b2. split; [done|lia].
Qed.

End BestScore.

(** ** The typed answer *)

Lemma isspace_not_letter (c : char) :
  (33 ≤ c < 133)%N → isspace c = false.
Proof.
  intros Hc. unfold isspace.
  rewrite (proj2 (N.leb_gt c 13)), (proj2 (N.leb_gt c 32)) by lia.
  rewrite (proj2 (N.leb_gt 8192 c)) by lia.
  rewrite !(proj2 (N.eqb_neq c _)) by lia.
  by rewrite !andb_false_r.
Qed.

Lemma isspace_lower_char (c : char) : isspace (lower_char c) = isspace c.
Proof.
  unfold lower_char.
  destruct ((65 <=? c) && (c <=? 90))%N eqn:E; [|done].
  apply andb_prop in E as [H1%N.leb_le H2%N.leb_le].
  rewrite !isspace_not_letter; [done|lia..].
Qed.

Lemma lower_char_space (c : char) : lower_char c = SPACE ↔ c = SPACE.
Proof.
  unfold lower_char, SPACE.
  destruct ((65 <=? c) && (c <=? 90))%N eqn:E; [|done].
  apply andb_prop in E as [H1%N.leb_le H2%N.leb_le]. lia.
Qed.

Lemma lstrip_lower (s : str) : lstrip (ascii_lower s) = ascii_lower (lstrip s).
Proof.
  induction s as [|c s IH]; [done|].
  unfold ascii_lower in *. cbn [fmap list_fmap lstrip].
  rewrite isspace_lower_char. by destruct (isspace c).
Qed.

Lemma rstrip_lower (s : str) : rstrip (ascii_lower s) = ascii_lower (rstrip s).
Proof.
  unfold rstrip. unfold ascii_lower at 1. rewrite <- fmap_reverse.
  fold (ascii_lower (reverse s)). rewrite lstrip_lower.
  unfold ascii_lower. by rewrite fmap_reverse.
Qed.

Lemma strip_lower (s : str) : strip (ascii_lower s) = ascii_lower (strip s).
Proof. unfold strip. by rewrite lstrip_lower, rstrip_lower. Qed.

Lemma remove_spaces_lower (s : str) :
  remove_spaces (ascii_lower s) = ascii_lower (remove_spaces s).
Proof.
  unfold remove_spaces, ascii_lower. induction s as [|c s IH]; [done|].
  cbn [fmap list_fmap]. destruct (decide (c = SPACE)) as [->|Hc].
  - rewrite !filter_cons_False by (by intros ?). apply IH.
  - rewrite !filter_cons_True; [|done|by rewrite lower_char_space].
    cbn [fmap list_fmap]. f_equal. apply IH.
Qed.

Lemma remove_spaces_lstrip (s : str) :
  remove_spaces (lstrip s) = lstrip (remove_spaces s).
Proof.
  unfold remove_spaces. induction s as [|c s IH]; [done|].
  cbn [lstrip]. destruct (decide (c = SPACE)) as [->|Hc].
  - rewrite filter_cons_False by (by intros ?). apply IH.
  - rewrite (filter_cons_True _ c s) by done. cbn [lstrip].
    destruct (isspace c); [apply IH|]. by rewrite filter_cons_True.
Qed.

Lemma remove_spaces_rstrip (s : str) :
  remove_spaces (rstrip s) = rstrip (remove_spaces s).
Proof.
  unfold rstrip, remove_spaces. rewrite filter_reverse.
  fold (remove_spaces (lstrip (reverse s))). rewrite remove_spaces_lstrip.
  unfold remove_spaces. by rewrite filter_reverse.
Qed.

Lemma remove_spaces_strip (s : str) :
  remove_spaces (strip s) = strip (remove_spaces s).
Proof. unfold strip. by rewrite remove_spaces_rstrip, remove_spaces_lstrip. Qed.

Lemma is_ascii_lstrip (s : str) : is_ascii s → is_ascii (lstrip s).
Proof.
  unfold is_ascii. induction 1 as [|c s Hc Hs IH]; [done|].
  cbn [lstrip]. destruct (isspace c); [done|by constructor].
Qed.

Lemma is_ascii_strip (s : str) : is_ascii s → is_ascii (strip s).
Proof.
  intros Hs. unfold strip, rstrip.
  apply Forall_reverse, is_ascii_lstrip, Forall_reverse.
  by apply is_ascii_lstrip.
Qed.

Section Guess.
Context `{Host} `{!CaseOk}.

Lemma guess_of_ascii (x : str) :
  is_ascii x → TypeMode.guess_of x = remove_spaces (ascii_lower (strip x)).
Proof.
  intros Hx. unfold TypeMode.guess_of.
  by rewrite (lower_ascii (strip x)) by (by apply is_ascii_strip).
Qed.

Lemma guess_of_lower (x : str) :
  is_ascii x → TypeMode.guess_of x = remove_spaces (strip (ascii_lower x)).
Proof. intros Hx. by rewrite guess_of_ascii, strip_lower. Qed.

Lemma guess_of_spaces (x : str) :
  is_ascii x → TypeMode.guess_of x = ascii_lower (strip (remove_spaces x)).
Proof.
  intros Hx.
  by rewrite guess_of_ascii, remove_spaces_lower, remove_spaces_strip.
Qed.

End Guess.

(** ** The claims on answers and selection *)

Section Claims.
Context `{Host} `{!HostOk}.

(** C3: [_bump_mastery] sets the mastery of a kana to
    [clamp(old + delta, 1, 10)], [old] being the stored mastery, any
    integer, or 1 for a kana not yet seen; the new mastery lies in 1..10
    and no other kana's mastery changes.  In the quiz and in the typing
    scene, where the masteries lie in 1..10, a correct answer does so with
    +1 for the kana shown and an incorrect one with -1. *)
Theorem answer_moves_mastery (a : App) (w : world) (prog : gmap str json) :
  masteries a (script_name a) = Some prog → int_valued prog →
  (app_ok a → ∀ idx q, quiz_ok q a →
     let delta := if bool_decide (idx = Quiz.correct_idx q) then 1 else -1 in
     let m' := clamp (mastery prog (Quiz.kana q) + delta) in
     ∃ q' a' w', Quiz.choose idx q a w = Ok (q', a', w') ∧
       masteries a' (script_name a) = Some (<[Quiz.kana q := JInt m']> prog) ∧
       1 ≤ m' ≤ 10) ∧
  (app_ok a → ∀ s k romaji, typing_ok s a → TypeMode.kana s = Some k →
     assoc k (table a) = Some romaji →
     let delta :=
       if bool_decide (TypeMode.guess_of (TypeMode.input_text s) = romaji)
       then 1 else -1 in
     let m' := clamp (mastery prog k + delta) in
     ∃ s' a' w', TypeMode.handle_return s a w = Ok (s', a', w') ∧
       masteries a' (script_name a) = Some (<[k := JInt m']> prog) ∧
       1 ≤ m' ≤ 10) ∧
  (∀ kana delta,
     let m' := clamp (mastery prog kana + delta) in
     ∃ a', Scene._bump_mastery kana delta a = Ok a' ∧
       masteries a' (script_name a) = Some (<[kana := JInt m']> prog) ∧
       1 ≤ m' ≤ 10).
Proof.
  intros Hprog Hint. split; [|split].
  - intros Hok idx q Hq delta m'.
    destruct (choose_ok idx q a w Hok Hq)
      as (q' & a' & w' & Hstep & (_ & _ & Hm & _) & _).
    exists q', a', w'. split; [done|]. split; [by apply Hm|apply clamp_range].
  - intros Hok s k romaji Hs Hk Hromaji delta m'.
    destruct (handle_return_kana_ok s a w k romaji Hok Hs Hk Hromaji)
      as (s' & a' & w' & Hstep & (_ & _ & Hm & _) & _).
    exists s', a', w'. split; [done|]. split; [by apply Hm|apply clamp_range].
  - intros kana delta m'.
    rewrite (_bump_mastery_ok kana delta a prog Hprog Hint).
    eexists. split; [done|]. split; [|apply clamp_range].
    apply masteries_Some. simpl. by rewrite lookup_insert_eq.
Qed.

(** C5: an answer in the quiz or on a single kana in the typing scene
    leaves the streak one higher when correct and at zero when not, the
    score equal to the streak, and the best score of the active script
    equal to the new streak exactly when that streak exceeds it (for a best
    score that is not negative), the other script's best score untouched;
    this on masteries in 1..10, as the program stores them.  Along any
    sequence of answers and script changes no best score ever
    decreases. *)
Theorem best_score_follows_streak (a : App) (w : world) (b : Z) :
  script_name a ≠ k_best_score →
  (app_ok a → best_score a (script_name a) = Some b →
   ∀ idx q, quiz_ok q a →
     let correct := bool_decide (idx = Quiz.correct_idx q) in
     ∃ q' a' w', Quiz.choose idx q a w = Ok (q', a', w') ∧
       Quiz.streak q' = (if correct then Quiz.streak q + 1 else 0) ∧
       Quiz.score q' = Quiz.streak q' ∧
       best_score a' (script_name a)
       = Some (if correct && (b <? Quiz.streak q') then Quiz.streak q' else b) ∧
       (0 ≤ b → best_score a' (script_name a)
                = Some (if b <? Quiz.streak q' then Quiz.streak q' else b)) ∧
       (∀ script, script ≠ script_name a →
          best_score a' script = best_score a script)) ∧
  (app_ok a → best_score a (script_name a) = Some b →
   ∀ s k romaji, typing_ok s a → TypeMode.kana s = Some k →
     assoc k (table a) = Some romaji →
     let correct :=
       bool_decide (TypeMode.guess_of (TypeMode.input_text s) = romaji) in
     ∃ s' a' w', TypeMode.handle_return s a w = Ok (s', a', w') ∧
       TypeMode.streak s' = (if correct then TypeMode.streak s + 1 else 0) ∧
       TypeMode.score s' = TypeMode.streak s' ∧
       best_score a' (script_name a)
       = Some (if correct && (b <? TypeMode.streak s')
               then TypeMode.streak s' else b) ∧
       (0 ≤ b → best_score a' (script_name a)
                = Some (if b <? TypeMode.streak s' then TypeMode.streak s' else b)) ∧
       (∀ script, script ≠ script_name a →
          best_score a' script = best_score a script)) ∧
  (∀ a' w',
     rtc answer_step (a, w) (a', w') →
     ∀ script b0, best_score a script = Some b0 →
       ∃ b', best_score a' script = Some b' ∧ b0 ≤ b').
Proof.
  intros Hne. split; [|split].
  - intros Hok Hb idx q Hq correct.
    destruct (choose_ok idx q a w Hok Hq)
      as (q' & a' & w' & Hstep & (_ & _ & _ & _ & Hbest & Hother) & _ & _ &
          Hstreak & Hscore & _).
    fold correct in Hstreak, Hscore, Hbest.
    exists q', a', w'. split; [done|]. split; [done|].
    split; [by rewrite Hscore, Hstreak|].
    rewrite Hstreak. split; [by apply Hbest|]. split; [|done].
    intros Hb0. rewrite (Hbest b Hb). destruct correct; [done|].
    simpl. by rewrite (proj2 (Z.ltb_ge b 0)).
  - intros Hok Hb s k romaji Hs Hk Hromaji correct.
    destruct (handle_return_kana_ok s a w k romaji Hok Hs Hk Hromaji)
      as (s' & a' & w' & Hstep & (_ & _ & _ & _ & Hbest & Hother) & _ & _ &
          Hstreak & Hscore & _).
    fold correct in Hstreak, Hscore, Hbest.
    exists s', a', w'. split; [done|]. split; [done|].
    split; [by rewrite Hscore, Hstreak|].
    rewrite Hstreak. split; [by apply Hbest|]. split; [|done].
    intros Hb0. rewrite (Hbest b Hb). destruct correct; [done|].
    simpl. by rewrite (proj2 (Z.ltb_ge b 0)).
  - intros a' w' Hsteps.
    by destruct (answer_steps_mono _ _ Hsteps Hne).
Qed.

(** C7: an answer in word mode, when a word is shown, raises the streak by
    one if the guess equals the word's romaji and resets it to zero if not,
    the score following the streak; with no word to answer both stay.  In
    every case the application state, and with it the best-score record of
    each script, and the save file are left as they were. *)
Theorem word_mode_keeps_best_score (s : TypeMode.t) (a : App) (w : world) :
  TypeMode.word_mode s = true →
  let correct :=
    bool_decide (TypeMode.guess_of (TypeMode.input_text s)
                 = remove_spaces (TypeMode.word_romaji s)) in
  ∃ s' a' w', TypeMode.handle_return s a w = Ok (s', a', w') ∧
    a' = a ∧ w_disk w' = w_disk w ∧
    (∀ script, best_score a' script = best_score a script) ∧
    (TypeMode.no_word s = false →
       TypeMode.streak s' = (if correct then TypeMode.streak s + 1 else 0) ∧
       TypeMode.score s' = TypeMode.streak s') ∧
    (TypeMode.no_word s = true →
       TypeMode.streak s' = TypeMode.streak s ∧
       TypeMode.score s' = TypeMode.score s).
Proof.
  intros Hmode correct.
  destruct (handle_return_word_ok s a w Hmode)
    as (s' & w' & Hstep & Hdisk & Hstreak & Hscore).
  fold correct in Hstreak.
  exists s', a, w'. split; [done|]. split; [done|]. split; [done|].
  split; [done|].
  split; intros Hword; rewrite Hword in Hstreak, Hscore; done.
Qed.

(** C4, as the code has it: with no candidate, [Quiz.weighted_pick] is
    [random.choice] over the keys of the whole table, whatever the
    masteries: it raises [IndexError] on an empty table and otherwise
    returns one of its kana; [TypeMode._pick] draws once and returns
    [None].  Both results are functions of the generator's state. *)
Theorem empty_candidates (a : App) (g : rng) (v : json) :
  progress a !! script_name a = Some v →
  (∀ q, Quiz._filtered_kana q a = [] →
     Quiz.weighted_pick q a g = random_choice ((table a).*1) g ∧
     (table a = [] → Quiz.weighted_pick q a g = Raise IndexError) ∧
     (table a ≠ [] → ∃ k g', Quiz.weighted_pick q a g = Ok (k, g') ∧
                             k ∈ (table a).*1)) ∧
  (∀ s, TypeMode.kana_list s = [] →
     TypeMode._pick s a g = Ok (None, (random_random g).2)).
Proof.
  intros Hprog. split.
  - intros q Hq.
    assert (Quiz.weighted_pick q a g = random_choice ((table a).*1) g) as Heq.
    { unfold Quiz.weighted_pick, getitem. by rewrite Hprog, Hq. }
    rewrite Heq. split; [done|]. split.
    + by intros ->.
    + intros Htable. apply random_choice_ok. by destruct (table a).
  - intros s Hs. unfold TypeMode._pick, getitem. rewrite Hprog, Hs.
    cbn [mbind result_bind mapM mret result_ret].
    by destruct (random_random g).
Qed.

(** C10, as the code has it: the verdict on a typed answer depends on the
    text only through [text.strip().lower().replace(" ", "")]: two texts
    with the same such guess leave the scene, the application and the
    world in the same state.  Two texts of ASCII characters that are equal
    once lowercased, or equal once their spaces are removed, have the same
    guess. *)
Theorem typed_answer_normalised `{HC : !CaseOk} (s : TypeMode.t) (a : App)
    (w : world) :
  (∀ x y, TypeMode.guess_of x = TypeMode.guess_of y →
     TypeMode.handle_return (TypeMode.set_input_text x s) a w
     = TypeMode.handle_return (TypeMode.set_input_text y s) a w) ∧
  (∀ x y, is_ascii x → is_ascii y →
     (lower x = lower y → TypeMode.guess_of x = TypeMode.guess_of y) ∧
     (remove_spaces x = remove_spaces y →
        TypeMode.guess_of x = TypeMode.guess_of y)).
Proof.
  split.
  - intros x y Hg. unfold TypeMode.handle_return.
    cbn [TypeMode.set_input_text TypeMode.input_text TypeMode.word_mode].
    rewrite Hg. generalize (TypeMode.guess_of y). intros guess.
    destruct s as [sc st fb ft fc txt kg sg kl kn wm wl wd wr].
    cbn [TypeMode.word_mode]. destruct wm.
    + unfold TypeMode.submit_word, TypeMode.no_word.
      cbn [TypeMode.set_input_text TypeMode.word TypeMode.word_romaji].
      destruct (match wd with
                | Some (_ :: _) => false | _ => true end),
        (bool_decide (guess = remove_spaces wr)), wl;
        cbn -[random_choice]; try done;
        unfold TypeMode.pick_word; cbn -[random_choice];
        match goal with
        | |- context [random_choice ?l ?g] =>
            by destruct (random_choice l g) as [[]|]
        end.
    + unfold TypeMode.submit_kana.
      cbn [TypeMode.set_input_text TypeMode.kana].
      destruct kn as [k|]; [|done]. cbn [mbind result_bind].
      destruct (table_get k (table a)) as [romaji|]; [|done].
      cbn [mbind result_bind].
      destruct (bool_decide (guess = romaji)).
      * destruct (Scene.update_best _ a) as [a1|]; [|done].
        cbn [mbind result_bind].
        destruct (Scene._bump_mastery k 1 a1) as [a2|]; [|done].
        cbn. unfold TypeMode._pick. cbn.
        destruct (getitem _ _) as [prog|]; [|done]. cbn.
        destruct (mapM _ _) as [items|]; [|done]. cbn.
        destruct (random_random _). by destruct (first_reaching _ _ _).
      * destruct (Scene._bump_mastery k (-1) a) as [a2|]; [|done].
        cbn. unfold TypeMode._pick. cbn.
        destruct (getitem _ _) as [prog|]; [|done]. cbn.
        destruct (mapM _ _) as [items|]; [|done]. cbn.
        destruct (random_random _). by destruct (first_reaching _ _ _).
  - intros x y Hx Hy. split.
    + rewrite !lower_ascii by done. intros Hl.
      by rewrite !guess_of_lower, Hl.
    + intros Hr. by rewrite !guess_of_spaces, Hr.
Qed.

End Claims.

(** ** The model at work

    The theorems above, applied to the replaying host and the sample
    scenes. *)

Example load_mastery_legacy :
  load_mastery (H := replay_host) (JFloat 0.5) = Ok 5 ∧
  load_mastery (H := replay_host) (JFloat 0.04) = Ok 1 ∧
  load_mastery (H := replay_host) (JFloat 7.9) = Ok 7 ∧
  load_mastery (H := replay_host) (JInt 77) = Ok 10 ∧
  load_mastery (H := replay_host) (JFloat nan) = Raise ValueError.
Proof. repeat split; by vm_compute. Qed.

Example guess_of_example :
  TypeMode.guess_of (H := replay_host) (lit "  Ka Ki ") = lit "kaki".
Proof. by vm_compute. Qed.

Example kana_to_romaji_example :
  TypeMode.kana_to_romaji HIRAGANA [12365; 12419; 12367]%N = lit "kyaku".
Proof. by vm_compute. Qed.

Lemma replay_host_ok : HostOk (H := replay_host).
Proof.
  split.
  - intros n g Hn. simpl. lia.
  - intros l g. reflexivity.
  - intros l. apply NoDup_remove_dups.
  - intros l x. apply elem_of_remove_dups.
Qed.

Lemma sample_lower_ascii (b : bool) (s : str) :
  is_ascii s → greek_lower b s = ascii_lower s.
Proof.
  intros Hs. revert b. induction Hs as [|c s Hc Hs IH]; intros b; [done|].
  cbn [greek_lower ascii_lower fmap list_fmap]. fold (ascii_lower s).
  rewrite (proj2 (N.eqb_neq c 931)) by lia.
  rewrite (proj2 (N.leb_gt 913 c)) by lia.
  cbn [andb]. by rewrite IH.
Qed.

Lemma replay_case_ok : CaseOk (H := replay_host).
Proof. split. intros s Hs. by apply sample_lower_ascii. Qed.

Lemma sample_progress_ok : progress_ok sample_progress.
Proof.
  split.
  - intros script [-> | ->].
    + exists {[ KANA_A := JInt 3; KANA_I := JInt 10 ]}.
      split; [by vm_compute|].
      intros k v [[_ <-] | [_ [_ <-]%lookup_singleton_Some]]%lookup_insert_Some;
        eexists; (split; [done|lia]).
    + exists ∅. split; [by vm_compute|].
      intros k v Hk. by rewrite lookup_empty in Hk.
  - eexists. split; [by vm_compute|]. split; eexists; by vm_compute.
Qed.

Lemma sample_surrogate_progress_ok : progress_ok sample_surrogate_progress.
Proof.
  split.
  - intros script [-> | ->].
    + exists {[ [55296%N] := JInt 3 ]}. split; [by vm_compute|].
      intros k v [_ <-]%lookup_singleton_Some. eexists. split; [done|lia].
    + exists ∅. split; [by vm_compute|].
      intros k v Hk. by rewrite lookup_empty in Hk.
  - eexists. split; [by vm_compute|]. split; eexists; by vm_compute.
Qed.

Lemma sample_app_ok : app_ok sample_app.
Proof. apply App_init_ok. exists 0. by vm_compute. Qed.

Lemma sample_quiz_ok : quiz_ok sample_quiz sample_app.
Proof. split; [apply list_elem_of_here|done]. Qed.

Lemma sample_typing_ok : typing_ok (H := replay_host) sample_typing sample_app.
Proof.
  split; [done|]. split; [|split; [done|]].
  - exists KANA_A. split; [done|]. apply list_elem_of_here.
  - intros k [->|[->|[]%elem_of_nil]%elem_of_cons]%elem_of_cons.
    + apply list_elem_of_here.
    + apply list_elem_of_further, list_elem_of_here.
Qed.

(** C8 on a disk with no save file. *)
Lemma load_progress_default_on_failure_witness :
  load_progress (H := replay_host) sample_disk = default_progress.
Proof.
  apply (load_progress_default_on_failure (H := replay_host)).
  left. reflexivity.
Defined.

(** C6 on a progress with masteries and a best score, saved to a disk with
    no file yet. *)
Lemma save_then_load_witness :
  load_progress (H := replay_host)
    (save_progress (H := replay_host) sample_progress sample_disk)
  = sample_progress.
Proof.
  apply (proj1 (save_then_load (H := replay_host) sample_progress sample_disk
                  eq_refl eq_refl sample_progress_ok)).
  reflexivity.
Defined.

(** C6 refuted as stated: a progress as the program holds it after loading
    a file with the key ["\\ud800"], masteries in 1..10 and best scores 0,
    is not read back once saved through UTF-8: the default state is. *)
Lemma save_then_load_unencodable :
  let d := Disk (H := utf8_host) None true true in
  load_progress (H := utf8_host)
    (Disk (H := utf8_host) (Some (Some (JDict sample_surrogate_progress)))
          true true)
  = sample_surrogate_progress ∧
  progress_ok sample_surrogate_progress ∧
  load_progress (H := utf8_host)
    (save_progress (H := utf8_host) sample_surrogate_progress d)
  = default_progress ∧
  load_progress (H := utf8_host)
    (save_progress (H := utf8_host) sample_surrogate_progress d)
  ≠ sample_surrogate_progress.
Proof.
  assert (load_progress (H := utf8_host)
            (save_progress (H := utf8_host) sample_surrogate_progress
               (Disk (H := utf8_host) None true true))
          = default_progress) as Hload by (by vm_compute).
  split; [by vm_compute|]. split; [apply sample_surrogate_progress_ok|].
  split; [done|]. cbn zeta. rewrite Hload. intros E.
  apply (f_equal (λ m : gmap str json, m !! k_hiragana)) in E.
  vm_compute in E. discriminate E.
Qed.

(** C9 on a save file of an earlier version, [{"hiragana": {"あ": 0.5}}]:
    the mastery is loaded as 5, katakana as the empty dict and the best
    scores as 0. *)
Lemma load_progress_masteries_witness :
  (∃ m', load_progress (H := replay_host) sample_legacy_disk !! k_hiragana
         = Some (JDict m') ∧ m' !! KANA_A = Some (JInt 5)) ∧
  load_progress (H := replay_host) sample_legacy_disk !! k_katakana
  = Some (JDict ∅) ∧
  load_progress (H := replay_host) sample_legacy_disk !! k_best_score
  = Some (JDict default_best_score).
Proof.
  set (data := {[ k_hiragana := JDict {[ KANA_A := JFloat 0.5 ]} ]}
               : gmap str json).
  assert (file_ok (H := replay_host) data) as Hok.
  { split.
    - intros script [-> | ->].
      + change (data !! k_hiragana)
          with (Some (JDict ({[ KANA_A := JFloat 0.5 ]} : gmap str json))).
        apply map_Forall_singleton. exists 5. reflexivity.
      + change (data !! k_katakana) with (@None json). exact I.
    - change (data !! k_best_score) with (@None json). exact I. }
  destruct (proj1 (proj1 (proj2 (load_progress_masteries (H := replay_host)
                                   sample_legacy_disk))
                     (JDict data) (JDict data) eq_refl eq_refl eq_refl)
              data eq_refl Hok)
    as (Hkept & Hmissing & Hbest & _).
  split; [|split].
  - destruct (Hkept k_hiragana {[ KANA_A := JFloat 0.5 ]} (or_introl eq_refl)
                eq_refl) as (m' & Hm' & Hk & _).
    exists m'. split; [exact Hm'|].
    destruct (Hk KANA_A (JFloat 0.5) eq_refl) as (n & Hn & Hm).
    injection Hn as <-. exact Hm.
  - exact (Hmissing k_katakana (or_intror eq_refl) eq_refl).
  - exact (Hbest eq_refl).
Defined.

(** C9 refuted as stated: the file [{"hiragana": {"あ": null}}] parses, yet
    the state loaded from it has no mastery for the key it stores. *)
Lemma load_progress_discards_unconvertible :
  let d := Disk (H := replay_host) (Some (JDict sample_bad_file)) true true in
  json_loads (Host := replay_host) (JDict sample_bad_file)
    = Some (JDict sample_bad_file) ∧
  ¬ (∀ script m k v,
       sample_bad_file !! script = Some (JDict m) → m !! k = Some v →
       ∃ m' n, load_progress (H := replay_host) d !! script = Some (JDict m') ∧
               m' !! k = Some (JInt n) ∧ 1 ≤ n ≤ 10).
Proof.
  split; [reflexivity|]. intros Hclaim.
  destruct (Hclaim k_hiragana {[ KANA_A := JNull ]} KANA_A JNull)
    as (m' & n & Hm' & Hk & _); [by vm_compute..|].
  vm_compute in Hm'. injection Hm' as <-. by vm_compute in Hk.
Qed.

(** C2 on two kana of the sample table, mastery 1 and mastery 10, and the
    draw 0.5: the first is picked. *)
Lemma weighted_example_witness :
  (choice_weight 1 =? 25.01)%float = true ∧
  TypeMode._pick (H := replay_host) sample_typing sample_weighted_app
    [0.5%float]
  = Ok (Some KANA_A, []).
Proof.
  assert (progress sample_weighted_app !! script_name sample_weighted_app
          = Some (JDict sample_masteries)) as Hprog by (vm_compute; reflexivity).
  assert (sample_masteries !! KANA_A = Some (JInt 1)) as HA
    by (vm_compute; reflexivity).
  assert (sample_masteries !! KANA_I = Some (JInt 10)) as HB
    by (vm_compute; reflexivity).
  destruct (weighted_example (H := replay_host) KANA_A KANA_I sample_masteries
              sample_weighted_app [0.5%float] Hprog HA HB) as (Hw & Hpick & _).
  split; [exact Hw|]. exact (Hpick sample_typing eq_refl).
Defined.

(** C4 refuted as stated for [_pick]: with no candidate it neither raises
    nor returns a kana of the table. *)
Lemma pick_empty_neither_fails_nor_falls_back :
  TypeMode.kana_list sample_no_kana = [] ∧
  ¬ ((∃ e, TypeMode._pick (H := replay_host) sample_no_kana sample_app
             [0.5%float] = Raise e) ∨
     (∃ k g', TypeMode._pick (H := replay_host) sample_no_kana sample_app
                [0.5%float] = Ok (Some k, g') ∧ k ∈ HIRAGANA.*1)).
Proof.
  split; [reflexivity|].
  assert (TypeMode._pick (H := replay_host) sample_no_kana sample_app [0.5%float]
          = Ok (None, [])) as -> by (by vm_compute).
  intros [[e He] | (k & g' & He & _)]; discriminate He.
Qed.

(** C4 on the sample application and a scene with no candidate. *)
Lemma empty_candidates_witness :
  TypeMode._pick (H := replay_host) sample_no_kana sample_app [0.5%float]
  = Ok (None, []).
Proof.
  exact (proj2 (empty_candidates (H := replay_host) (H0 := replay_host_ok)
                  sample_app [0.5%float] (JDict ∅) eq_refl)
           sample_no_kana eq_refl).
Defined.

(** C3 on the sample quiz, the right button chosen: the kana shown, not
    yet seen, goes from mastery 1 to 2. *)
Lemma answer_moves_mastery_witness :
  ∃ q' a' w', Quiz.choose (H := replay_host) 2 sample_quiz sample_app sample_world
              = Ok (q', a', w') ∧
    masteries a' k_hiragana = Some {[ KANA_A := JInt 2 ]} ∧ 1 ≤ 2 ≤ 10.
Proof.
  assert (int_valued (∅ : gmap str json)) as Hint
    by (intros k v Hk; rewrite lookup_empty in Hk; discriminate Hk).
  exact (proj1 (answer_moves_mastery (H := replay_host) (H0 := replay_host_ok)
                  sample_app sample_world ∅ eq_refl Hint)
           sample_app_ok 2 sample_quiz sample_quiz_ok).
Defined.

(** C5 on the sample typing scene, [" A "] typed for the kana read "a":
    the streak and the best score go from 0 to 1. *)
Lemma best_score_follows_streak_witness :
  ∃ s' a' w', TypeMode.handle_return (H := replay_host) sample_typing sample_app
                sample_world = Ok (s', a', w') ∧
    TypeMode.streak s' = 1 ∧ TypeMode.score s' = TypeMode.streak s' ∧
    best_score a' k_hiragana = Some 1.
Proof.
  destruct (proj1 (proj2 (best_score_follows_streak (H := replay_host)
                            (H0 := replay_host_ok) sample_app sample_world 0
                            (proj1 sample_app_ok)))
              sample_app_ok eq_refl
              sample_typing KANA_A (lit "a") sample_typing_ok eq_refl eq_refl)
    as (s' & a' & w' & Hstep & Hstreak & Hscore & Hbest & _).
  exists s', a', w'. split; [exact Hstep|]. split; [exact Hstreak|].
  split; [exact Hscore|].
  change (script_name sample_app) with k_hiragana in Hbest.
  rewrite Hbest, Hstreak. reflexivity.
Defined.

(** C7 on the sample scene in word mode, ["A I"] typed for the word read
    "ai": the streak goes from 0 to 1, the application and the disk stay. *)
Lemma word_mode_keeps_best_score_witness :
  ∃ s' w', TypeMode.handle_return (H := replay_host) sample_words sample_app
             sample_world = Ok (s', sample_app, w') ∧
    w_disk w' = w_disk sample_world ∧
    TypeMode.streak s' = 1 ∧ TypeMode.score s' = TypeMode.streak s'.
Proof.
  destruct (word_mode_keeps_best_score (H := replay_host) (H0 := replay_host_ok)
              sample_words sample_app sample_world eq_refl)
    as (s' & a' & w' & Hstep & -> & Hdisk & _ & Hword & _).
  destruct (Hword eq_refl) as [Hstreak Hscore].
  exists s', w'. split; [exact Hstep|]. split; [exact Hdisk|].
  split; [exact Hstreak|exact Hscore].
Defined.

(** C10 on the sample typing scene: ["Ka"] and ["kA"], equal once
    lowercased, are answered alike. *)
Lemma typed_answer_normalised_witness :
  TypeMode.handle_return (H := replay_host)
    (TypeMode.set_input_text (lit "Ka") sample_typing) sample_app sample_world
  = TypeMode.handle_return (H := replay_host)
      (TypeMode.set_input_text (lit "kA") sample_typing) sample_app
      sample_world.
Proof.
  destruct (typed_answer_normalised (H := replay_host)
              (HC := replay_case_ok) sample_typing sample_app
              sample_world) as [Hsame Hguess].
  apply Hsame.
  assert (is_ascii (lit "Ka")) as Hx.
  { apply Forall_cons. split; [reflexivity|].
    apply Forall_cons. split; [reflexivity|]. apply Forall_nil_2. }
  assert (is_ascii (lit "kA")) as Hy.
  { apply Forall_cons. split; [reflexivity|].
    apply Forall_cons. split; [reflexivity|]. apply Forall_nil_2. }
  apply (proj1 (Hguess (lit "Ka") (lit "kA") Hx Hy)). reflexivity.
Defined.

(** C10 refuted as stated: in word mode on the word [ας β], the capitals
    [ΑΣ Β] are judged right and [ΑΣΒ], the same but for a space, wrong:
    [str.lower] gives the sigma its final form in the first only. *)
Lemma typed_space_changes_verdict :
  remove_spaces GREEK_SPACED = remove_spaces GREEK_JOINED ∧
  TypeMode.guess_of (H := replay_host) GREEK_SPACED = [945; 962; 946]%N ∧
  TypeMode.guess_of (H := replay_host) GREEK_JOINED = [945; 963; 946]%N ∧
  (∃ s' a' w',
     TypeMode.handle_return (H := replay_host)
       (TypeMode.set_input_text GREEK_SPACED sample_greek_words) sample_app
       sample_world = Ok (s', a', w') ∧
     TypeMode.streak s' = 1 ∧ TypeMode.feedback s' = k_CORRECT) ∧
  (∃ s' a' w',
     TypeMode.handle_return (H := replay_host)
       (TypeMode.set_input_text GREEK_JOINED sample_greek_words) sample_app
       sample_world = Ok (s', a', w') ∧
     TypeMode.streak s' = 0 ∧ TypeMode.feedback s' ≠ k_CORRECT).
Proof.
  split; [reflexivity|]. split; [reflexivity|]. split; [reflexivity|]. split.
  - destruct (TypeMode.handle_return (H := replay_host)
                (TypeMode.set_input_text GREEK_SPACED sample_greek_words)
                sample_app sample_world) as [[[s' a'] w']|e] eqn:E;
      vm_compute in E; [|discriminate E].
    exists s', a', w'. split; [done|]. injection E as <- _ _. by vm_compute.
  - destruct (TypeMode.handle_return (H := replay_host)
                (TypeMode.set_input_text GREEK_JOINED sample_greek_words)
                sample_app sample_world) as [[[s' a'] w']|e] eqn:E;
      vm_compute in E; [|discriminate E].
    exists s', a', w'. split; [done|]. injection E as <- _ _.
    split; [by vm_compute|]. intros E'. vm_compute in E'. discriminate E'.
Qed.

(** * Further properties *)

(** ** The group filters *)

Lemma chars_length (s : str) (k : str) : k ∈ chars s → length k = 1%nat.
Proof. unfold chars. by intros (c & -> & _)%list_elem_of_fmap. Qed.

Lemma group_filter_length (f : str → bool) (k : str) :
  f ∈ kana_groups3.*2 → f k = true → length k = 1%nat.
Proof.
  unfold kana_groups3. cbn [fmap list_fmap snd].
  intros Hf Hk. repeat apply elem_of_cons in Hf as [-> | Hf];
    try (by apply elem_of_nil in Hf);
    apply bool_decide_eq_true_1 in Hk;
    apply elem_of_app in Hk as [Hk | Hk]; by eapply chars_length.
Qed.

Lemma filtered_filter (sel : list bool) (groups : list (str * (str → bool)))
    (t : kana_table) (k : str) :
  k ∈ filtered sel groups t →
  k ∈ t.*1 ∧ ∃ f, f ∈ groups.*2 ∧ f k = true.
Proof.
  unfold filtered.
  set (filters := _ <$> filter _ (zip sel groups)).
  assert (∀ f, f ∈ filters → f ∈ groups.*2) as Hsub.
  { intros f (p & -> & [_ Hp]%list_elem_of_filter)%list_elem_of_fmap.
    destruct p as [b [l f]]. apply elem_of_zip_r in Hp.
    apply list_elem_of_fmap. by exists (l, f). }
  clearbody filters. destruct filters as [|f0 fs]; [by intros ?%elem_of_nil|].
  intros [Hk Hin]%list_elem_of_filter. split; [done|].
  apply Is_true_true, existsb_exists in Hk as (f & Hf & Hfk).
  exists f. split; [|done]. apply Hsub. by apply list_elem_of_In.
Qed.

(** X1: whatever groups are selected, every candidate the group filters
    let through is a key of the table of exactly one character.  The
    filters test membership in [list("...")], a list of single characters,
    so the contracted kana, written with two, pass none of them. *)
Theorem filtered_single_characters (sel : list bool) (t : kana_table) (k : str) :
  k ∈ filtered sel kana_groups3 t → length k = 1%nat ∧ k ∈ t.*1.
Proof.
  intros (Hk & f & Hf & Hfk)%filtered_filter. split; [|done].
  by eapply group_filter_length.
Qed.

Lemma filtered_groups_nonempty (sel : list bool) :
  length sel = 3%nat → any sel = true →
  filtered sel kana_groups3 HIRAGANA ≠ [] ∧
  filtered sel kana_groups3 KATAKANA ≠ [].
Proof.
  intros Hlen Hany.
  destruct sel as [|[] [|[] [|[] [|? ?]]]]; try discriminate Hlen;
    try discriminate Hany; split; by vm_compute.
Qed.

(** X2: with three group flags of which at least one is set, the candidates
    of either table are not empty, so a quiz or a deck that was started has
    kana to show. *)
Theorem filtered_not_empty (sel : list bool) :
  length sel = 3%nat → any sel = true →
  filtered sel kana_groups3 HIRAGANA ≠ [] ∧
  filtered sel kana_groups3 KATAKANA ≠ [].
Proof. apply filtered_groups_nonempty. Qed.

(** ** Words and their romaji *)

Lemma assoc_Some_elem (k v : str) (t : kana_table) :
  assoc k t = Some v → k ∈ t.*1.
Proof.
  induction t as [|[k' v'] t IH]; [done|]. cbn [assoc].
  destruct (decide (k = k')) as [->|Hne].
  - intros _. apply list_elem_of_here.
  - intros Hk. apply list_elem_of_further. by apply IH.
Qed.

Lemma tables_unambiguous :
  unambiguous HIRAGANA = true ∧ unambiguous KATAKANA = true ∧
  kana_keys HIRAGANA = true ∧ kana_keys KATAKANA = true.
Proof. repeat split; by vm_compute. Qed.

Lemma kana_to_romaji_keys (t : kana_table) (ks : list str) :
  unambiguous t = true →
  Forall (λ k, k ∈ t.*1) ks →
  TypeMode.kana_to_romaji t (concat ks)
  = concat ((λ k, default [] (assoc k t)) <$> ks).
Proof.
  intros Hu. unfold unambiguous in Hu.
  rewrite forallb_forall in Hu.
  induction 1 as [|k ks Hk Hks IH]; [done|].
  pose proof (Hu k (proj1 (list_elem_of_In _ _) Hk)) as Hk1.
  destruct (assoc_elem k t Hk) as (v & Hv & _).
  cbn [concat fmap list_fmap]. rewrite Hv. cbn [default].
  destruct k as [|c [|c2 [|c3 k]]]; try discriminate Hk1.
  - cbn [app]. rewrite forallb_forall in Hk1.
    destruct (concat ks) as [|c' rest] eqn:Erest.
    + cbn. by rewrite Hv, <- IH.
    + assert (assoc [c; c'] t = None) as Hpair.
      { destruct ks as [|k2 ks']; [done|].
        apply Forall_cons in Hks as [Hk2 _].
        pose proof (Hk1 k2 (proj1 (list_elem_of_In _ _) Hk2)) as Hk12.
        pose proof (Hu k2 (proj1 (list_elem_of_In _ _) Hk2)) as Hk2len.
        destruct k2 as [|c0 k2]; [done|].
        cbn in Erest. injection Erest as -> _.
        by apply bool_decide_eq_true_1 in Hk12. }
      cbn [TypeMode.kana_to_romaji]. rewrite Hpair, Hv. by rewrite <- IH.
  - cbn [app TypeMode.kana_to_romaji]. rewrite Hv. by rewrite IH.
Qed.

(** X3: for a word made of kana of the table, hiragana or katakana, the
    romaji the typed answer is compared with is the romaji of its kana one
    after the other, a contracted kana read as one. *)
Theorem kana_to_romaji_concat (t : kana_table) (ks : list str) :
  t = HIRAGANA ∨ t = KATAKANA →
  Forall (λ k, k ∈ t.*1) ks →
  TypeMode.kana_to_romaji t (concat ks)
  = concat ((λ k, default [] (assoc k t)) <$> ks).
Proof.
  destruct tables_unambiguous as (Hh & Hk & _).
  intros [-> | ->]; by apply kana_to_romaji_keys.
Qed.

Lemma kana_keys_first (t : kana_table) (c : char) (k : str) (v : str) :
  kana_keys t = true → assoc (c :: k) t = Some v → (12354 ≤ c)%N.
Proof.
  unfold kana_keys. rewrite forallb_forall. intros Hkeys Hk%assoc_Some_elem.
  apply list_elem_of_In, Hkeys in Hk. by apply N.leb_le in Hk.
Qed.

Lemma kana_to_romaji_other (t : kana_table) (w : str) :
  kana_keys t = true →
  Forall (λ c, (c < 12354)%N) w →
  TypeMode.kana_to_romaji t w = w.
Proof.
  intros Hkeys. induction 1 as [|c w Hc Hw IH]; [done|].
  assert (∀ k, assoc (c :: k) t = None) as Hnone.
  { intros k. destruct (assoc (c :: k) t) as [v|] eqn:E; [|done].
    apply (kana_keys_first t c k v Hkeys) in E. lia. }
  destruct w as [|c' w'].
  - cbn. by rewrite Hnone.
  - change (TypeMode.kana_to_romaji t (c :: c' :: w'))
      with (match assoc [c; c'] t with
            | Some r => r ++ TypeMode.kana_to_romaji t w'
            | None =>
                match assoc [c] t with
                | Some r => r ++ TypeMode.kana_to_romaji t (c' :: w')
                | None => c :: TypeMode.kana_to_romaji t (c' :: w')
                end
            end).
    by rewrite !Hnone, IH.
Qed.

(** X4: a word none of whose characters is a kana (every code point below
    U+3042, as in text already in romaji) is its own romaji, for either
    table. *)
Theorem kana_to_romaji_plain (w : str) :
  Forall (λ c, (c < 12354)%N) w →
  TypeMode.kana_to_romaji HIRAGANA w = w ∧
  TypeMode.kana_to_romaji KATAKANA w = w.
Proof.
  destruct tables_unambiguous as (_ & _ & Hh & Hk).
  intros Hw. split; by apply kana_to_romaji_other.
Qed.

(** ** The script *)

(** X5: [toggle_script] leaves the progress alone and the script name and
    the table in step; from a state where they are in step, toggling twice
    gives the state back. *)
Theorem toggle_script_twice (a : App) :
  consistent (toggle_script a) ∧
  progress (toggle_script a) = progress a ∧
  (consistent a → toggle_script (toggle_script a) = a).
Proof.
  destruct keys_distinct as (Hhk & _).
  unfold toggle_script, consistent. split; [|split].
  - destruct (decide _); [right|left]; split; reflexivity.
  - destruct (decide _); reflexivity.
  - intros [[Hs Ht] | [Hs Ht]]; destruct a as [sn p t];
      cbn [script_name table] in *; subst.
    + destruct (decide (k_hiragana = k_hiragana)) as [_|Hne]; [|by destruct Hne].
      cbn [script_name progress].
      destruct (decide (k_katakana = k_hiragana)) as [E|_]; [|reflexivity].
      by destruct Hhk.
    + destruct (decide (k_katakana = k_hiragana)) as [E|_]; [by destruct Hhk|].
      cbn [script_name progress].
      destruct (decide (k_hiragana = k_hiragana)) as [_|Hne]; [reflexivity|].
      by destruct Hne.
Qed.

(** ** The question of a quiz *)

Section Question.
Context `{Host} `{!HostOk}.

Lemma mapM_lookup_all (pre opts : list str) :
  mapM (λ i, match (pre ++ opts) !! i with
             | Some o => Ok (upper o)
             | None => Raise IndexError
             end) (seq (length pre) (length opts))
  = Ok (upper <$> opts).
Proof.
  revert pre. induction opts as [|o opts IH]; intros pre; [done|].
  cbn [length seq mapM]. rewrite list_lookup_middle by done.
  cbn [mbind result_bind].
  specialize (IH (pre ++ [o])). rewrite <- app_assoc in IH. cbn [app] in IH.
  rewrite length_app in IH. cbn [length] in IH.
  replace (length pre + 1)%nat with (S (length pre)) in IH by lia.
  by rewrite IH.
Qed.

Lemma index_first (x : str) (l : list str) (i : Z) :
  index x l = Ok i → l !! Z.to_nat i = Some x ∧ 0 ≤ i.
Proof.
  unfold index. destruct (list_find _ l) as [[j y]|] eqn:E; [|done].
  intros [= <-]. apply list_find_Some in E as (Hj & -> & _).
  rewrite Nat2Z.id. split; [done|lia].
Qed.

(** X6: on masteries in 1..10, [pick_question] offers four distinct
    romaji of the table, the romaji of the kana it asks among them at
    [correct_idx] and nowhere else, and writes them, through [str.upper],
    on the four buttons: exactly one button is right. *)
Theorem pick_question_choices (q : Quiz.t) (a : App) (g : rng) :
  app_ok a → length (Quiz.labels q) = 4%nat →
  ∃ q' g' romaji, Quiz.pick_question q a g = Ok (q', g') ∧
    assoc (Quiz.kana q') (table a) = Some romaji ∧
    length (Quiz.choices q') = 4%nat ∧
    NoDup ((Quiz.choices q').*2) ∧
    (∀ c, c ∈ Quiz.choices q' → c.1 = Quiz.kana q' ∧ c.2 ∈ (table a).*2) ∧
    (∀ i c, Quiz.choices q' !! i = Some c →
       c.2 = romaji ↔ Z.of_nat i = Quiz.correct_idx q') ∧
    Quiz.labels q' = upper <$> (Quiz.choices q').*2.
Proof.
  intros Hok Hlabels.
  pose proof Hok as (_ & (prog & Hprog & Hint%masteries_ok_int_valued) & _ & Hlen).
  destruct (weighted_pick_ok q a g prog Hprog Hint (app_ok_table a Hok))
    as (k & g1 & Hpick & Hk).
  destruct (assoc_elem k (table a) Hk) as (romaji & Hromaji & Hin).
  unfold Quiz.pick_question, table_get. rewrite Hpick. cbn [mbind result_bind].
  rewrite Hromaji. cbn [mbind result_bind].
  set (wrongs := filter (λ r, r ≠ romaji) (list_of_set ((table a).*2))).
  assert (NoDup wrongs) as Hnd
    by apply NoDup_filter, list_of_set_NoDup.
  pose proof (random_shuffle_perm wrongs g1) as Hperm1.
  destruct (random_shuffle wrongs g1) as [wrongs' g2]. simpl in Hperm1.
  pose proof (random_shuffle_perm (romaji :: take 3 wrongs') g2) as Hperm2.
  destruct (random_shuffle (romaji :: take 3 wrongs') g2) as [opts g3].
  simpl in Hperm2.
  assert (3 ≤ length wrongs')%nat as Hwrongs.
  { rewrite (Permutation_length Hperm1).
    pose proof (filter_ne_length romaji _ (list_of_set_NoDup ((table a).*2))) as Hf.
    fold wrongs in Hf. rewrite list_of_set_length in Hf. lia. }
  assert (length opts = 4%nat) as Hopts.
  { rewrite (Permutation_length Hperm2). simpl. rewrite length_take. lia. }
  assert (∀ r, r ∈ take 3 wrongs' → r ≠ romaji ∧ r ∈ (table a).*2) as Htake.
  { intros r Hr%subseteq_take. rewrite Hperm1 in Hr.
    apply list_elem_of_filter in Hr as [Hne Hr].
    rewrite list_of_set_elem in Hr. by split. }
  assert (NoDup opts) as Hndopts.
  { rewrite Hperm2. apply NoDup_cons. split.
    - intros Hr. by destruct (Htake _ Hr).
    - eapply sublist_NoDup; [|apply sublist_take]. by rewrite Hperm1. }
  destruct (index_ok romaji opts) as [i Hi].
  { rewrite Hperm2. apply list_elem_of_here. }
  rewrite Hi. cbn [mbind result_bind].
  rewrite Hlabels, <- Hopts.
  pose proof (mapM_lookup_all [] opts) as Hall. cbn [app length] in Hall.
  rewrite Hall. cbn [mbind result_bind mret result_ret].
  apply index_first in Hi as [Hi Hi0].
  eexists _, _, romaji. split; [done|].
  cbn [Quiz.kana Quiz.choices Quiz.correct_idx Quiz.labels].
  rewrite <- list_fmap_compose. cbn [compose snd]. rewrite list_fmap_id.
  split; [done|]. split; [by rewrite length_fmap|]. split; [done|].
  split; [|split; [|done]].
  - intros c (r & -> & Hr)%list_elem_of_fmap. split; [done|]. cbn [snd].
    rewrite Hperm2 in Hr. apply elem_of_cons in Hr as [-> | Hr]; [done|].
    by destruct (Htake _ Hr).
  - intros j c Hj. rewrite list_lookup_fmap in Hj.
    destruct (opts !! j) as [r|] eqn:Ej; [|done]. injection Hj as <-.
    cbn [snd]. split.
    + intros ->. pose proof (NoDup_lookup _ _ _ _ Hndopts Ej Hi). lia.
    + intros Hji. assert (j = Z.to_nat i) as -> by lia. congruence.
Qed.

End Question.

(** ** Selecting groups *)

Lemma toggle_groups_lookup (i : nat) (rects : list (option rect)) (pos : Z * Z)
    (sel : list bool) :
  (i + length rects ≤ length sel)%nat →
  ∃ sel', toggle_groups i rects pos sel = Ok sel' ∧
    length sel' = length sel ∧
    ∀ j, sel' !! j
         = (λ b : bool, if bool_decide (i ≤ j)%nat &&
                           hit (default None (rects !! (j - i)%nat)) pos
                        then negb b else b) <$> sel !! j.
Proof.
  revert i sel. induction rects as [|r rects IH]; intros i sel Hlen.
  - exists sel. split; [done|]. split; [done|]. intros j.
    rewrite lookup_nil. cbn. rewrite andb_false_r.
    by destruct (sel !! j).
  - cbn [toggle_groups length] in *.
    destruct (lookup_lt_is_Some_2 sel i) as [b Hb]; [lia|].
    set (sel1 := if hit r pos then <[i := negb b]> sel else sel).
    assert ((if hit r pos
             then match sel !! i with
                  | Some b => Ok (<[i := negb b]> sel)
                  | None => Raise IndexError
                  end
             else Ok sel) = Ok sel1) as ->.
    { unfold sel1. rewrite Hb. by destruct (hit r pos). }
    cbn [mbind result_bind].
    assert (length sel1 = length sel) as Hlen1.
    { unfold sel1. destruct (hit r pos); [apply length_insert|done]. }
    destruct (IH (S i) sel1) as (sel' & Hsel' & Hlen' & Hlook); [lia|].
    exists sel'. split; [done|]. split; [lia|]. intros j. rewrite Hlook.
    destruct (decide (j = i)) as [->|Hne].
    + rewrite bool_decide_eq_false_2 by lia.
      rewrite bool_decide_eq_true_2 by lia. rewrite Nat.sub_diag.
      cbn [lookup list_lookup default andb]. rewrite Hb. cbn. unfold sel1.
      destruct (hit r pos).
      * by rewrite list_lookup_insert_eq by (by eapply lookup_lt_Some).
      * by rewrite Hb.
    + assert (sel1 !! j = sel !! j) as ->.
      { unfold sel1. destruct (hit r pos); [|done].
        by rewrite list_lookup_insert_ne. }
      destruct (decide (i ≤ j)%nat) as [Hle|Hgt].
      * rewrite !bool_decide_eq_true_2 by lia.
        replace (j - i)%nat with (S (j - S i)) by lia. done.
      * by rewrite !bool_decide_eq_false_2 by lia.
Qed.

(** X7: a click during the selection flips exactly the groups whose label
    it is on and keeps the number of flags; the same click once more gives
    the selection back. *)
Theorem toggle_groups_twice (rects : list (option rect)) (pos : Z * Z)
    (sel : list bool) :
  (length rects ≤ length sel)%nat →
  ∃ sel', toggle_groups 0 rects pos sel = Ok sel' ∧
    length sel' = length sel ∧
    (∀ j b, sel !! j = Some b →
       sel' !! j = Some (if hit (default None (rects !! j)) pos
                         then negb b else b)) ∧
    toggle_groups 0 rects pos sel' = Ok sel.
Proof.
  intros Hlen.
  destruct (toggle_groups_lookup 0 rects pos sel) as (sel' & Hsel' & Hlen' & Hlook);
    [lia|].
  exists sel'. split; [done|]. split; [done|]. split.
  - intros j b Hj. rewrite Hlook, Hj. cbn.
    rewrite bool_decide_eq_true_2 by lia. by rewrite Nat.sub_0_r.
  - destruct (toggle_groups_lookup 0 rects pos sel')
      as (sel'' & Hsel'' & Hlen'' & Hlook''); [lia|].
    rewrite Hsel''. f_equal. apply list_eq. intros j.
    rewrite Hlook'', Hlook. destruct (sel !! j) as [b|]; [|done]. cbn.
    destruct (_ && _); [|done]. by rewrite negb_involutive.
Qed.

(** ** The input line *)

(** X8: a key that types one printable character, followed by Backspace,
    leaves the text as it was; neither key submits. *)
Theorem inputline_backspace_undoes (isprintable_char : char → bool)
    (k : key) (c : char) (text u : str) :
  k ≠ K_BACKSPACE → k ≠ K_RETURN → isprintable_char c = true →
  InputLine.handle isprintable_char (KEYDOWN k [c]) text = (text ++ [c], false) ∧
  InputLine.handle isprintable_char (KEYDOWN K_BACKSPACE u) (text ++ [c])
  = (text, false).
Proof.
  intros Hk1 Hk2 Hc. split.
  - destruct k; try done; cbn; by rewrite Hc.
  - cbn. by rewrite removelast_last.
Qed.

Lemma forallb_removelast {A} (p : A → bool) (l : list A) :
  forallb p l = true → forallb p (removelast l) = true.
Proof.
  induction l as [|x l IH]; [done|]. cbn [forallb].
  intros [Hx Hl]%andb_prop. destruct l as [|y l]; [done|].
  cbn [removelast forallb] in *. rewrite Hx. by apply IH.
Qed.

(** X9: the text of the input line only ever holds printable characters,
    whatever events arrive, and Return submits it unchanged. *)
Theorem inputline_printable (isprintable_char : char → bool)
    (e : event) (text : str) :
  forallb isprintable_char text = true →
  forallb isprintable_char (InputLine.handle isprintable_char e text).1 = true ∧
  ((InputLine.handle isprintable_char e text).2 = true →
     (InputLine.handle isprintable_char e text).1 = text).
Proof.
  intros Htext. destruct e as [k ch| | |]; [|by split..].
  assert (forallb isprintable_char
            (if InputLine.isprintable isprintable_char ch
             then text ++ ch else text) = true) as Happ.
  { destruct (InputLine.isprintable _ ch) eqn:E; [|done].
    rewrite forallb_app. by rewrite Htext. }
  destruct k; cbn [InputLine.handle fst snd]; split; try done.
  by apply forallb_removelast.
Qed.

(** ** Flashcards *)

Section FlashcardsFacts.
Context `{Host}.

(** X10: in a started deck that is not empty, Right and Left keep the
    index of the card shown within the deck, leave the deck as it is, and
    undo each other. *)
Theorem flashcards_next_previous (f : Flashcards.t) (a : App) (g : rng)
    (u u' : str) :
  Flashcards.selecting f = false → Flashcards.kana_list f ≠ [] →
  let n := Z.of_nat (length (Flashcards.kana_list f)) in
  ∃ f1 f2,
    Flashcards.handle (KEYDOWN K_RIGHT u) f a g = Ok (f1, g, false) ∧
    Flashcards.handle (KEYDOWN K_LEFT u') f a g = Ok (f2, g, false) ∧
    0 ≤ Flashcards.index f1 < n ∧ 0 ≤ Flashcards.index f2 < n ∧
    Flashcards.kana_list f1 = Flashcards.kana_list f ∧
    Flashcards.kana_list f2 = Flashcards.kana_list f ∧
    (0 ≤ Flashcards.index f < n →
       (∃ f', Flashcards.handle (KEYDOWN K_LEFT u') f1 a g = Ok (f', g, false) ∧
              Flashcards.index f' = Flashcards.index f) ∧
       (∃ f', Flashcards.handle (KEYDOWN K_RIGHT u) f2 a g = Ok (f', g, false) ∧
              Flashcards.index f' = Flashcards.index f)).
Proof.
  intros Hsel Hne n. unfold Flashcards.handle. rewrite Hsel.
  destruct f as [s sg gr sb kl i sr]. cbn in *.
  destruct kl as [|k kl]; [done|].
  assert (0 < n) as Hn by (unfold n; cbn [length]; lia).
  fold n. eexists _, _. split; [done|]. split; [done|]. cbn.
  split; [by apply Z.mod_pos_bound|]. split; [by apply Z.mod_pos_bound|].
  split; [done|]. split; [done|].
  intros Hi. split; eexists; (split; [done|]); cbn; fold n.
  - rewrite Zminus_mod_idemp_l. replace (i + 1 - 1) with i by lia.
    by apply Z.mod_small.
  - rewrite Zplus_mod_idemp_l. replace (i - 1 + 1) with i by lia.
    by apply Z.mod_small.
Qed.

(** X11: a click during the selection of a deck starts it only when it is
    on START and a group is selected once the labels under the click were
    toggled; the deck is then a permutation of the candidates of the
    selected groups, shown from its first card, romaji hidden.  Otherwise
    the scene stays in selection with its deck and its index. *)
Theorem flashcards_start `{!HostOk} (f : Flashcards.t) (a : App) (g : rng)
    (pos : Z * Z) :
  Flashcards.selecting f = true →
  (length (Flashcards.group_rects f) ≤ length (Flashcards.selected_groups f))%nat →
  ∃ sel f' g',
    toggle_groups 0 (Flashcards.group_rects f) pos (Flashcards.selected_groups f)
    = Ok sel ∧
    Flashcards.handle (MOUSEBUTTONDOWN 1 pos) f a g = Ok (f', g', false) ∧
    Flashcards.selected_groups f' = sel ∧
    if hit (Flashcards.start_btn_rect f) pos && any sel
    then Flashcards.selecting f' = false ∧
         Flashcards.kana_list f' ≡ₚ filtered sel kana_groups3 (table a) ∧
         Flashcards.index f' = 0 ∧ Flashcards.show_romaji f' = false
    else Flashcards.selecting f' = true ∧
         Flashcards.kana_list f' = Flashcards.kana_list f ∧
         Flashcards.index f' = Flashcards.index f ∧ g' = g.
Proof.
  intros Hsel Hlen.
  destruct (toggle_groups_lookup 0 _ pos _ Hlen) as (sel & Htoggle & _).
  unfold Flashcards.handle. rewrite Hsel, Htoggle.
  cbn [mbind result_bind Flashcards.start_btn_rect Flashcards.selected_groups].
  destruct (hit (Flashcards.start_btn_rect f) pos && any sel) eqn:E.
  - unfold Flashcards._filtered_kana. cbn [Flashcards.selected_groups].
    pose proof (random_shuffle_perm (filtered sel kana_groups3 (table a)) g)
      as Hperm.
    destruct (random_shuffle _ g) as [l g']. cbn in Hperm.
    eexists _, _, _. split; [done|]. split; [done|]. cbn. by rewrite E.
  - eexists _, _, _. split; [done|]. split; [done|]. cbn. by rewrite E.
Qed.

End FlashcardsFacts.

(** ** The scenes of the quiz and of typing *)

Lemma quiz_button_rect_eq (i : Z) :
  quiz_button_rect i = Rect 320 (390 + i * 74) 260 56.
Proof. reflexivity. Qed.

Lemma quiz_buttons_disjoint (i j : nat) (pos : Z * Z) :
  collidepoint (quiz_button_rect (Z.of_nat i)) pos = true →
  collidepoint (quiz_button_rect (Z.of_nat j)) pos = true →
  i = j.
Proof.
  rewrite !quiz_button_rect_eq. unfold collidepoint. cbn [rx ry rw rh].
  intros Hi Hj.
  repeat match goal with
         | H : _ && _ = true |- _ => apply andb_prop in H as [? ?]
         end.
  repeat match goal with
         | H : (_ <=? _) = true |- _ => apply Z.leb_le in H
         | H : (_ <? _) = true |- _ => apply Z.ltb_lt in H
         end.
  nia.
Qed.

Section QuizSceneFacts.
Context `{Host}.

Lemma quiz_button_miss (e : event) (i : nat) (st : quiz_scene * App * world)
    (pos : Z * Z) :
  e = MOUSEBUTTONDOWN 1 pos →
  collidepoint (quiz_button_rect (Z.of_nat i)) pos = false →
  quiz_button_handle e i st = Ok st.
Proof.
  intros -> Hmiss. unfold quiz_button_handle. destruct st as [[s a] w].
  by rewrite Hmiss.
Qed.

(** X12: in a started quiz a click on an answer button answers once, with
    that button's index, however the question and the buttons change under
    the answer; a click on no button changes nothing.  The four buttons do
    not overlap. *)
Theorem quiz_click_answers_once (pos : Z * Z) (s : quiz_scene) (a : App)
    (w : world) :
  q_selecting s = false →
  (∀ i, (i < 4)%nat →
     collidepoint (quiz_button_rect (Z.of_nat i)) pos = true →
     Quiz_handle (MOUSEBUTTONDOWN 1 pos) s a w
     = '(q, a, w) ← Quiz.choose (Z.of_nat i) (q_state s) a w;
       Ok (QuizScene q false (q_group_rects s) (q_start_btn_rect s) (q_hover s),
           a, w, false)) ∧
  ((∀ i, (i < 4)%nat →
      collidepoint (quiz_button_rect (Z.of_nat i)) pos = false) →
   Quiz_handle (MOUSEBUTTONDOWN 1 pos) s a w = Ok (s, a, w, false)).
Proof.
  intros Hsel. destruct s as [q0 sl gr sb hv].
  cbn [q_selecting] in Hsel. subst sl.
  cbn [q_state q_group_rects q_start_btn_rect q_hover]. split.
  - intros i Hi Hhit.
    assert (∀ j, j ≠ i →
              collidepoint (quiz_button_rect (Z.of_nat j)) pos = false) as Hmiss.
    { intros j Hne.
      destruct (collidepoint (quiz_button_rect (Z.of_nat j)) pos) eqn:E; [|done].
      destruct Hne. exact (quiz_buttons_disjoint j i pos E Hhit). }
    unfold Quiz_handle. cbn [q_selecting foldl].
    assert (∀ st j, j ≠ i →
              (st ≫= λ x, quiz_button_handle (MOUSEBUTTONDOWN 1 pos) j x) = st)
      as Hskip.
    { intros [st|e] j Hj; [|done]. cbn [mbind result_bind].
      by apply quiz_button_miss with pos, Hmiss. }
    assert ((Ok (QuizScene q0 false gr sb hv, a, w)
             ≫= λ x, quiz_button_handle (MOUSEBUTTONDOWN 1 pos) i x)
            = '(q, a, w) ← Quiz.choose (Z.of_nat i) q0 a w;
              Ok (QuizScene q false gr sb hv, a, w)) as Hfire.
    { cbn [mbind result_bind]. unfold quiz_button_handle. by rewrite Hhit. }
    destruct i as [|[|[|[|i]]]]; [..|lia].
    + rewrite Hfire, (Hskip _ 1%nat), (Hskip _ 2%nat), (Hskip _ 3%nat) by lia.
      by destruct (Quiz.choose _ _ _ _) as [[[q' a'] w']|].
    + rewrite (Hskip _ 0%nat), Hfire, (Hskip _ 2%nat), (Hskip _ 3%nat) by lia.
      by destruct (Quiz.choose _ _ _ _) as [[[q' a'] w']|].
    + rewrite (Hskip _ 0%nat), (Hskip _ 1%nat), Hfire, (Hskip _ 3%nat) by lia.
      by destruct (Quiz.choose _ _ _ _) as [[[q' a'] w']|].
    + rewrite (Hskip _ 0%nat), (Hskip _ 1%nat), (Hskip _ 2%nat), Hfire by lia.
      by destruct (Quiz.choose _ _ _ _) as [[[q' a'] w']|].
  - intros Hmiss. unfold Quiz_handle. cbn [q_selecting foldl].
    assert (∀ st j, (j < 4)%nat →
              (st ≫= λ x, quiz_button_handle (MOUSEBUTTONDOWN 1 pos) j x) = st)
      as Hskip.
    { intros [st|e] j Hj; [|done]. cbn [mbind result_bind].
      by apply quiz_button_miss with pos, Hmiss. }
    by rewrite (Hskip _ 0%nat), (Hskip _ 1%nat), (Hskip _ 2%nat),
      (Hskip _ 3%nat) by lia.
Qed.

End QuizSceneFacts.

Section Starts.
Context `{Host} `{!HostOk}.

Lemma consistent_table (a : App) :
  consistent a → table a = HIRAGANA ∨ table a = KATAKANA.
Proof. intros [[_ ->] | [_ ->]]; [by left|by right]. Qed.

Lemma filtered_table_nonempty (sel : list bool) (a : App) :
  consistent a → length sel = 3%nat → any sel = true →
  filtered sel kana_groups3 (table a) ≠ [].
Proof.
  intros Hc Hlen Hany.
  destruct (filtered_groups_nonempty sel Hlen Hany) as [Hh Hk].
  by destruct (consistent_table a Hc) as [-> | ->].
Qed.

(** [weighted_pick] returns one of its candidates when there is one. *)
Lemma weighted_pick_candidate (q : Quiz.t) (a : App) (g : rng)
    (prog : gmap str json) :
  masteries a (script_name a) = Some prog → int_valued prog →
  Quiz._filtered_kana q a ≠ [] →
  ∃ k, Quiz.weighted_pick q a g = Ok (k, (random_random g).2) ∧
       k ∈ Quiz._filtered_kana q a.
Proof.
  intros Hprog%masteries_Some Hint Hne.
  destruct (last_elem _ Hne) as (kl & Hlast & Hkl).
  rewrite (weighted_pick_weighed q a g _ _ kl Hprog Hne (mapM_weigh_ok _ _ Hint)).
  2:{ by rewrite <- fmap_last, weighed_keys, Hlast. }
  eexists. split; [done|].
  destruct (first_reaching _ _ _) as [k|] eqn:Ek; [|done].
  apply first_reaching_elem in Ek. by rewrite weighed_keys in Ek.
Qed.

Lemma pick_question_kana (q q' : Quiz.t) (a : App) (g g' : rng) :
  Quiz.pick_question q a g = Ok (q', g') →
  (∃ g1, Quiz.weighted_pick q a g = Ok (Quiz.kana q', g1)) ∧
  Quiz.selected_groups q' = Quiz.selected_groups q ∧
  Quiz.kana_groups q' = Quiz.kana_groups q.
Proof.
  unfold Quiz.pick_question.
  destruct (Quiz.weighted_pick q a g) as [[k g1]|]; [|done].
  cbn [mbind result_bind].
  destruct (table_get k (table a)) as [romaji|]; [|done].
  cbn [mbind result_bind].
  destruct (random_shuffle _ g1) as [wrongs g2].
  destruct (random_shuffle _ g2) as [opts g3].
  destruct (index romaji opts) as [i|]; [|done]. cbn [mbind result_bind].
  destruct (mapM _ _) as [ls|]; [|done]. cbn [mbind result_bind mret result_ret].
  intros [= <- <-]. split; [by eexists|done].
Qed.

(** A question asked with groups selected is about a kana of those
    groups. *)
Lemma pick_question_selected (q : Quiz.t) (a : App) (g : rng) :
  app_ok a → consistent a → length (Quiz.labels q) = 4%nat →
  Quiz.kana_groups q = kana_groups3 →
  length (Quiz.selected_groups q) = 3%nat →
  any (Quiz.selected_groups q) = true →
  ∃ q' g', Quiz.pick_question q a g = Ok (q', g') ∧ quiz_ok q' a ∧
    Quiz.kana q' ∈ filtered (Quiz.selected_groups q) kana_groups3 (table a) ∧
    Quiz.selected_groups q' = Quiz.selected_groups q ∧
    Quiz.score q' = Quiz.score q ∧ Quiz.streak q' = Quiz.streak q.
Proof.
  intros Hok Hc Hlabels Hgroups Hlen Hany.
  destruct (pick_question_ok q a g Hok Hlabels)
    as (q' & g' & Hq' & Hqok & Hscore & Hstreak & _).
  exists q', g'. split; [done|]. split; [done|].
  destruct (pick_question_kana _ _ _ _ _ Hq') as ([g1 Hpick] & Hsel & _).
  pose proof Hok as (_ & (prog & Hprog & Hint%masteries_ok_int_valued) & _).
  destruct (weighted_pick_candidate q a g prog Hprog Hint) as (k & Hk & Hin).
  { unfold Quiz._filtered_kana. rewrite Hgroups.
    by apply filtered_table_nonempty. }
  rewrite Hk in Hpick. injection Hpick as <- _.
  unfold Quiz._filtered_kana in Hin. rewrite Hgroups in Hin. done.
Qed.

(** X13: on masteries in 1..10, a quiz opens, in either script, on a
    question about a kana of the table that passes a group filter, a
    single character, with the score and the streak at zero and every
    group selected. *)
Theorem Quiz_init_asks_a_kana (a : App) (g : rng) :
  app_ok a → consistent a →
  ∃ s g', Quiz_init a g = Ok (s, g') ∧ q_selecting s = true ∧
    quiz_ok (q_state s) a ∧
    Quiz.score (q_state s) = 0 ∧ Quiz.streak (q_state s) = 0 ∧
    Quiz.selected_groups (q_state s) = [true; true; true] ∧
    Quiz.kana (q_state s) ∈ filtered [true; true; true] kana_groups3 (table a) ∧
    length (Quiz.kana (q_state s)) = 1%nat.
Proof.
  intros Hok Hc. unfold Quiz_init.
  edestruct (pick_question_selected
               (Quiz.Mk 0 0 0 [] 0 [] 0 [] kana_groups3 [true; true; true]
                        [[]; []; []; []]) a g Hok Hc)
    as (q' & g' & Hq' & Hqok & Hin & Hsel & Hscore & Hstreak); [done..|].
  rewrite Hq'. cbn [mbind result_bind].
  eexists _, _. split; [done|]. cbn [q_selecting q_state].
  split; [done|]. split; [done|]. split; [done|]. split; [done|].
  split; [done|]. split; [done|].
  apply filtered_filter in Hin as (_ & f & Hf & Hfk).
  by eapply group_filter_length.
Qed.

(** X14: on masteries in 1..10, a click during the selection of a quiz
    never raises and starts it only when it is
    on START and a group is selected once the labels under the click were
    toggled; the question then asked is about a kana of the selected
    groups.  Otherwise the quiz stays in selection, and in both cases the
    application is left alone. *)
Theorem quiz_start (pos : Z * Z) (s : quiz_scene) (a : App) (w : world) :
  app_ok a → consistent a → q_selecting s = true →
  Quiz.kana_groups (q_state s) = kana_groups3 →
  length (Quiz.labels (q_state s)) = 4%nat →
  length (Quiz.selected_groups (q_state s)) = 3%nat →
  (length (q_group_rects s) ≤ 3)%nat →
  ∃ sel s' w',
    toggle_groups 0 (q_group_rects s) pos (Quiz.selected_groups (q_state s))
    = Ok sel ∧
    Quiz_handle (MOUSEBUTTONDOWN 1 pos) s a w = Ok (s', a, w', false) ∧
    Quiz.selected_groups (q_state s') = sel ∧ w_disk w' = w_disk w ∧
    if hit (q_start_btn_rect s) pos && any sel
    then q_selecting s' = false ∧ quiz_ok (q_state s') a ∧
         Quiz.kana (q_state s') ∈ filtered sel kana_groups3 (table a)
    else q_selecting s' = true ∧ w_rng w' = w_rng w ∧
         Quiz.kana (q_state s') = Quiz.kana (q_state s).
Proof.
  intros Hok Hc Hsel Hgroups Hlabels Hlen Hrects.
  destruct (toggle_groups_lookup 0 (q_group_rects s) pos
              (Quiz.selected_groups (q_state s))) as (sel & Htoggle & Hlen' & _);
    [lia|].
  unfold Quiz_handle. rewrite Hsel, Htoggle. cbn [mbind result_bind].
  destruct (hit (q_start_btn_rect s) pos && any sel) eqn:E.
  - apply andb_prop in E as [Hhit Hany].
    edestruct (pick_question_selected (quiz_set_selected sel (q_state s))
                 a (w_rng w) Hok Hc)
      as (q' & g' & Hq' & Hqok & Hin & Hsel' & _); [done|done|by cbn; lia|done|].
    rewrite Hq'. cbn [mbind result_bind].
    eexists _, _, _. split; [done|]. split; [done|]. cbn.
    rewrite Hhit, Hany. cbn. by rewrite Hsel'.
  - eexists _, _, _. split; [done|]. split; [done|]. cbn. by rewrite E.
Qed.

End Starts.

Section TypingFacts.
Context `{Host} `{!HostOk}.
Variable isprintable_char : char → bool.
Variable WORDS : gmap str (list str).

Lemma any_take_3 (sel : list bool) :
  length sel = 4%nat → sel !! 3%nat = Some false → any sel = true →
  length (take 3 sel) = 3%nat ∧ any (take 3 sel) = true.
Proof.
  destruct sel as [|b1 [|b2 [|b3 [|b4 [|? ?]]]]]; try done.
  intros _ [= ->]. by destruct b1, b2, b3.
Qed.

(** Lines 681-688: [START] on single kana. *)
Lemma TypeMode_start_kana (sel : list bool) (s : TypeMode.t) (a : App) (g : rng) :
  app_ok a → consistent a → TypeMode.kana_groups s = kana_groups4 →
  length sel = 4%nat → sel !! 3%nat = Some false → any sel = true →
  ∃ s' k, TypeMode_start WORDS sel s a g = Ok (s', (random_random g).2) ∧
    typing_ok s' a ∧ TypeMode.kana s' = Some k ∧
    k ∈ filtered (take 3 sel) kana_groups3 (table a) ∧
    TypeMode.kana_list s' = filtered (take 3 sel) kana_groups3 (table a) ∧
    TypeMode.selected_groups s' = sel ∧
    TypeMode.score s' = 0 ∧ TypeMode.streak s' = 0 ∧
    TypeMode.input_text s' = [] ∧ TypeMode.feedback_timer s' = 0.
Proof.
  intros Hok Hc Hgroups Hlen H3 Hany.
  destruct (any_take_3 sel Hlen H3 Hany) as [Hlen3 Hany3].
  pose proof Hok as (_ & (prog & Hprog & Hint%masteries_ok_int_valued) & _).
  unfold TypeMode_start. rewrite H3. cbn [mbind result_bind].
  cbn [TypeMode.score TypeMode.streak TypeMode.feedback TypeMode.feedback_timer
       TypeMode.feedback_color TypeMode.input_text TypeMode.kana_groups
       TypeMode.selected_groups TypeMode.kana_list TypeMode.kana
       TypeMode.word_mode TypeMode.word_list TypeMode.word TypeMode.word_romaji].
  unfold TypeMode._filtered_kana.
  cbn [TypeMode.selected_groups TypeMode.kana_groups]. rewrite Hgroups.
  change (take 3 kana_groups4) with kana_groups3.
  match goal with
  | |- context [TypeMode._pick ?s0 a g] =>
      destruct (_pick_ok s0 a g prog Hprog Hint) as (k & Hk & Hin);
        [by apply filtered_table_nonempty|rewrite Hk]
  end.
  cbn [TypeMode.kana_list] in Hin. cbn.
  eexists _, k. split; [done|]. cbn.
  repeat split; try done.
  - exists k. split; [done|]. by eapply filtered_elem.
  - by apply filtered_table_nonempty.
  - intros k'. apply filtered_elem.
Qed.

(** X15: on masteries in 1..10, a click on START with the WORD label off
    and a group of kana on opens the typing on single kana: a kana of the selected groups is
    shown, the candidates are the kana of those groups, and score, streak
    and typed text start empty.  One draw of the generator is used and
    neither the application nor the disk changes. *)
Theorem typing_start_kana (pos : Z * Z) (s : typing_scene) (a : App)
    (w : world) (sel : list bool) :
  app_ok a → consistent a → t_selecting s = true →
  TypeMode.kana_groups (t_state s) = kana_groups4 →
  hit (t_start_btn_rect s) pos = true →
  toggle_groups 0 (t_group_rects s) pos (TypeMode.selected_groups (t_state s))
  = Ok sel →
  length sel = 4%nat → sel !! 3%nat = Some false → any sel = true →
  ∃ s' k,
    TypeMode_handle isprintable_char WORDS (MOUSEBUTTONDOWN 1 pos) s a w
    = Ok (s', a, World (random_random (w_rng w)).2 (w_disk w), false) ∧
    t_selecting s' = false ∧ typing_ok (t_state s') a ∧
    TypeMode.kana (t_state s') = Some k ∧
    k ∈ filtered (take 3 sel) kana_groups3 (table a) ∧
    length k = 1%nat ∧
    TypeMode.kana_list (t_state s')
    = filtered (take 3 sel) kana_groups3 (table a) ∧
    TypeMode.score (t_state s') = 0 ∧ TypeMode.streak (t_state s') = 0 ∧
    TypeMode.input_text (t_state s') = [].
Proof.
  intros Hok Hc Hsel Hgroups Hhit Htoggle Hlen H3 Hany.
  destruct (TypeMode_start_kana sel (t_state s) a (w_rng w) Hok Hc Hgroups
              Hlen H3 Hany)
    as (s' & k & Hs' & Htok & Hk & Hin & Hlist & _ & Hscore & Hstreak & Htext & _).
  unfold TypeMode_handle. rewrite Hsel, Htoggle. cbn [mbind result_bind].
  rewrite Hhit, Hany. cbn [andb]. rewrite Hs'. cbn [mbind result_bind].
  eexists _, k. split; [done|]. cbn [t_selecting t_state].
  repeat (split; [done|]). split; [|done].
  pose proof Hin as (_ & f & Hf & Hfk)%filtered_filter.
  by eapply group_filter_length.
Qed.

(** X16: with the WORD label on and no word for the script, START opens
    the typing on words without a word, and from then on every Return is
    answered with the message that there are no words, for 45 updates:
    the score, the streak, the application and the world stay as they
    are and nothing is raised. *)
Theorem word_mode_without_words (sel : list bool) (s0 : TypeMode.t) (a : App)
    (g : rng) :
  sel !! 3%nat = Some true → default [] (WORDS !! script_name a) = [] →
  ∃ s, TypeMode_start WORDS sel s0 a g = Ok (s, g) ∧
    TypeMode.word_mode s = true ∧ TypeMode.word s = None ∧
    TypeMode.word_list s = [] ∧
    TypeMode.score s = 0 ∧ TypeMode.streak s = 0 ∧
    ∀ text fb timer colour a' w,
      TypeMode.handle_return
        (TypeMode.set_feedback fb colour timer (TypeMode.set_input_text text s))
        a' w
      = Ok (TypeMode.set_feedback k_no_words WHITE_255 45 s, a', w).
Proof.
  intros H3 Hwords. unfold TypeMode_start. rewrite H3. cbn [mbind result_bind].
  cbn [TypeMode.score TypeMode.streak TypeMode.feedback TypeMode.feedback_timer
       TypeMode.feedback_color TypeMode.input_text TypeMode.kana_groups
       TypeMode.selected_groups TypeMode.kana_list TypeMode.kana
       TypeMode.word_mode TypeMode.word_list TypeMode.word TypeMode.word_romaji].
  rewrite Hwords. cbn [mbind result_bind].
  eexists. split; [done|]. cbn. repeat (split; [done|]).
  by intros text fb timer colour a' [g' d].
Qed.

Lemma inputline_no_submit (e : event) (text : str) :
  (∀ u, e ≠ KEYDOWN K_RETURN u) →
  (InputLine.handle isprintable_char e text).2 = false.
Proof.
  intros Hne. destruct e as [k u| | |]; try done.
  destruct k; try done. by destruct (Hne u).
Qed.

(** X17: once the typing has started, only Return answers: any other
    event leaves the application, the world, the score, the streak and
    what is asked as they are, and changes at most the typed text; Return
    hands the text, unchanged, to the answer. *)
Theorem typing_only_return_answers (e : event) (s : typing_scene) (a : App)
    (w : world) :
  t_selecting s = false →
  ((∀ u, e ≠ KEYDOWN K_RETURN u) →
   TypeMode_handle isprintable_char WORDS e s a w
   = Ok (TypingScene
           (TypeMode.set_input_text
              (InputLine.handle isprintable_char e
                 (TypeMode.input_text (t_state s))).1 (t_state s))
           false (t_group_rects s) (t_start_btn_rect s),
         a, w, is_escape e)) ∧
  (∀ u, e = KEYDOWN K_RETURN u →
   TypeMode_handle isprintable_char WORDS e s a w
   = '(st, a, w) ← TypeMode.handle_return (t_state s) a w;
     Ok (TypingScene st false (t_group_rects s) (t_start_btn_rect s),
         a, w, false)).
Proof.
  intros Hsel. split.
  - intros Hne. unfold TypeMode_handle. rewrite Hsel.
    pose proof (inputline_no_submit e (TypeMode.input_text (t_state s)) Hne)
      as Hno.
    destruct (InputLine.handle _ _ _) as [text submit]. cbn in Hno.
    by subst submit.
  - intros u ->. unfold TypeMode_handle. rewrite Hsel. cbn.
    by destruct (t_state s).
Qed.

End TypingFacts.

(** ** A session and the save file *)

Section Restart.
Context `{Host}.

Lemma update_best_progress_ok (score : Z) (a a1 : App) :
  progress_ok (progress a) → Scene.update_best score a = Ok a1 →
  progress_ok (progress a1).
Proof.
  destruct keys_distinct as (Hhk & Hhb & Hkb).
  intros Hok. unfold Scene.update_best, getitem.
  destruct (progress a !! k_best_score) as [v|] eqn:Ev; [|done].
  destruct v as [| | | | | |best]; try done. cbn [mbind result_bind subscriptable].
  destruct (best !! script_name a) as [old|] eqn:Eold; [|done].
  cbn [mbind result_bind].
  destruct (int_gt score old) as [[|]|]; cbn [mbind result_bind]; [| |done].
  - intros [= <-]. destruct Hok as [Hs (best' & Hb & Hbh & Hbk)].
    assert (best' = best) as -> by congruence. split.
    + intros script Hscript. destruct (Hs script Hscript) as (m & Hm & Hmok).
      exists m. split; [|done]. simpl.
      rewrite lookup_insert_ne; [done|]. by destruct Hscript as [-> | ->].
    + eexists. simpl. rewrite lookup_insert_eq. split; [done|].
      split; apply lookup_insert_is_Some'; by right.
  - by intros [= <-].
Qed.

Lemma _bump_mastery_progress_ok (kana : str) (delta : Z) (a a' : App) :
  progress_ok (progress a) →
  script_name a = k_hiragana ∨ script_name a = k_katakana →
  Scene._bump_mastery kana delta a = Ok a' → progress_ok (progress a').
Proof.
  destruct keys_distinct as (Hhk & Hhb & Hkb).
  intros [Hs (best & Hb & Hbh & Hbk)] Hscript.
  unfold Scene._bump_mastery, getitem.
  destruct (progress a !! script_name a) as [v|] eqn:Ev; [|done].
  destruct v as [| | | | | |prog]; try done. cbn [mbind result_bind as_dict].
  destruct (py_int _) as [cur|]; [|done]. cbn [mbind result_bind].
  intros [= <-]. split.
  - intros script Hscript'. simpl.
    destruct (decide (script = script_name a)) as [->|Hne].
    + rewrite lookup_insert_eq. eexists. split; [done|].
      destruct (Hs _ Hscript) as (m & Hm & Hmok).
      assert (m = prog) as -> by congruence.
      intros k v. destruct (decide (k = kana)) as [->|Hk].
      * rewrite lookup_insert_eq. intros [= <-]. eexists. split; [done|].
        apply clamp_range.
      * rewrite lookup_insert_ne by done. apply Hmok.
    + rewrite lookup_insert_ne by done. by apply Hs.
  - exists best. simpl. rewrite lookup_insert_ne; [done|].
    by destruct Hscript as [-> | ->].
Qed.

Lemma scoring_progress_ok (correct : bool) (score : Z) (kana : str) (a a' : App)
    {A} (x : A) (y : A) :
  progress_ok (progress a) →
  script_name a = k_hiragana ∨ script_name a = k_katakana →
  (if correct
   then a1 ← Scene.update_best score a;
        a2 ← Scene._bump_mastery kana 1 a1; mret (x, a2)
   else a2 ← Scene._bump_mastery kana (-1) a; mret (x, a2)) = Ok (y, a') →
  progress_ok (progress a').
Proof.
  intros Hok Hscript. destruct correct.
  - destruct (Scene.update_best score a) as [a1|] eqn:E1; [|done].
    cbn [mbind result_bind].
    destruct (Scene._bump_mastery kana 1 a1) as [a2|] eqn:E2; [|done].
    cbn [mbind result_bind]. intros [= <- <-].
    pose proof (update_best_mono _ _ _ E1) as [Hs1 _].
    apply update_best_progress_ok in E1; [|done].
    eapply _bump_mastery_progress_ok; [done| |done]. by rewrite Hs1.
  - destruct (Scene._bump_mastery kana (-1) a) as [a2|] eqn:E2; [|done].
    cbn [mbind result_bind]. intros [= <- <-].
    by eapply _bump_mastery_progress_ok.
Qed.

(** What [choose] leaves: a progress of the same shape, written to the
    disk. *)
Lemma choose_saved (idx : Z) (q q' : Quiz.t) (a a' : App) (w w' : world) :
  progress_ok (progress a) →
  script_name a = k_hiragana ∨ script_name a = k_katakana →
  Quiz.choose idx q a w = Ok (q', a', w') →
  progress_ok (progress a') ∧
  w_disk w' = save_progress (progress a') (w_disk w).
Proof.
  intros Hok Hscript. unfold Quiz.choose.
  destruct (bool_decide (idx = Quiz.correct_idx q)).
  - destruct (Scene.update_best _ _ ≫= _) as [[q1 a1]|] eqn:E; [|done].
    cbn [mbind result_bind].
    destruct (Quiz.pick_question _ _ _) as [[q2 g]|]; [|done].
    cbn [mbind result_bind]. intros [= <- <- <-]. split; [|done].
    by apply (scoring_progress_ok true _ _ _ _ _ _ Hok Hscript E).
  - destruct (table_get _ _) as [romaji|]; [|done]. cbn [mbind result_bind].
    destruct (Scene._bump_mastery _ _ _ ≫= _) as [[q1 a1]|] eqn:E; [|done].
    cbn [mbind result_bind].
    destruct (Quiz.pick_question _ _ _) as [[q2 g]|]; [|done].
    cbn [mbind result_bind]. intros [= <- <- <-]. split; [|done].
    by apply (scoring_progress_ok false 0 _ _ _ _ _ Hok Hscript E).
Qed.

Lemma handle_return_saved (s s' : TypeMode.t) (a a' : App) (w w' : world) :
  progress_ok (progress a) →
  script_name a = k_hiragana ∨ script_name a = k_katakana →
  TypeMode.handle_return s a w = Ok (s', a', w') →
  progress_ok (progress a') ∧
  (w_disk w' = save_progress (progress a') (w_disk w) ∨
   a' = a ∧ w_disk w' = w_disk w).
Proof.
  intros Hok Hscript Hret. destruct (TypeMode.word_mode s) eqn:Hmode.
  - apply handle_return_word_inv in Hret as [-> ->]; [|done]. by auto.
  - revert Hret. unfold TypeMode.handle_return, TypeMode.submit_kana.
    rewrite Hmode.
    destruct (TypeMode.kana s) as [k|]; [|done]. cbn [mbind result_bind].
    destruct (table_get k (table a)) as [romaji|]; [|done].
    cbn [mbind result_bind].
    destruct (bool_decide _).
    + destruct (Scene.update_best _ _ ≫= _) as [[s1 a1]|] eqn:E; [|done].
      cbn [mbind result_bind].
      destruct (TypeMode._pick _ _ _) as [[k' g]|]; [|done].
      cbn [mbind result_bind]. intros [= <- <- <-]. split; [|by left].
      by apply (scoring_progress_ok true _ _ _ _ _ _ Hok Hscript E).
    + destruct (Scene._bump_mastery _ _ _ ≫= _) as [[s1 a1]|] eqn:E; [|done].
      cbn [mbind result_bind].
      destruct (TypeMode._pick _ _ _) as [[k' g]|]; [|done].
      cbn [mbind result_bind]. intros [= <- <- <-]. split; [|by left].
      by apply (scoring_progress_ok false 0 _ _ _ _ _ Hok Hscript E).
Qed.

(** The progress the program holds is read back as it was written. *)
Lemma load_saved (p : gmap str json) (d : disk) :
  (∀ v, json_loads (json_dumps v) = Some v) →
  can_write d = true → can_read d = true → progress_ok p →
  load_progress (save_progress p d) = p ∧
  can_write (save_progress p d) = true ∧ can_read (save_progress p d) = true.
Proof.
  destruct keys_distinct as (Hhk & Hhb & Hkb).
  intros Hcodec Hw Hr [Hs (best & Hb & Hbh & Hbk)].
  destruct (Hs k_hiragana) as (mh & Hh & Hmh); [by left|].
  destruct (Hs k_katakana) as (mk & Hk & Hmk); [by right|].
  unfold load_progress, save_progress. rewrite Hw. simpl. rewrite Hr.
  split; [|done].
  assert (load_body (json_dumps (JDict p)) = Some p) as ->; [|done].
  apply load_body_Some. exists p, mh, mk, mh, mk, best.
  rewrite Hcodec, Hh, Hk, Hb. simpl.
  repeat split; try by apply load_masteries_id.
  rewrite (setdefault_id k_hiragana _ p) by (by rewrite Hh).
  rewrite (setdefault_id k_katakana _ p) by (by rewrite Hk).
  rewrite (insert_id p k_hiragana) by done.
  rewrite (insert_id p k_katakana) by done.
  rewrite (setdefault_id k_best_score _ p) by (by rewrite Hb).
  rewrite (setdefault_id k_hiragana _ best) by done.
  rewrite (setdefault_id k_katakana _ best) by done.
  by rewrite insert_id.
Qed.

(** The state of a session whose save file is up to date. *)
Lemma saved_step (x y : App * world) :
  (∀ v, json_loads (json_dumps v) = Some v) →
  answer_step x y →
  progress_ok (progress x.1) ∧
  (script_name x.1 = k_hiragana ∨ script_name x.1 = k_katakana) ∧
  can_write (w_disk x.2) = true ∧ can_read (w_disk x.2) = true ∧
  load_progress (w_disk x.2) = progress x.1 →
  progress_ok (progress y.1) ∧
  (script_name y.1 = k_hiragana ∨ script_name y.1 = k_katakana) ∧
  can_write (w_disk y.2) = true ∧ can_read (w_disk y.2) = true ∧
  load_progress (w_disk y.2) = progress y.1.
Proof.
  intros Hcodec
    [idx q q' a a' w w' Hstep | s s' a a' w w' Hstep | a w]
    (Hok & Hscript & Hw & Hr & Hload); simpl in *.
  - assert (script_name a ≠ k_best_score) as Hne.
    { destruct keys_distinct as (_ & ? & ?). by destruct Hscript as [-> | ->]. }
    destruct (choose_mono _ _ _ _ _ _ _ Hne Hstep) as [Hs _].
    destruct (choose_saved _ _ _ _ _ _ _ Hok Hscript Hstep) as [Hok' ->].
    destruct (load_saved (progress a') (w_disk w) Hcodec Hw Hr Hok')
      as (? & ? & ?).
    by rewrite Hs.
  - assert (script_name a ≠ k_best_score) as Hne.
    { destruct keys_distinct as (_ & ? & ?). by destruct Hscript as [-> | ->]. }
    destruct (handle_return_mono _ _ _ _ _ _ Hne Hstep) as [Hs _].
    destruct (handle_return_saved _ _ _ _ _ _ Hok Hscript Hstep)
      as [Hok' [-> | [-> ->]]]; [|done].
    destruct (load_saved (progress a') (w_disk w) Hcodec Hw Hr Hok')
      as (? & ? & ?).
    by rewrite Hs.
  - destruct (toggle_script_name a) as [_ Hp]. rewrite Hp.
    repeat (split; [done|]). split; [|done].
    unfold toggle_script. destruct (decide _); [by right|by left].
Qed.

Lemma saved_steps (x y : App * world) :
  (∀ v, json_loads (json_dumps v) = Some v) →
  rtc answer_step x y →
  progress_ok (progress x.1) ∧
  (script_name x.1 = k_hiragana ∨ script_name x.1 = k_katakana) ∧
  can_write (w_disk x.2) = true ∧ can_read (w_disk x.2) = true ∧
  load_progress (w_disk x.2) = progress x.1 →
  load_progress (w_disk y.2) = progress y.1.
Proof.
  intros Hcodec. induction 1 as [x|x y z Hxy Hyz IH].
  - by intros (_ & _ & _ & _ & Hload).
  - intros Hx. apply IH. by apply (saved_step x y).
Qed.

(** X18: whatever was answered in the quiz and in the typing, and however
    often the script was changed, since the program started on a save
    file it can write and read, the progress it holds is the progress a
    start of the program reads from the file: no answer is lost when the
    program is closed. *)
Theorem session_survives_restart (d : disk) (g : rng) (a' : App) (w' : world) :
  (∀ v, json_loads (json_dumps v) = Some v) →
  can_write d = true → can_read d = true →
  rtc answer_step (App_init d, World g d) (a', w') →
  progress (App_init (w_disk w')) = progress a'.
Proof.
  intros Hcodec Hw Hr Hsteps.
  apply (saved_steps _ _ Hcodec Hsteps). simpl.
  split; [apply load_progress_ok|]. by auto.
Qed.

(** X19: what [load_progress] returns, from whatever file, is a state
    that a save followed by a load gives back unchanged, when the text
    [json.dump] writes for it parses back to it. *)
Theorem load_save_load (d d' : disk) :
  json_loads (json_dumps (JDict (load_progress d)))
  = Some (JDict (load_progress d)) →
  can_write d' = true → can_read d' = true →
  load_progress (save_progress (load_progress d) d') = load_progress d.
Proof.
  intros Hcodec Hw Hr.
  apply load_saved_state; [done..|apply load_progress_ok].
Qed.

End Restart.

(** ** Runs of answers and of updates *)

Section Runs.
Context `{Host} `{!HostOk}.

Lemma mastery_insert (prog : gmap str json) (kana : str) (n : Z) :
  mastery (<[kana := JInt n]> prog) kana = n.
Proof. unfold mastery. by rewrite lookup_insert_eq. Qed.

Lemma clamp_run (m d : Z) (n : nat) :
  1 ≤ m ≤ 10 →
  clamp (clamp (m + Z.of_nat n * d) + d) = clamp (m + Z.of_nat (S n) * d).
Proof.
  intros Hm. unfold clamp.
  destruct (Z.le_gt_cases 0 d) as [Hd|Hd].
  - assert (0 ≤ Z.of_nat n * d) by nia. nia.
  - assert (Z.of_nat n * d ≤ 0) by nia. nia.
Qed.

(** X20: [n] moves of a mastery that lies in 1..10 by the same step leave
    it where one move by [n] steps would: it rises to 10, or falls to 1,
    and stays there, and no other kana is touched. *)
Theorem mastery_saturates (kana : str) (delta : Z) (n : nat) (a : App)
    (prog : gmap str json) :
  masteries a (script_name a) = Some prog → int_valued prog →
  1 ≤ mastery prog kana ≤ 10 →
  ∃ a' prog',
    Nat.iter n (λ r, r ≫= Scene._bump_mastery kana delta) (Ok a) = Ok a' ∧
    script_name a' = script_name a ∧
    masteries a' (script_name a) = Some prog' ∧
    mastery prog' kana = clamp (mastery prog kana + Z.of_nat n * delta) ∧
    ∀ k, k ≠ kana → prog' !! k = prog !! k.
Proof.
  intros Hprog Hint Hm.
  enough (∃ a' prog',
    Nat.iter n (λ r, r ≫= Scene._bump_mastery kana delta) (Ok a) = Ok a' ∧
    script_name a' = script_name a ∧
    masteries a' (script_name a) = Some prog' ∧ int_valued prog' ∧
    mastery prog' kana = clamp (mastery prog kana + Z.of_nat n * delta) ∧
    ∀ k, k ≠ kana → prog' !! k = prog !! k) as
    (a' & prog' & ? & ? & ? & _ & ? & ?) by (by exists a', prog').
  induction n as [|n (a' & prog' & Hiter & Hs & Hprog' & Hint' & Hmast & Hframe)].
  - exists a, prog. change (Nat.iter 0 ?f ?x) with x. repeat (split; [done|]).
    split; [|done]. rewrite clamp_id; [lia|]. lia.
  - rewrite Nat.iter_succ, Hiter. cbn [mbind result_bind].
    rewrite <- Hs in Hprog'.
    rewrite (_bump_mastery_ok kana delta a' prog' Hprog' Hint').
    eexists _, _. split; [done|]. cbn [script_name set_progress progress].
    split; [done|]. split.
    { apply masteries_Some. simpl. by rewrite Hs, lookup_insert_eq. }
    split; [by apply int_valued_insert|].
    split.
    + rewrite mastery_insert, Hmast. by apply clamp_run.
    + intros k Hk. rewrite lookup_insert_ne by done. by apply Hframe.
Qed.

(** X21: on masteries in 1..10, [n] right answers in a row in the quiz are
    all accepted; they add
    [n] to the streak, the score is the streak, and the best score of the
    script is then the larger of what it was and that streak. *)
Theorem streak_of_right_answers (n : nat) (q : Quiz.t) (a : App) (w : world)
    (b : Z) :
  app_ok a → quiz_ok q a → best_score a (script_name a) = Some b →
  (0 < n)%nat →
  ∃ q' a' w', answer_right n q a w = Ok (q', a', w') ∧
    Quiz.streak q' = Quiz.streak q + Z.of_nat n ∧ Quiz.score q' = Quiz.streak q' ∧
    Quiz.round q' = Quiz.round q + Z.of_nat n ∧
    best_score a' (script_name a) = Some (Z.max b (Quiz.streak q + Z.of_nat n)) ∧
    app_ok a' ∧ quiz_ok q' a'.
Proof.
  intros Hok Hq Hb Hn. destruct n as [|n]; [lia|clear Hn].
  revert q a w b Hok Hq Hb. induction n as [|n IH]; intros q a w b Hok Hq Hb.
  - destruct (choose_ok (Quiz.correct_idx q) q a w Hok Hq)
      as (q' & a' & w' & Hstep & Hpost & Hok' & Hq' & Hstreak & Hscore
          & Hround & _).
    rewrite bool_decide_eq_true_2 in Hpost, Hstreak, Hscore by done.
    destruct Hpost as (_ & _ & _ & _ & Hbest & _).
    exists q', a', w'. cbn [answer_right]. rewrite Hstep. cbn [mbind result_bind].
    split; [done|]. split; [lia|]. split; [lia|]. split; [lia|].
    split; [|done]. rewrite (Hbest b Hb). f_equal. cbn [andb].
    destruct (b <? Quiz.streak q + 1) eqn:E; lia.
  - destruct (choose_ok (Quiz.correct_idx q) q a w Hok Hq)
      as (q1 & a1 & w1 & Hstep & Hpost & Hok1 & Hq1 & Hstreak & Hscore
          & Hround & _).
    rewrite bool_decide_eq_true_2 in Hpost, Hstreak, Hscore by done.
    destruct Hpost as (Hs & _ & _ & _ & Hbest & _).
    specialize (Hbest b Hb). rewrite <- Hs in Hbest.
    destruct (IH q1 a1 w1 _ Hok1 Hq1 Hbest)
      as (q' & a' & w' & Hrun & Hstreak' & Hscore' & Hround' & Hbest' & Hok'
          & Hq').
    exists q', a', w'. change (answer_right (S (S n)) q a w)
      with ('(q, a, w) ← Quiz.choose (Quiz.correct_idx q) q a w;
            answer_right (S n) q a w).
    rewrite Hstep. cbn [mbind result_bind]. split; [done|].
    split; [lia|]. split; [done|]. split; [lia|]. split; [|done].
    rewrite <- Hs, Hbest'. f_equal. cbn [andb].
    destruct (b <? Quiz.streak q + 1) eqn:E; lia.
Qed.

Lemma pick_question_feedback (q q' : Quiz.t) (a : App) (g g' : rng) :
  Quiz.pick_question q a g = Ok (q', g') →
  Quiz.feedback_timer q' = Quiz.feedback_timer q ∧
  Quiz.feedback q' = Quiz.feedback q.
Proof.
  unfold Quiz.pick_question.
  destruct (Quiz.weighted_pick q a g) as [[k g1]|]; [|done].
  cbn [mbind result_bind].
  destruct (table_get k (table a)) as [romaji|]; [|done].
  cbn [mbind result_bind].
  destruct (random_shuffle _ g1) as [wrongs g2].
  destruct (random_shuffle _ g2) as [opts g3].
  destruct (index romaji opts) as [i|]; [|done]. cbn [mbind result_bind].
  destruct (mapM _ _) as [ls|]; [|done]. cbn [mbind result_bind mret result_ret].
  by intros [= <- <-].
Qed.

Lemma choose_timer (idx : Z) (q q' : Quiz.t) (a a' : App) (w w' : world) :
  Quiz.choose idx q a w = Ok (q', a', w') → Quiz.feedback_timer q' = 45.
Proof.
  unfold Quiz.choose.
  destruct (if bool_decide (idx = Quiz.correct_idx q) then _ else _)
    as [[q1 a1]|]; [|done].
  cbn [mbind result_bind].
  destruct (Quiz.pick_question _ _ _) as [[q2 g]|] eqn:E; [|done].
  cbn [mbind result_bind mret result_ret]. intros [= <- <- <-].
  by apply pick_question_feedback in E as [-> _].
Qed.

Lemma Quiz_update_run (n : nat) (s : quiz_scene) :
  q_selecting s = false → 0 ≤ Quiz.feedback_timer (q_state s) →
  let s' := Nat.iter n Quiz_update s in
  Quiz.feedback_timer (q_state s')
  = Z.max 0 (Quiz.feedback_timer (q_state s) - Z.of_nat n) ∧
  q_selecting s' = false ∧
  Quiz.feedback (q_state s') = Quiz.feedback (q_state s) ∧
  Quiz.kana (q_state s') = Quiz.kana (q_state s) ∧
  Quiz.labels (q_state s') = Quiz.labels (q_state s) ∧
  Quiz.correct_idx (q_state s') = Quiz.correct_idx (q_state s) ∧
  Quiz.score (q_state s') = Quiz.score (q_state s) ∧
  Quiz.streak (q_state s') = Quiz.streak (q_state s).
Proof.
  intros Hsel Ht. induction n as [|n (IH & Hsel' & ? & ? & ? & ? & ? & ?)].
  - change (Nat.iter 0 ?f ?x) with x. cbn zeta. split; [lia|done].
  - cbn zeta in *. rewrite Nat.iter_succ. unfold Quiz_update at 1 3 5 7 9 11 13 15.
    rewrite Hsel'. cbn [negb andb].
    destruct (0 <? _) eqn:E; cbn [q_state q_selecting Quiz.feedback_timer
      Quiz.feedback Quiz.kana Quiz.labels Quiz.correct_idx Quiz.score
      Quiz.streak]; (split; [lia|done]).
Qed.

(** X22: the verdict on an answer of the quiz is shown for 45 updates: the
    [n]-th update after the answer leaves [max(0, 45 - n)] on the timer,
    while the verdict, the question then asked and the score stay. *)
Theorem quiz_feedback_lasts (idx : Z) (q q' : Quiz.t) (a a' : App)
    (w w' : world) (s : quiz_scene) (n : nat) :
  Quiz.choose idx q a w = Ok (q', a', w') →
  q_state s = q' → q_selecting s = false →
  let s' := Nat.iter n Quiz_update s in
  Quiz.feedback_timer (q_state s') = Z.max 0 (45 - Z.of_nat n) ∧
  ((0 <? Quiz.feedback_timer (q_state s')) = true ↔ (n < 45)%nat) ∧
  Quiz.feedback (q_state s') = Quiz.feedback q' ∧
  Quiz.kana (q_state s') = Quiz.kana q' ∧
  Quiz.score (q_state s') = Quiz.score q'.
Proof.
  intros Hstep Hq Hsel. apply choose_timer in Hstep. subst q'.
  destruct (Quiz_update_run n s Hsel) as (Ht & _ & ? & ? & _ & _ & ? & _);
    [lia|].
  cbn zeta. rewrite Hstep in Ht. rewrite Ht.
  split; [done|]. split; [|done]. rewrite Z.ltb_lt. lia.
Qed.

Lemma handle_return_timer (s s' : TypeMode.t) (a a' : App) (w w' : world) :
  TypeMode.handle_return s a w = Ok (s', a', w') →
  TypeMode.feedback_timer s' = 45.
Proof.
  unfold TypeMode.handle_return. destruct (TypeMode.word_mode s).
  - unfold TypeMode.submit_word.
    destruct (match TypeMode.word_list _ with [] => _ | _ => _ end)
      as [[s1 g]|] eqn:E; [|done].
    cbn [mbind result_bind mret result_ret]. intros [= <- <- <-].
    cbn [TypeMode.feedback_timer TypeMode.set_input_text].
    revert E. destruct (TypeMode.word_list _).
    + by intros [= <- <-].
    + unfold TypeMode.pick_word.
      destruct (random_choice _ _) as [[wd g']|]; [|done].
      cbn [mbind result_bind mret result_ret]. by intros [= <- <-].
  - unfold TypeMode.submit_kana.
    destruct (TypeMode.kana s) as [k|]; [|done]. cbn [mbind result_bind].
    destruct (table_get k (table a)) as [romaji|]; [|done].
    cbn [mbind result_bind].
    destruct (if bool_decide _ then _ else _) as [[s1 a1]|]; [|done].
    cbn [mbind result_bind].
    destruct (TypeMode._pick _ _ _) as [[k' g]|]; [|done].
    cbn [mbind result_bind mret result_ret]. by intros [= <- <- <-].
Qed.

(** X23: the verdict on a typed answer is shown for 45 updates, also the
    message that there are no words, whose 60 is overwritten: the [n]-th
    update after Return leaves [max(0, 45 - n)] on the timer and changes
    nothing else. *)
Theorem typing_feedback_lasts (s s' : TypeMode.t) (a a' : App) (w w' : world)
    (n : nat) :
  TypeMode.handle_return s a w = Ok (s', a', w') →
  Nat.iter n TypeMode_update s'
  = TypeMode.set_feedback_timer (Z.max 0 (45 - Z.of_nat n)) s'.
Proof.
  intros Hstep%handle_return_timer. induction n as [|n IH].
  - change (Nat.iter 0 ?f ?x) with x. destruct s'. cbn in *. by subst.
  - rewrite Nat.iter_succ, IH. unfold TypeMode_update.
    cbn [TypeMode.feedback_timer TypeMode.set_feedback_timer
         TypeMode.set_feedback].
    destruct (0 <? Z.max 0 (45 - Z.of_nat n)) eqn:E.
    + apply Z.ltb_lt in E. unfold TypeMode.set_feedback_timer,
        TypeMode.set_feedback. cbn. f_equal. lia.
    + apply Z.ltb_ge in E. unfold TypeMode.set_feedback_timer,
        TypeMode.set_feedback. cbn. f_equal. lia.
Qed.

End Runs.

(** ** The verdict on an answer *)

Section Verdict.
Context `{Host} `{!HostOk}.

Lemma choose_feedback (idx : Z) (q q' : Quiz.t) (a a' : App) (w w' : world) :
  Quiz.choose idx q a w = Ok (q', a', w') →
  Quiz.feedback q'
  = if bool_decide (idx = Quiz.correct_idx q) then k_correct
    else default [] (assoc (Quiz.kana q) (table a)).
Proof.
  unfold Quiz.choose.
  destruct (bool_decide (idx = Quiz.correct_idx q)).
  - destruct (Scene.update_best _ _) as [a1|]; [|done].
    cbn [mbind result_bind].
    destruct (Scene._bump_mastery _ _ _) as [a2|]; [|done].
    cbn [mbind result_bind mret result_ret].
    destruct (Quiz.pick_question _ _ _) as [[q2 g]|] eqn:E; [|done].
    cbn [mbind result_bind mret result_ret]. intros [= <- <- <-].
    by apply pick_question_feedback in E as [_ ->].
  - unfold table_get.
    destruct (assoc _ _) as [romaji|]; [|done]. cbn [mbind result_bind].
    destruct (Scene._bump_mastery _ _ _) as [a2|]; [|done].
    cbn [mbind result_bind mret result_ret].
    destruct (Quiz.pick_question _ _ _) as [[q2 g]|] eqn:E; [|done].
    cbn [mbind result_bind mret result_ret]. intros [= <- <- <-].
    by apply pick_question_feedback in E as [_ ->].
Qed.

(** X24: on masteries in 1..10, the verdict of the quiz on a click is the
    word Correct for the
    button of the right answer, and for any other button the romaji of
    the kana that was asked, not of the one asked next. *)
Theorem quiz_verdict (idx : Z) (q : Quiz.t) (a : App) (w : world)
    (romaji : str) :
  app_ok a → quiz_ok q a → assoc (Quiz.kana q) (table a) = Some romaji →
  ∃ q' a' w', Quiz.choose idx q a w = Ok (q', a', w') ∧
    Quiz.feedback q'
    = (if bool_decide (idx = Quiz.correct_idx q) then k_correct else romaji) ∧
    Quiz.feedback_timer q' = 45.
Proof.
  intros Hok Hq Hromaji.
  destruct (choose_ok idx q a w Hok Hq) as (q' & a' & w' & Hstep & _).
  exists q', a', w'. split; [done|].
  rewrite (choose_feedback _ _ _ _ _ _ _ Hstep), Hromaji.
  split; [done|]. by eapply choose_timer.
Qed.

Lemma handle_return_feedback (s s' : TypeMode.t) (a a' : App) (w w' : world)
    (k : str) :
  TypeMode.word_mode s = false → TypeMode.kana s = Some k →
  TypeMode.handle_return s a w = Ok (s', a', w') →
  let romaji := default [] (assoc k (table a)) in
  let correct :=
    bool_decide (TypeMode.guess_of (TypeMode.input_text s) = romaji) in
  TypeMode.feedback s' = (if correct then k_CORRECT else romaji) ∧
  TypeMode.feedback_color s' = (if correct then OK else WARN) ∧
  TypeMode.input_text s' = [].
Proof.
  intros Hmode Hk. unfold TypeMode.handle_return, TypeMode.submit_kana.
  rewrite Hmode, Hk. cbn [mbind result_bind]. unfold table_get.
  destruct (assoc k (table a)) as [romaji|]; [|done].
  cbn [mbind result_bind default].
  destruct (bool_decide _).
  - destruct (Scene.update_best _ _) as [a1|]; [|done].
    cbn [mbind result_bind].
    destruct (Scene._bump_mastery _ _ _) as [a2|]; [|done].
    cbn [mbind result_bind mret result_ret].
    destruct (TypeMode._pick _ _ _) as [[k' g]|]; [|done].
    cbn [mbind result_bind mret result_ret]. by intros [= <- <- <-].
  - destruct (Scene._bump_mastery _ _ _) as [a2|]; [|done].
    cbn [mbind result_bind mret result_ret].
    destruct (TypeMode._pick _ _ _) as [[k' g]|]; [|done].
    cbn [mbind result_bind mret result_ret]. by intros [= <- <- <-].
Qed.

(** X25: on masteries in 1..10, the verdict on a typed kana is CORRECT in
    the colour [OK] when
    the text, normalised, is the romaji of the kana shown, and else that
    romaji in the colour [WARN]; the line is emptied in both cases. *)
Theorem typing_verdict (s : TypeMode.t) (a : App) (w : world) (k romaji : str) :
  app_ok a → typing_ok s a →
  TypeMode.kana s = Some k → assoc k (table a) = Some romaji →
  let correct :=
    bool_decide (TypeMode.guess_of (TypeMode.input_text s) = romaji) in
  ∃ s' a' w', TypeMode.handle_return s a w = Ok (s', a', w') ∧
    TypeMode.feedback s' = (if correct then k_CORRECT else romaji) ∧
    TypeMode.feedback_color s' = (if correct then OK else WARN) ∧
    TypeMode.input_text s' = [].
Proof.
  intros Hok Hs Hk Hromaji.
  destruct (handle_return_kana_ok s a w k romaji Hok Hs Hk Hromaji)
    as (s' & a' & w' & Hstep & _).
  exists s', a', w'. split; [done|].
  pose proof (handle_return_feedback s s' a a' w w' k (proj1 Hs) Hk Hstep)
    as Hfb.
  cbn zeta in Hfb. by rewrite Hromaji in Hfb.
Qed.

End Verdict.

(** ** The further properties on the sample inputs *)

Lemma sample_app_consistent : consistent sample_app.
Proof. by left. Qed.

(** X1 on the first kana, with every group selected. *)
Lemma filtered_single_characters_witness :
  length KANA_A = 1%nat ∧ KANA_A ∈ HIRAGANA.*1.
Proof.
  apply (filtered_single_characters [true; true; true] HIRAGANA KANA_A).
  vm_compute. apply list_elem_of_here.
Defined.

(** X2 with the first group alone. *)
Lemma filtered_not_empty_witness :
  filtered [true; false; false] kana_groups3 HIRAGANA ≠ [] ∧
  filtered [true; false; false] kana_groups3 KATAKANA ≠ [].
Proof. apply filtered_not_empty; reflexivity. Defined.

(** X3 on the word of the first two kana. *)
Lemma kana_to_romaji_concat_witness :
  TypeMode.kana_to_romaji HIRAGANA (concat [KANA_A; KANA_I])
  = concat ((λ k, default [] (assoc k HIRAGANA)) <$> [KANA_A; KANA_I]).
Proof.
  apply kana_to_romaji_concat; [by left|].
  apply Forall_cons. split; [apply list_elem_of_here|].
  apply Forall_cons. split; [|apply Forall_nil_2].
  apply list_elem_of_further, list_elem_of_here.
Defined.

(** X4 on a word of Latin letters. *)
Lemma kana_to_romaji_plain_witness :
  TypeMode.kana_to_romaji HIRAGANA (lit "abc") = lit "abc" ∧
  TypeMode.kana_to_romaji KATAKANA (lit "abc") = lit "abc".
Proof.
  apply kana_to_romaji_plain.
  repeat (apply Forall_cons; split; [reflexivity|]). apply Forall_nil_2.
Defined.

(** X5 on the application as it starts. *)
Lemma toggle_script_twice_witness :
  toggle_script (toggle_script sample_app) = sample_app.
Proof.
  apply (proj2 (proj2 (toggle_script_twice sample_app))). by left.
Defined.

(** X6 on the sample quiz. *)
Lemma pick_question_choices_witness :
  ∃ q' g', Quiz.pick_question (H := replay_host) sample_quiz sample_app [0.5%float]
           = Ok (q', g') ∧
    length (Quiz.choices q') = 4%nat ∧ NoDup ((Quiz.choices q').*2) ∧
    Quiz.labels q' = upper (Host := replay_host) <$> (Quiz.choices q').*2.
Proof.
  destruct (pick_question_choices (H := replay_host) (H0 := replay_host_ok)
              sample_quiz sample_app [0.5%float] sample_app_ok eq_refl)
    as (q' & g' & romaji & Hq' & _ & Hlen & Hnd & _ & _ & Hlabels).
  exists q', g'. split; [exact Hq'|]. split; [exact Hlen|].
  split; [exact Hnd|exact Hlabels].
Defined.

(** X7 for a click on the first label. *)
Lemma toggle_groups_twice_witness :
  ∃ sel', toggle_groups 0 sample_group_rects (5, 105) [true; true; true]
          = Ok sel' ∧
    toggle_groups 0 sample_group_rects (5, 105) sel' = Ok [true; true; true].
Proof.
  destruct (toggle_groups_twice sample_group_rects (5, 105) [true; true; true])
    as (sel' & Hsel' & _ & _ & Hback); [simpl; lia|].
  exists sel'. split; [exact Hsel'|exact Hback].
Defined.

(** X8 for the letter [a] typed on an empty line. *)
Lemma inputline_backspace_undoes_witness :
  InputLine.handle sample_printable (KEYDOWN K_OTHER (lit "a")) []
  = (lit "a", false) ∧
  InputLine.handle sample_printable (KEYDOWN K_BACKSPACE []) (lit "a")
  = ([], false).
Proof.
  apply (inputline_backspace_undoes sample_printable K_OTHER 97%N [] []);
    [discriminate|discriminate|reflexivity].
Defined.

(** X9 for the letter [b] typed after [a]. *)
Lemma inputline_printable_witness :
  forallb sample_printable
    (InputLine.handle sample_printable (KEYDOWN K_OTHER (lit "b")) (lit "a")).1
  = true.
Proof.
  apply (inputline_printable sample_printable (KEYDOWN K_OTHER (lit "b"))
           (lit "a")).
  reflexivity.
Defined.

(** X10 on the flashcards of two kana, at the first. *)
Lemma flashcards_next_previous_witness :
  ∃ f1 f2,
    Flashcards.handle (H := replay_host) (KEYDOWN K_RIGHT []) sample_flashcards
      sample_app [] = Ok (f1, [], false) ∧
    Flashcards.handle (H := replay_host) (KEYDOWN K_LEFT []) sample_flashcards
      sample_app [] = Ok (f2, [], false) ∧
    0 ≤ Flashcards.index f1 < 2 ∧ 0 ≤ Flashcards.index f2 < 2.
Proof.
  destruct (flashcards_next_previous (H := replay_host) sample_flashcards
              sample_app [] [] [] eq_refl)
    as (f1 & f2 & H1 & H2 & Hi1 & Hi2 & _); [discriminate|].
  exists f1, f2. split; [exact H1|]. split; [exact H2|].
  split; [exact Hi1|exact Hi2].
Defined.

(** X11 for a click on START with the first group selected. *)
Lemma flashcards_start_witness :
  ∃ f' g',
    Flashcards.handle (H := replay_host) (MOUSEBUTTONDOWN 1 sample_pos)
      sample_flashcards_selecting sample_app [] = Ok (f', g', false) ∧
    Flashcards.selecting f' = false ∧
    Flashcards.kana_list f' ≡ₚ
      filtered [true; false; false] kana_groups3 (table sample_app).
Proof.
  destruct (flashcards_start (H := replay_host) (H0 := replay_host_ok)
              sample_flashcards_selecting sample_app [] sample_pos eq_refl)
    as (sel & f' & g' & Hsel & Hf' & _ & Hstart); [simpl; lia|].
  injection Hsel as <-.
  exists f', g'. split; [exact Hf'|].
  split; [exact (proj1 Hstart)|exact (proj1 (proj2 Hstart))].
Defined.

(** X12 for a click on the third button of the sample quiz and for one
    beside the buttons. *)
Lemma quiz_click_answers_once_witness :
  Quiz_handle (H := replay_host) (MOUSEBUTTONDOWN 1 (400, 540))
    sample_quiz_scene sample_app sample_world
  = ('(q, a, w) ← Quiz.choose (H := replay_host) 2 sample_quiz sample_app
                     sample_world;
     Ok (QuizScene q false [None; None; None] None
           [false; false; false; false], a, w, false)) ∧
  Quiz_handle (H := replay_host) (MOUSEBUTTONDOWN 1 sample_pos)
    sample_quiz_scene sample_app sample_world
  = Ok (sample_quiz_scene, sample_app, sample_world, false).
Proof.
  split.
  - apply (proj1 (quiz_click_answers_once (H := replay_host) (400, 540)
                    sample_quiz_scene sample_app sample_world eq_refl)
             2%nat); [lia|reflexivity].
  - apply (proj2 (quiz_click_answers_once (H := replay_host) sample_pos
                    sample_quiz_scene sample_app sample_world eq_refl)).
    intros [|[|[|[|i]]]] Hi; [reflexivity..|lia].
Defined.

(** X13 on the application as it starts. *)
Lemma Quiz_init_asks_a_kana_witness :
  ∃ s g', Quiz_init (H := replay_host) sample_app [0.5%float] = Ok (s, g') ∧
    q_selecting s = true ∧ length (Quiz.kana (q_state s)) = 1%nat.
Proof.
  destruct (Quiz_init_asks_a_kana (H := replay_host) (H0 := replay_host_ok)
              sample_app [0.5%float] sample_app_ok sample_app_consistent)
    as (s & g' & Hs & Hsel & _ & _ & _ & _ & _ & Hlen).
  exists s, g'. split; [exact Hs|]. split; [exact Hsel|exact Hlen].
Defined.

(** X14 for a click on START with the second group selected. *)
Lemma quiz_start_witness :
  ∃ s' w',
    Quiz_handle (H := replay_host) (MOUSEBUTTONDOWN 1 sample_pos)
      sample_quiz_selecting sample_app sample_world
    = Ok (s', sample_app, w', false) ∧
    q_selecting s' = false ∧
    Quiz.kana (q_state s')
    ∈ filtered [false; true; false] kana_groups3 (table sample_app).
Proof.
  destruct (quiz_start (H := replay_host) (H0 := replay_host_ok) sample_pos
              sample_quiz_selecting sample_app sample_world sample_app_ok
              sample_app_consistent eq_refl eq_refl eq_refl eq_refl)
    as (sel & s' & w' & Hsel & Hs' & _ & _ & Hstart); [simpl; lia|].
  injection Hsel as <-.
  exists s', w'. split; [exact Hs'|].
  split; [exact (proj1 Hstart)|exact (proj2 (proj2 Hstart))].
Defined.

(** X15 for a click on START with the groups as the scene opens. *)
Lemma typing_start_kana_witness :
  ∃ s' k,
    TypeMode_handle (H := replay_host) sample_printable sample_no_words
      (MOUSEBUTTONDOWN 1 sample_pos) sample_typing_selecting sample_app
      sample_world
    = Ok (s', sample_app, World (H := replay_host) [] sample_disk, false) ∧
    t_selecting s' = false ∧ TypeMode.kana (t_state s') = Some k ∧
    length k = 1%nat.
Proof.
  destruct (typing_start_kana (H := replay_host)
              sample_printable sample_no_words sample_pos
              sample_typing_selecting sample_app sample_world
              [true; true; true; false] sample_app_ok sample_app_consistent
              eq_refl eq_refl eq_refl eq_refl eq_refl eq_refl eq_refl)
    as (s' & k & Hs' & Hsel & _ & Hk & _ & Hlen & _).
  exists s', k. split; [exact Hs'|]. split; [exact Hsel|].
  split; [exact Hk|exact Hlen].
Defined.

(** X16 with the words [load_words] falls back to. *)
Lemma word_mode_without_words_witness :
  ∃ s, TypeMode_start (H := replay_host) sample_no_words
         [false; false; false; true] sample_no_kana sample_app [] = Ok (s, []) ∧
    TypeMode.handle_return (H := replay_host)
      (TypeMode.set_feedback [] WHITE_255 0
         (TypeMode.set_input_text (lit "a") s)) sample_app sample_world
    = Ok (TypeMode.set_feedback k_no_words WHITE_255 45 s, sample_app,
          sample_world).
Proof.
  destruct (word_mode_without_words (H := replay_host) sample_no_words
              [false; false; false; true] sample_no_kana sample_app []
              eq_refl eq_refl)
    as (s & Hs & _ & _ & _ & _ & _ & Hret).
  exists s. split; [exact Hs|apply Hret].
Defined.

(** X17 for the letter [a] typed in the sample scene. *)
Lemma typing_only_return_answers_witness :
  TypeMode_handle (H := replay_host) sample_printable sample_no_words
    (KEYDOWN K_OTHER (lit "a")) sample_typing_scene sample_app sample_world
  = Ok (TypingScene
          (TypeMode.set_input_text (lit " A a") sample_typing)
          false [None; None; None; None] None,
        sample_app, sample_world, false).
Proof.
  apply (proj1 (typing_only_return_answers (H := replay_host) sample_printable
                  sample_no_words (KEYDOWN K_OTHER (lit "a"))
                  sample_typing_scene sample_app sample_world eq_refl)).
  intros u. discriminate.
Defined.

(** X18 after one answer in the sample quiz. *)
Lemma session_survives_restart_witness :
  ∃ a' w',
    rtc (answer_step (H := replay_host)) (sample_app, sample_world) (a', w') ∧
    progress (App_init (H := replay_host) (w_disk w')) = progress a'.
Proof.
  destruct (choose_ok (H := replay_host) (H0 := replay_host_ok) 2 sample_quiz
              sample_app sample_world sample_app_ok sample_quiz_ok)
    as (q' & a' & w' & Hstep & _).
  assert (rtc (answer_step (H := replay_host)) (sample_app, sample_world)
              (a', w')) as Hrun.
  { apply rtc_once. exact (step_choose _ _ _ _ _ _ _ Hstep). }
  exists a', w'. split; [exact Hrun|].
  apply (session_survives_restart (H := replay_host) sample_disk
           [0.5%float] a' w'); [intros v; reflexivity|reflexivity|reflexivity|].
  exact Hrun.
Defined.

(** X19 on a save file of an earlier version: the mastery 0.5 is loaded
    as 5, the missing keys are filled, and that state is read back once
    saved. *)
Lemma load_save_load_witness :
  load_progress (H := replay_host) sample_legacy_disk
  = {[ k_hiragana := JDict {[ KANA_A := JInt 5 ]};
       k_katakana := JDict ∅;
       k_best_score := JDict default_best_score ]} ∧
  load_progress (H := replay_host)
    (save_progress (H := replay_host)
       (load_progress (H := replay_host) sample_legacy_disk) sample_disk)
  = load_progress (H := replay_host) sample_legacy_disk.
Proof.
  split; [by vm_compute|].
  apply (load_save_load (H := replay_host) sample_legacy_disk sample_disk);
    reflexivity.
Defined.

(** X20 for twelve right answers on a kana not yet answered, which take
    it to 10. *)
Lemma mastery_saturates_witness :
  ∃ a' prog',
    Nat.iter 12 (λ r, r ≫= Scene._bump_mastery (H := replay_host) KANA_A 1)
      (Ok sample_app) = Ok a' ∧
    masteries a' k_hiragana = Some prog' ∧ mastery prog' KANA_A = 10.
Proof.
  destruct (mastery_saturates (H := replay_host) KANA_A 1 12 sample_app ∅)
    as (a' & prog' & Hrun & _ & Hprog' & Hm & _).
  - reflexivity.
  - intros k v Hk. rewrite lookup_empty in Hk. discriminate Hk.
  - unfold mastery. rewrite lookup_empty. lia.
  - exists a', prog'. split; [exact Hrun|]. split; [exact Hprog'|exact Hm].
Defined.

(** X21 for three right answers from the start of the sample quiz. *)
Lemma streak_of_right_answers_witness :
  ∃ q' a' w',
    answer_right (H := replay_host) 3 sample_quiz sample_app sample_world
    = Ok (q', a', w') ∧
    Quiz.streak q' = 3 ∧ best_score a' k_hiragana = Some 3.
Proof.
  assert (best_score sample_app (script_name sample_app) = Some 0) as Hbest
    by (vm_compute; reflexivity).
  destruct (streak_of_right_answers (H := replay_host) (H0 := replay_host_ok)
              3 sample_quiz sample_app sample_world 0 sample_app_ok
              sample_quiz_ok Hbest)
    as (q' & a' & w' & Hrun & Hstreak & _ & _ & Hbest' & _); [lia|].
  exists q', a', w'. split; [exact Hrun|]. split; [exact Hstreak|exact Hbest'].
Defined.

(** X22 fifty updates after an answer in the sample quiz. *)
Lemma quiz_feedback_lasts_witness :
  ∃ q' a' w',
    Quiz.choose (H := replay_host) 2 sample_quiz sample_app sample_world
    = Ok (q', a', w') ∧
    Quiz.feedback_timer
      (q_state (Nat.iter 50 Quiz_update
                  (QuizScene q' false [None; None; None] None []))) = 0.
Proof.
  destruct (choose_ok (H := replay_host) (H0 := replay_host_ok) 2 sample_quiz
              sample_app sample_world sample_app_ok sample_quiz_ok)
    as (q' & a' & w' & Hstep & _).
  exists q', a', w'. split; [exact Hstep|].
  exact (proj1 (quiz_feedback_lasts (H := replay_host) 2 sample_quiz q'
                  sample_app a' sample_world w'
                  (QuizScene q' false [None; None; None] None []) 50
                  Hstep eq_refl eq_refl)).
Defined.

(** X23 ten updates after an answer in the sample typing. *)
Lemma typing_feedback_lasts_witness :
  ∃ s' a' w',
    TypeMode.handle_return (H := replay_host) sample_typing sample_app
      sample_world = Ok (s', a', w') ∧
    Nat.iter 10 TypeMode_update s' = TypeMode.set_feedback_timer 35 s'.
Proof.
  destruct (handle_return_kana_ok (H := replay_host)
              sample_typing sample_app sample_world KANA_A (lit "a")
              sample_app_ok sample_typing_ok eq_refl eq_refl)
    as (s' & a' & w' & Hstep & _).
  exists s', a', w'. split; [exact Hstep|].
  exact (typing_feedback_lasts (H := replay_host) sample_typing s' sample_app
           a' sample_world w' 10 Hstep).
Defined.

(** X24 for a click on the first button of the sample quiz, the right
    answer being on the third. *)
Lemma quiz_verdict_witness :
  ∃ q' a' w',
    Quiz.choose (H := replay_host) 0 sample_quiz sample_app sample_world
    = Ok (q', a', w') ∧ Quiz.feedback q' = lit "a".
Proof.
  destruct (quiz_verdict (H := replay_host) (H0 := replay_host_ok) 0
              sample_quiz sample_app sample_world (lit "a") sample_app_ok
              sample_quiz_ok eq_refl)
    as (q' & a' & w' & Hstep & Hfb & _).
  exists q', a', w'. split; [exact Hstep|exact Hfb].
Defined.

(** X25 for [" A "] typed for the kana read "a". *)
Lemma typing_verdict_witness :
  ∃ s' a' w',
    TypeMode.handle_return (H := replay_host) sample_typing sample_app
      sample_world = Ok (s', a', w') ∧
    TypeMode.feedback s' = k_CORRECT ∧ TypeMode.feedback_color s' = OK.
Proof.
  destruct (typing_verdict (H := replay_host) sample_typing
              sample_app sample_world KANA_A (lit "a") sample_app_ok
              sample_typing_ok eq_refl eq_refl)
    as (s' & a' & w' & Hstep & Hfb & Hcol & _).
  exists s', a', w'. split; [exact Hstep|]. split; [exact Hfb|exact Hcol].
Defined.
